(** * go-commons / indexers: the Elasticsearch and OpenSearch bindings

    A shallow embedding of [indexers/elastic.go] and of its OpenSearch
    twin: [new] (client set-up, health check, index verification) and
    [Index] (content-hash deduplication in front of the vendor bulk
    indexer, and the summary string).

    The vendor SDK, the clock, [encoding/json] and the other library
    calls the two files make are an interface ([Platform]); the code of
    the repository itself is translated function by function. SHA-256 and
    the hexadecimal encoding are written out, so that document ids can be
    computed. [new] is given a second time with the vendor's responses as
    pointers, which can be nil. *)

From Stdlib Require Import ZArith Ascii String List Lia.
From Stdlib Require Import DecimalString DecimalNat DecimalFacts.
From stdpp Require Import gmap strings list fin_maps.

Local Open Scope Z_scope.

(** ** Go strings and byte slices

    A Go [string] and a [[]byte] are both sequences of 8-bit bytes; both
    are Rocq [string]s here. *)

Definition byte_val (c : ascii) : Z := Z.of_N (N_of_ascii c).
Definition byte_of (z : Z) : ascii := ascii_of_N (Z.to_N (z mod 256)).

Definition bytes_of_string (s : string) : list Z :=
  map byte_val (list_ascii_of_string s).

(** ** crypto/sha256 (FIPS 180-4), on 32-bit words held in [Z] *)

Module SHA256.

Definition wrap (x : Z) : Z := x mod 2 ^ 32.
Definition add32 (x y : Z) : Z := wrap (x + y).
Definition not32 (x : Z) : Z := Z.lxor x 4294967295.
Definition rotr (n x : Z) : Z :=
  Z.lor (Z.shiftr x n) (wrap (Z.shiftl x (32 - n))).

Definition Ch (x y z : Z) : Z := Z.lxor (Z.land x y) (Z.land (not32 x) z).
Definition Maj (x y z : Z) : Z :=
  Z.lxor (Z.lxor (Z.land x y) (Z.land x z)) (Z.land y z).
Definition bsig0 (x : Z) : Z := Z.lxor (Z.lxor (rotr 2 x) (rotr 13 x)) (rotr 22 x).
Definition bsig1 (x : Z) : Z := Z.lxor (Z.lxor (rotr 6 x) (rotr 11 x)) (rotr 25 x).
Definition ssig0 (x : Z) : Z := Z.lxor (Z.lxor (rotr 7 x) (rotr 18 x)) (Z.shiftr x 3).
Definition ssig1 (x : Z) : Z := Z.lxor (Z.lxor (rotr 17 x) (rotr 19 x)) (Z.shiftr x 10).

(** The constants of section 4.2.2 and the initial hash value of
    section 5.3.3: the first 32 bits of the fractional parts of the cube
    roots of the first 64 primes, and of the square roots of the first 8.
    They are computed here rather than tabulated. *)

Definition primes : list Z :=
  [ 2; 3; 5; 7; 11; 13; 17; 19; 23; 29; 31; 37; 41; 43; 47; 53; 59; 61; 67; 71;
    73; 79; 83; 89; 97; 101; 103; 107; 109; 113; 127; 131; 137; 139; 149; 151;
    157; 163; 167; 173; 179; 181; 191; 193; 197; 199; 211; 223; 227; 229; 233;
    239; 241; 251; 257; 263; 269; 271; 277; 281; 283; 293; 307; 311 ].

(** The largest [x] in [[lo, hi)] with [x^3 <= n], by bisection. *)
Fixpoint cube_root (fuel : nat) (lo hi n : Z) : Z :=
  match fuel with
  | O => lo
  | S fuel' =>
      if hi - lo <=? 1 then lo
      else
        let mid := (lo + hi) / 2 in
        if mid * mid * mid <=? n then cube_root fuel' mid hi n
        else cube_root fuel' lo mid n
  end.

Definition K : list Z :=
  Eval vm_compute in
    map (fun p => wrap (cube_root 64 0 (2 ^ 40) (p * 2 ^ 96))) primes.

Definition H0 : list Z :=
  Eval vm_compute in
    map (fun p => wrap (Z.sqrt (p * 2 ^ 64))) (firstn 8 primes).

(** Padding: the byte 0x80, zero bytes up to 56 modulo 64, then the
    message length in bits as a 64-bit big-endian integer. *)

Fixpoint be_bytes (n : nat) (x : Z) : list Z :=
  match n with
  | O => []
  | S n' => be_bytes n' (Z.shiftr x 8) ++ [x mod 256]
  end.

Definition pad (msg : list Z) : list Z :=
  let len := Z.of_nat (length msg) in
  let zeros := Z.to_nat ((55 - len) mod 64) in
  msg ++ [128] ++ repeat 0 zeros ++ be_bytes 8 (len * 8).

(** Big-endian 32-bit words of a byte sequence (whose length is a
    multiple of four after padding). *)
Fixpoint words (bs : list Z) : list Z :=
  match bs with
  | b0 :: b1 :: b2 :: b3 :: rest =>
      (Z.lor (Z.shiftl b0 24) (Z.lor (Z.shiftl b1 16) (Z.lor (Z.shiftl b2 8) b3)))
        :: words rest
  | _ => []
  end.

(** The message schedule: sixteen words of the block, extended to 64. *)
Fixpoint schedule (n : nat) (ws : list Z) : list Z :=
  match n with
  | O => ws
  | S n' =>
      let t := length ws in
      let at_ (i : nat) := nth (t - i) ws 0 in
      schedule n'
        (ws ++ [add32 (add32 (ssig1 (at_ 2%nat)) (at_ 7%nat))
                      (add32 (ssig0 (at_ 15%nat)) (at_ 16%nat))])
  end.

Record regs := Regs { ra : Z; rb : Z; rc : Z; rd : Z; re : Z; rf : Z; rg : Z; rh : Z }.

Definition round (s : regs) (kw : Z * Z) : regs :=
  let t1 := add32 (add32 (add32 (rh s) (bsig1 (re s))) (Ch (re s) (rf s) (rg s)))
                  (add32 (fst kw) (snd kw)) in
  let t2 := add32 (bsig0 (ra s)) (Maj (ra s) (rb s) (rc s)) in
  Regs (add32 t1 t2) (ra s) (rb s) (rc s) (add32 (rd s) t1) (re s) (rf s) (rg s).

Definition regs_of (h : list Z) : regs :=
  Regs (nth 0 h 0) (nth 1 h 0) (nth 2 h 0) (nth 3 h 0)
       (nth 4 h 0) (nth 5 h 0) (nth 6 h 0) (nth 7 h 0).

Definition compress (h : list Z) (block : list Z) : list Z :=
  let s0 := regs_of h in
  let s := fold_left round (combine K (schedule 48 block)) s0 in
  [ add32 (ra s0) (ra s); add32 (rb s0) (rb s); add32 (rc s0) (rc s);
    add32 (rd s0) (rd s); add32 (re s0) (re s); add32 (rf s0) (rf s);
    add32 (rg s0) (rg s); add32 (rh s0) (rh s) ].

(** Blocks of sixteen words; [fuel] bounds the number of blocks. *)
Fixpoint blocks (fuel : nat) (h : list Z) (ws : list Z) : list Z :=
  match fuel with
  | O => h
  | S fuel' =>
      match ws with
      | [] => h
      | _ => blocks fuel' (compress h (firstn 16 ws)) (skipn 16 ws)
      end
  end.

(** The 32-byte digest of a message. *)
Definition digest (msg : list Z) : list Z :=
  let ws := words (pad msg) in
  flat_map (be_bytes 4) (blocks (S (length ws)) H0 ws).

End SHA256.

(** ** encoding/hex *)

Definition hex_digit (n : Z) : ascii :=
  if n <? 10 then byte_of (48 + n) else byte_of (87 + n).

Fixpoint hex_EncodeToString (bs : list Z) : string :=
  match bs with
  | [] => EmptyString
  | b :: rest =>
      String (hex_digit (b / 16)) (String (hex_digit (b mod 16)) (hex_EncodeToString rest))
  end.

(** ** hash.Hash as used by the indexers

    The state of the hasher is the sequence of bytes written since the
    last [Reset]; [Sum(nil)] digests all of it and leaves the state as it
    is. *)

Definition hasher_state := string.
Definition sha256_New : hasher_state := EmptyString.
Definition hasher_Write (h : hasher_state) (p : string) : hasher_state := h +:+ p.
Definition hasher_Sum (h : hasher_state) : list Z := SHA256.digest (bytes_of_string h).
Definition hasher_Reset (h : hasher_state) : hasher_state := EmptyString.

(** ** fmt

    The verbs the indexers use: [%d] and [%v] on integers print the
    decimal numeral; [%s] on a string or an error prints its text. *)

Definition fmt_nat (n : nat) : string := NilZero.string_of_uint (Nat.to_uint n).
Definition fmt_int (z : Z) : string := NilZero.string_of_int (Z.to_int z).

(** A Go [error] is observed through its message only. *)
Record error := errorString { Error : string }.

Definition fmt_Errorf (msg : string) : error := errorString msg.

(** ** time.Duration: nanoseconds in an [int64] *)

Definition Millisecond : Z := 1000000.
Definition Minute : Z := 60 * 1000 * Millisecond.

(** [d.Truncate(m)] is [d - d%m] for a positive [m] (Go's [%] truncates
    towards zero) and [d] otherwise. *)
Definition Duration_Truncate (d m : Z) : Z :=
  if m <=? 0 then d else d - Z.rem d m.

(** ** Data of the package *)

Record IndexerConfig := {
  Type_ : string;
  Servers : list string;
  Index : string;
  InsecureSkipVerify : bool
}.

Record IndexingOpts := {
  MetricName : string;
  JobName : string
}.

(** The vendor's client configuration: the addresses and the TLS switch
    of the transport. *)
Record ClientConfig := {
  Addresses : list string;
  TLS_InsecureSkipVerify : bool
}.

(** A bulk item. Its [OnSuccess] closure is the same for every item and
    is the function [OnSuccess] below. *)
Record BulkIndexerItem := {
  Action : string;
  Body : string;
  DocumentID : string
}.

Record BulkIndexerResponseItem := { Result : string }.

(** ** The platform: the vendor SDK and the Go library calls

    Every vendor call takes the world to a new world. The success
    callbacks run on the vendor's worker goroutines, under the mutex of
    [Index]; a call to [Add] or [Close] reports the response items whose
    callback ran until that call returned. [map_range] is the order in
    which a [range] over a map visits it, which Go leaves unspecified.
    The methods of a vendor response ([StatusCode], [IsError], [String])
    are total: a call yields a response, also when it yields an error.
    The runs in which the vendor returns a nil response are the matter of
    the section on pointers below. *)

Class Platform := {
  document : Type;
  Client : Type;
  BulkIndexer : Type;
  Response : Type;
  World : Type;

  json_Marshal : document -> string + error;
  fmt_s : document -> string;
  strings_ToLower : string -> string;
  Duration_String : Z -> string;
  runtime_NumCPU : Z;
  time_Now : World -> Z;
  map_range : World -> gmap string nat -> list (string * nat);
  map_range_perm : forall w m, map_range w m ≡ₚ map_to_list m;

  StatusCode : Response -> Z;
  IsError : Response -> bool;
  Response_String : Response -> string;

  NewClient : ClientConfig -> World -> (Client * option error) * World;
  Cluster_Health : Client -> World -> (Response * option error) * World;
  Indices_Exists : Client -> list string -> World -> (Response * option error) * World;
  Indices_Create : Client -> string -> World -> (Response * option error) * World;
  NewBulkIndexer : Client -> string -> Z -> Z -> Z -> World -> (BulkIndexer * option error) * World;
  bi_Add : BulkIndexer -> BulkIndexerItem -> World
           -> (list BulkIndexerResponseItem * option error) * World;
  bi_Close : BulkIndexer -> World
             -> (list BulkIndexerResponseItem * option error) * World
}.

Record BulkIndexerConfig `{Platform} := {
  bic_Client : Client;
  bic_Index : string;
  FlushBytes : Z;
  NumWorkers : Z;
  Timeout : Z
}.

(** What the package asked of the vendor, and what the vendor answered. *)
Inductive event `{Platform} :=
| EvNewClient (cfg : ClientConfig) (err : option error)
| EvHealth (r : Response) (err : option error)
| EvExists (indices : list string) (r : Response) (err : option error)
| EvCreate (index : string) (r : Response) (err : option error)
| EvNewBulkIndexer (cfg : BulkIndexerConfig) (err : option error)
| EvAdd (item : BulkIndexerItem) (successes : list BulkIndexerResponseItem)
        (err : option error)
| EvClose (successes : list BulkIndexerResponseItem) (err : option error).

(** The state a call runs in: the world, the log of vendor calls, and the
    package-level client variable ([ESClient], resp. [OSClient]). *)
Record state `{Platform} := State {
  world : World;
  calls : list event;
  SDKClient : Client
}.

Arguments State {_} _ _ _.
Arguments Build_BulkIndexerConfig {_} _ _ _ _ _.

Section Monad.
Context `{Platform}.

Definition M (A : Type) : Type := state -> A * state.

Definition ret {A} (a : A) : M A := fun s => (a, s).
Definition bind {A B} (m : M A) (k : A -> M B) : M B :=
  fun s => let (a, s') := m s in k a s'.

Definition vendor {A} (op : World -> A * World) (log : A -> event) : M A :=
  fun s =>
    let (a, w) := op (world s) in
    (a, State w (calls s ++ [log a]) (SDKClient s)).

Definition get_client : M Client := fun s => (SDKClient s, s).
Definition set_client (c : Client) : M unit :=
  fun s => (tt, State (world s) (calls s) c).
Definition now : M Z := fun s => (time_Now (world s), s).
Definition range_map (m : gmap string nat) : M (list (string * nat)) :=
  fun s => (map_range (world s) m, s).

Definition do_NewClient (cfg : ClientConfig) : M (Client * option error) :=
  vendor (NewClient cfg) (fun a => EvNewClient cfg (snd a)).
Definition do_Health (c : Client) : M (Response * option error) :=
  vendor (Cluster_Health c) (fun a => EvHealth (fst a) (snd a)).
Definition do_Exists (c : Client) (l : list string) : M (Response * option error) :=
  vendor (Indices_Exists c l) (fun a => EvExists l (fst a) (snd a)).
Definition do_Create (c : Client) (i : string) : M (Response * option error) :=
  vendor (Indices_Create c i) (fun a => EvCreate i (fst a) (snd a)).
Definition do_NewBulkIndexer (cfg : BulkIndexerConfig) : M (BulkIndexer * option error) :=
  vendor (NewBulkIndexer (bic_Client cfg) (bic_Index cfg) (FlushBytes cfg)
                          (NumWorkers cfg) (Timeout cfg))
         (fun a => EvNewBulkIndexer cfg (snd a)).
Definition do_Add (bi : BulkIndexer) (item : BulkIndexerItem)
  : M (list BulkIndexerResponseItem * option error) :=
  vendor (bi_Add bi item) (fun a => EvAdd item (fst a) (snd a)).
Definition do_Close (bi : BulkIndexer)
  : M (list BulkIndexerResponseItem * option error) :=
  vendor (bi_Close bi) (fun a => EvClose (fst a) (snd a)).
End Monad.

Notation "'let*' x ':=' m 'in' k" := (bind m (fun x => k))
  (at level 10, x pattern, m at level 100, k at level 200).

(** ** The variables of [Index]

    [indexerStats] is written by the success callbacks and read after
    [Close]; the others are locals of the loop over the documents. At the
    start of the loop they are [sha256.New()], an empty [docHash], [0]
    and an empty [indexerStats]. *)

Record locals := Locals {
  hasher : hasher_state;
  docHash : gmap string bool;
  redundantSkipped : nat;
  indexerStats : gmap string nat
}.

(** The [OnSuccess] closure: [indexerStats[biri.Result]++]. *)
Definition OnSuccess (indexerStats : gmap string nat) (biri : BulkIndexerResponseItem)
  : gmap string nat :=
  <[Result biri := S (default 0%nat (indexerStats !! Result biri))]> indexerStats.

Definition run_callbacks (biris : list BulkIndexerResponseItem) (l : locals) : locals :=
  Locals (hasher l) (docHash l) (redundantSkipped l)
         (fold_left OnSuccess biris (indexerStats l)).

(** [statString += fmt.Sprintf(" %s=%d", stat, val)] over the visited
    entries. *)
Definition stat_entry (e : string * nat) : string :=
  " " +:+ fst e +:+ "=" +:+ fmt_nat (snd e).

Definition add_stats (statString : string) (entries : list (string * nat)) : string :=
  fold_left (fun acc e => acc +:+ stat_entry e) entries statString.

(** ** indexers/elastic.go *)

Module Elastic.

Record Elastic := { index : string }.

Section Methods.
Context `{Platform}.

(** [func (esIndexer *Elastic) new(indexerConfig IndexerConfig) error] *)
Definition new (esIndexer : Elastic) (indexerConfig : IndexerConfig)
  : M (Elastic * option error) :=
  if String.eqb (Index indexerConfig) "" then
    ret (esIndexer, Some (fmt_Errorf "index name not specified"))
  else
    let esIndex := strings_ToLower (Index indexerConfig) in
    let cfg := {| Addresses := Servers indexerConfig;
                  TLS_InsecureSkipVerify := InsecureSkipVerify indexerConfig |} in
    let* (client, err) := do_NewClient cfg in
    let* _ := set_client client in
    match err with
    | Some err =>
        ret (esIndexer, Some (fmt_Errorf ("error creating the ES client: " +:+ Error err)))
    | None =>
        let* ESClient := get_client in
        let* (r, err) := do_Health ESClient in
        match err with
        | Some err =>
            ret (esIndexer, Some (fmt_Errorf ("ES health check failed: " +:+ Error err)))
        | None =>
            if negb (StatusCode r =? 200) then
              ret (esIndexer,
                   Some (fmt_Errorf ("unexpected ES status code: "
                                     +:+ fmt_int (StatusCode r))))
            else
              let esIndexer := {| index := esIndex |} in
              let* (r, _) := do_Exists ESClient [esIndex] in
              if IsError r then
                let* (r, _) := do_Create ESClient esIndex in
                if IsError r then
                  ret (esIndexer,
                       Some (fmt_Errorf ("error creating index " +:+ esIndex
                                         +:+ " on ES: " +:+ Response_String r)))
                else ret (esIndexer, None)
              else ret (esIndexer, None)
        end
    end.

(** The body of [for _, document := range documents]: the error of an
    early [return], or the variables after the last document. *)
Fixpoint range_documents (bi : BulkIndexer) (documents : list document) (l : locals)
  : M (error + locals) :=
  match documents with
  | [] => ret (inr l)
  | document :: documents' =>
      match json_Marshal document with
      | inr err =>
          ret (inl (fmt_Errorf ("Cannot encode document " +:+ fmt_s document
                                +:+ ": " +:+ Error err)))
      | inl j =>
          let hasher := hasher_Write (hasher l) j in
          let docId := hex_EncodeToString (hasher_Sum hasher) in
          match docHash l !! docId with
          | Some _ =>
              range_documents bi documents'
                (Locals hasher (docHash l) (redundantSkipped l + 1) (indexerStats l))
          | None =>
              let* (biris, err) :=
                do_Add bi {| Action := "index"; Body := j; DocumentID := docId |} in
              let l := run_callbacks biris l in
              match err with
              | Some err =>
                  ret (inl (fmt_Errorf ("Unexpected ES indexing error: "
                                        +:+ Error err)))
              | None =>
                  range_documents bi documents'
                    (Locals (hasher_Reset hasher) (<[docId := true]> (docHash l))
                            (redundantSkipped l) (indexerStats l))
              end
          end
      end
  end.

(** [func (esIndexer *Elastic) Index(documents []interface{}, opts IndexingOpts) (string, error)] *)
Definition Index (esIndexer : Elastic) (documents : list document) (opts : IndexingOpts)
  : M (string * option error) :=
  let statString := "" in
  if (length documents <=? 0)%nat then
    ret ("Indexing skipped due to " +:+ fmt_nat (length documents) +:+ " docs", None)
  else
    let* ESClient := get_client in
    let* (bi, err) :=
      do_NewBulkIndexer {| bic_Client := ESClient;
                           bic_Index := index esIndexer;
                           FlushBytes := 5000000;
                           NumWorkers := runtime_NumCPU;
                           Timeout := 10 * Minute |} in
    match err with
    | Some err =>
        ret ("", Some (fmt_Errorf ("Error creating the indexer: " +:+ Error err)))
    | None =>
        let* start := now in
        let* r := range_documents bi documents (Locals sha256_New ∅ 0 ∅) in
        match r with
        | inl err => ret ("", Some err)
        | inr l =>
            let* (biris, err) := do_Close bi in
            let l := run_callbacks biris l in
            match err with
            | Some err =>
                ret ("", Some (fmt_Errorf ("Unexpected ES error: " +:+ Error err)))
            | None =>
                let* t := now in
                let dur := t - start in
                let* entries := range_map (indexerStats l) in
                let statString := add_stats statString entries in
                let statString :=
                  if (0 <? redundantSkipped l)%nat then
                    statString +:+ " redundantskipped=" +:+ fmt_nat (redundantSkipped l)
                  else statString in
                ret ("Indexing finished in "
                     +:+ Duration_String (Duration_Truncate dur Millisecond)
                     +:+ ":" +:+ statString, None)
            end
        end
    end.
End Methods.

End Elastic.

(** ** The OpenSearch twin of elastic.go *)

Module OpenSearch.

Record OpenSearch := { index : string }.

Section Methods.
Context `{Platform}.

(** [func (OpenSearchIndexer *OpenSearch) new(indexerConfig IndexerConfig) error] *)
Definition new (OpenSearchIndexer : OpenSearch) (indexerConfig : IndexerConfig)
  : M (OpenSearch * option error) :=
  if String.eqb (Index indexerConfig) "" then
    ret (OpenSearchIndexer, Some (fmt_Errorf "index name not specified"))
  else
    let OpenSearchIndex := strings_ToLower (Index indexerConfig) in
    let cfg := {| Addresses := Servers indexerConfig;
                  TLS_InsecureSkipVerify := InsecureSkipVerify indexerConfig |} in
    let* (client, err) := do_NewClient cfg in
    let* _ := set_client client in
    match err with
    | Some err =>
        ret (OpenSearchIndexer, Some (fmt_Errorf ("error creating the OpenSearch client: " +:+ Error err)))
    | None =>
        let* OSClient := get_client in
        let* (r, err) := do_Health OSClient in
        match err with
        | Some err =>
            ret (OpenSearchIndexer, Some (fmt_Errorf ("OpenSearch health check failed: " +:+ Error err)))
        | None =>
            if negb (StatusCode r =? 200) then
              ret (OpenSearchIndexer,
                   Some (fmt_Errorf ("unexpected OpenSearch status code: "
                                     +:+ fmt_int (StatusCode r))))
            else
              let OpenSearchIndexer := {| index := OpenSearchIndex |} in
              let* (r, _) := do_Exists OSClient [OpenSearchIndex] in
              if IsError r then
                let* (r, _) := do_Create OSClient OpenSearchIndex in
                if IsError r then
                  ret (OpenSearchIndexer,
                       Some (fmt_Errorf ("error creating index " +:+ OpenSearchIndex
                                         +:+ " on OpenSearch: " +:+ Response_String r)))
                else ret (OpenSearchIndexer, None)
              else ret (OpenSearchIndexer, None)
        end
    end.

(** The body of [for _, document := range documents]: the error of an
    early [return], or the variables after the last document. *)
Fixpoint range_documents (bi : BulkIndexer) (documents : list document) (l : locals)
  : M (error + locals) :=
  match documents with
  | [] => ret (inr l)
  | document :: documents' =>
      match json_Marshal document with
      | inr err =>
          ret (inl (fmt_Errorf ("Cannot encode document " +:+ fmt_s document
                                +:+ ": " +:+ Error err)))
      | inl j =>
          let hasher := hasher_Write (hasher l) j in
          let docId := hex_EncodeToString (hasher_Sum hasher) in
          match docHash l !! docId with
          | Some _ =>
              range_documents bi documents'
                (Locals hasher (docHash l) (redundantSkipped l + 1) (indexerStats l))
          | None =>
              let* (biris, err) :=
                do_Add bi {| Action := "index"; Body := j; DocumentID := docId |} in
              let l := run_callbacks biris l in
              match err with
              | Some err =>
                  ret (inl (fmt_Errorf ("Unexpected OpenSearch indexing error: "
                                        +:+ Error err)))
              | None =>
                  range_documents bi documents'
                    (Locals (hasher_Reset hasher) (<[docId := true]> (docHash l))
                            (redundantSkipped l) (indexerStats l))
              end
          end
      end
  end.

(** [func (OpenSearchIndexer *OpenSearch) Index(documents []interface{}, opts IndexingOpts) (string, error)] *)
Definition Index (OpenSearchIndexer : OpenSearch) (documents : list document) (opts : IndexingOpts)
  : M (string * option error) :=
  let statString := "" in
  if (length documents <=? 0)%nat then
    ret ("Indexing skipped due to " +:+ fmt_nat (length documents) +:+ " docs", None)
  else
    let* OSClient := get_client in
    let* (bi, err) :=
      do_NewBulkIndexer {| bic_Client := OSClient;
                           bic_Index := index OpenSearchIndexer;
                           FlushBytes := 5000000;
                           NumWorkers := runtime_NumCPU;
                           Timeout := 10 * Minute |} in
    match err with
    | Some err =>
        ret ("", Some (fmt_Errorf ("Error creating the indexer: " +:+ Error err)))
    | None =>
        let* start := now in
        let* r := range_documents bi documents (Locals sha256_New ∅ 0 ∅) in
        match r with
        | inl err => ret ("", Some err)
        | inr l =>
            let* (biris, err) := do_Close bi in
            let l := run_callbacks biris l in
            match err with
            | Some err =>
                ret ("", Some (fmt_Errorf ("Unexpected OpenSearch error: " +:+ Error err)))
            | None =>
                let* t := now in
                let dur := t - start in
                let* entries := range_map (indexerStats l) in
                let statString := add_stats statString entries in
                let statString :=
                  if (0 <? redundantSkipped l)%nat then
                    statString +:+ " redundantskipped=" +:+ fmt_nat (redundantSkipped l)
                  else statString in
                ret ("Indexing finished in "
                     +:+ Duration_String (Duration_Truncate dur Millisecond)
                     +:+ ":" +:+ statString, None)
            end
        end
    end.
End Methods.

End OpenSearch.

(** ** The flow the two bindings share

    Both files run the same steps and differ in the text of their
    errors. [Core] is that flow with the failure as data; [es_text] and
    [os_text] are the texts of the two files. The lemmas [Elastic_new_core]
    to [OpenSearch_Index_core] relate each binding to it. *)

Module Core.

Inductive failure :=
| NoIndexName
| ClientFailed (e : error)
| HealthFailed (e : error)
| BadStatus (code : Z)
| CreateFailed (index : string) (response : string)
| BulkIndexerFailed (e : error)
| EncodeFailed (document : string) (e : error)
| AddFailed (e : error)
| CloseFailed (e : error).

Definition es_text (f : failure) : error :=
  match f with
  | NoIndexName => fmt_Errorf "index name not specified"
  | ClientFailed e => fmt_Errorf ("error creating the ES client: " +:+ Error e)
  | HealthFailed e => fmt_Errorf ("ES health check failed: " +:+ Error e)
  | BadStatus c => fmt_Errorf ("unexpected ES status code: " +:+ fmt_int c)
  | CreateFailed i r => fmt_Errorf ("error creating index " +:+ i +:+ " on ES: " +:+ r)
  | BulkIndexerFailed e => fmt_Errorf ("Error creating the indexer: " +:+ Error e)
  | EncodeFailed d e => fmt_Errorf ("Cannot encode document " +:+ d +:+ ": " +:+ Error e)
  | AddFailed e => fmt_Errorf ("Unexpected ES indexing error: " +:+ Error e)
  | CloseFailed e => fmt_Errorf ("Unexpected ES error: " +:+ Error e)
  end.

Definition os_text (f : failure) : error :=
  match f with
  | NoIndexName => fmt_Errorf "index name not specified"
  | ClientFailed e => fmt_Errorf ("error creating the OpenSearch client: " +:+ Error e)
  | HealthFailed e => fmt_Errorf ("OpenSearch health check failed: " +:+ Error e)
  | BadStatus c => fmt_Errorf ("unexpected OpenSearch status code: " +:+ fmt_int c)
  | CreateFailed i r =>
      fmt_Errorf ("error creating index " +:+ i +:+ " on OpenSearch: " +:+ r)
  | BulkIndexerFailed e => fmt_Errorf ("Error creating the indexer: " +:+ Error e)
  | EncodeFailed d e => fmt_Errorf ("Cannot encode document " +:+ d +:+ ": " +:+ Error e)
  | AddFailed e => fmt_Errorf ("Unexpected OpenSearch indexing error: " +:+ Error e)
  | CloseFailed e => fmt_Errorf ("Unexpected OpenSearch error: " +:+ Error e)
  end.

(** The summary of a finished call. *)
Definition redundant_entry (redundantSkipped : nat) : string :=
  if (0 <? redundantSkipped)%nat then " redundantskipped=" +:+ fmt_nat redundantSkipped
  else "".

Section Flow.
Context `{Platform}.

Definition summary (dur : Z) (entries : list (string * nat)) (redundantSkipped : nat)
  : string :=
  "Indexing finished in " +:+ Duration_String (Duration_Truncate dur Millisecond)
  +:+ ":" +:+ (add_stats "" entries +:+ redundant_entry redundantSkipped).

Definition new (index0 : string) (indexerConfig : IndexerConfig)
  : M (string * option failure) :=
  if String.eqb (Index indexerConfig) "" then ret (index0, Some NoIndexName)
  else
    let index := strings_ToLower (Index indexerConfig) in
    let cfg := {| Addresses := Servers indexerConfig;
                  TLS_InsecureSkipVerify := InsecureSkipVerify indexerConfig |} in
    let* (client, err) := do_NewClient cfg in
    let* _ := set_client client in
    match err with
    | Some err => ret (index0, Some (ClientFailed err))
    | None =>
        let* client := get_client in
        let* (r, err) := do_Health client in
        match err with
        | Some err => ret (index0, Some (HealthFailed err))
        | None =>
            if negb (StatusCode r =? 200) then
              ret (index0, Some (BadStatus (StatusCode r)))
            else
              let* (r, _) := do_Exists client [index] in
              if IsError r then
                let* (r, _) := do_Create client index in
                if IsError r then
                  ret (index, Some (CreateFailed index (Response_String r)))
                else ret (index, None)
              else ret (index, None)
        end
    end.

Fixpoint range_documents (bi : BulkIndexer) (documents : list document) (l : locals)
  : M (failure + locals) :=
  match documents with
  | [] => ret (inr l)
  | document :: documents' =>
      match json_Marshal document with
      | inr err => ret (inl (EncodeFailed (fmt_s document) err))
      | inl j =>
          let hasher := hasher_Write (hasher l) j in
          let docId := hex_EncodeToString (hasher_Sum hasher) in
          match docHash l !! docId with
          | Some _ =>
              range_documents bi documents'
                (Locals hasher (docHash l) (redundantSkipped l + 1) (indexerStats l))
          | None =>
              let* (biris, err) :=
                do_Add bi {| Action := "index"; Body := j; DocumentID := docId |} in
              let l := run_callbacks biris l in
              match err with
              | Some err => ret (inl (AddFailed err))
              | None =>
                  range_documents bi documents'
                    (Locals (hasher_Reset hasher) (<[docId := true]> (docHash l))
                            (redundantSkipped l) (indexerStats l))
              end
          end
      end
  end.

Definition Index (index : string) (documents : list document) (opts : IndexingOpts)
  : M (string * option failure) :=
  if (length documents <=? 0)%nat then
    ret ("Indexing skipped due to " +:+ fmt_nat (length documents) +:+ " docs", None)
  else
    let* client := get_client in
    let* (bi, err) :=
      do_NewBulkIndexer {| bic_Client := client;
                           bic_Index := index;
                           FlushBytes := 5000000;
                           NumWorkers := runtime_NumCPU;
                           Timeout := 10 * Minute |} in
    match err with
    | Some err => ret ("", Some (BulkIndexerFailed err))
    | None =>
        let* start := now in
        let* r := range_documents bi documents (Locals sha256_New ∅ 0 ∅) in
        match r with
        | inl f => ret ("", Some f)
        | inr l =>
            let* (biris, err) := do_Close bi in
            let l := run_callbacks biris l in
            match err with
            | Some err => ret ("", Some (CloseFailed err))
            | None =>
                let* t := now in
                let* entries := range_map (indexerStats l) in
                ret (summary (t - start) entries (redundantSkipped l), None)
            end
        end
    end.

(** Reading the log of vendor calls. *)

(** The step that failed upstream, for the five calls whose error the
    bindings look at. (The errors of [Exists] and [Create] are
    dropped by the code: [r, _ = ...].) *)
Definition failure_of (ev : event) : option failure :=
  match ev with
  | EvNewClient _ (Some e) => Some (ClientFailed e)
  | EvHealth _ (Some e) => Some (HealthFailed e)
  | EvNewBulkIndexer _ (Some e) => Some (BulkIndexerFailed e)
  | EvAdd _ _ (Some e) => Some (AddFailed e)
  | EvClose _ (Some e) => Some (CloseFailed e)
  | _ => None
  end.

(** The error the vendor returned with that step. *)
Definition upstream_error (ev : event) : option error :=
  match ev with
  | EvNewClient _ e | EvHealth _ e | EvNewBulkIndexer _ e
  | EvAdd _ _ e | EvClose _ e => e
  | _ => None
  end.

(** The items handed to [bi.Add]. *)
Definition added (ev : event) : option BulkIndexerItem :=
  match ev with EvAdd item _ _ => Some item | _ => None end.
Definition submitted (evs : list event) : list BulkIndexerItem := omap added evs.

(** The response items whose success callback ran. *)
Definition succeeded (ev : event) : list BulkIndexerResponseItem :=
  match ev with
  | EvAdd _ biris _ | EvClose biris _ => biris
  | _ => []
  end.
Definition successes (evs : list event) : list BulkIndexerResponseItem :=
  flat_map succeeded evs.

Definition serializable (d : document) : Prop := exists j, json_Marshal d = inl j.

(** A call of [Add] whose item is the encoding of a document of [docs]. *)
Definition from_documents (docs : list document) (ev : event) : Prop :=
  exists item biris err d,
    ev = EvAdd item biris err /\ d ∈ docs /\
    json_Marshal d = inl (Body item) /\ Action item = "index".

(** A call the vendor answered without an error. *)
Definition answered_ok (ev : event) : Prop := upstream_error ev = None.

(** What the log of a call of [new] says about the cluster. *)
Definition client_creation_failed (evs : list event) : Prop :=
  exists cfg e, EvNewClient cfg (Some e) ∈ evs.
Definition health_check_failed (evs : list event) : Prop :=
  exists r e, EvHealth r (Some e) ∈ evs.
Definition health_status (evs : list event) (code : Z) : Prop :=
  exists r, EvHealth r None ∈ evs /\ StatusCode r = code.
Definition healthy (evs : list event) : Prop := health_status evs 200.
Definition unhealthy (evs : list event) : Prop :=
  exists code, health_status evs code /\ code <> 200.
Definition existence_checked (index : string) (evs : list event) (missing : bool) : Prop :=
  exists r e, EvExists [index] r e ∈ evs /\ IsError r = missing.
Definition creation_attempted (index : string) (evs : list event) : Prop :=
  exists r e, EvCreate index r e ∈ evs.
Definition index_creation_failed (evs : list event) : Prop :=
  exists i r e, EvCreate i r e ∈ evs /\ IsError r = true.

Definition bulk_indexers (evs : list event) : list BulkIndexerConfig :=
  omap (fun ev => match ev with EvNewBulkIndexer c _ => Some c | _ => None end) evs.
End Flow.

(** The number of successful items with a given result. *)
Definition count_result (r : string) (biris : list BulkIndexerResponseItem) : nat :=
  length (filter (fun b => Result b = r) biris).

(** [s] ends with [t]. *)
Definition ends_with (s t : string) : Prop := exists p, s = p +:+ t.

End Core.

(** ** A scripted cluster

    An instance of [Platform] in the manner of the mock server of the
    package's tests: the answers of the cluster are fields of the world,
    items are queued by [Add] and indexed by [Close], which reports
    [created] for a document id the index does not hold yet and [updated]
    for one it holds. Documents are Go integers, booleans and channels
    (which [encoding/json] refuses). *)

Module Mock.

Inductive doc := DInt (n : Z) | DBool (b : bool) | DChan.

Definition marshal (d : doc) : string + error :=
  match d with
  | DInt n => inl (fmt_int n)
  | DBool b => inl (if b then "true" else "false")
  | DChan => inr (errorString "json: unsupported type: chan string")
  end.

Definition verb_s (d : doc) : string :=
  match d with
  | DInt n => "%!s(int=" +:+ fmt_int n +:+ ")"
  | DBool b => "%!s(bool=" +:+ (if b then "true" else "false") +:+ ")"
  | DChan => "%!s(chan string=0xc000012345)"
  end.

Definition lower_ascii (c : ascii) : ascii :=
  let n := byte_val c in
  if (65 <=? n) && (n <=? 90) then byte_of (n + 32) else c.

Fixpoint to_lower (s : string) : string :=
  match s with
  | EmptyString => EmptyString
  | String c s' => String (lower_ascii c) (to_lower s')
  end.

Definition duration_string (d : Z) : string :=
  if d =? 0 then "0s" else fmt_int (d / Millisecond) +:+ "ms".

Record response := { status : Z; text : string }.

Record world := {
  clock : Z;
  client_error : option error;
  health_status : Z;
  health_error : option error;
  exists_status : Z;
  create_status : Z;
  bulk_error : option error;
  add_error : option (nat * error);
  close_error : option error;
  queue : list BulkIndexerItem;
  stored : list string
}.

Definition tick (w : world) (q : list BulkIndexerItem) (st : list string) : world :=
  {| clock := clock w + Millisecond;
     client_error := client_error w;
     health_status := health_status w;
     health_error := health_error w;
     exists_status := exists_status w;
     create_status := create_status w;
     bulk_error := bulk_error w;
     add_error := add_error w;
     close_error := close_error w;
     queue := q;
     stored := st |}.

Definition add (item : BulkIndexerItem) (w : world)
  : (list BulkIndexerResponseItem * option error) * world :=
  match add_error w with
  | Some (n, e) =>
      if (n <=? length (queue w))%nat then (([], Some e), tick w (queue w) (stored w))
      else (([], None), tick w (queue w ++ [item]) (stored w))
  | None => (([], None), tick w (queue w ++ [item]) (stored w))
  end.

Fixpoint flush (q : list BulkIndexerItem) (st : list string)
  : list BulkIndexerResponseItem * list string :=
  match q with
  | [] => ([], st)
  | item :: q' =>
      let res := if existsb (String.eqb (DocumentID item)) st then "updated" else "created" in
      let (rs, st') := flush q' (st ++ [DocumentID item]) in
      ({| Result := res |} :: rs, st')
  end.

Definition close (w : world)
  : (list BulkIndexerResponseItem * option error) * world :=
  match close_error w with
  | Some e => (([], Some e), tick w (queue w) (stored w))
  | None => let (rs, st) := flush (queue w) (stored w) in ((rs, None), tick w [] st)
  end.

#[export] Instance platform : Platform := {|
  document := doc;
  Client := list string;
  BulkIndexer := string;
  Response := response;
  World := world;
  json_Marshal := marshal;
  fmt_s := verb_s;
  strings_ToLower := to_lower;
  Duration_String := duration_string;
  runtime_NumCPU := 4;
  time_Now := clock;
  map_range := fun _ m => map_to_list m;
  map_range_perm := fun _ m => Permutation_refl (map_to_list m);
  StatusCode := status;
  IsError := fun r => 399 <? status r;
  Response_String := text;
  NewClient := fun cfg w => ((Addresses cfg, client_error w), tick w (queue w) (stored w));
  Cluster_Health := fun _ w =>
    (({| status := health_status w; text := "" |}, health_error w),
     tick w (queue w) (stored w));
  Indices_Exists := fun _ _ w =>
    (({| status := exists_status w; text := "" |}, None), tick w (queue w) (stored w));
  Indices_Create := fun _ i w =>
    (({| status := create_status w; text := "[" +:+ fmt_int (create_status w) +:+ "]" |}, None),
     tick w (queue w) (stored w));
  NewBulkIndexer := fun _ i _ _ _ w => ((i, bulk_error w), tick w [] (stored w));
  bi_Add := fun _ => add;
  bi_Close := fun _ => close
|}.

(** A healthy cluster that holds the index and no document. *)
Definition healthy : world :=
  {| clock := 0; client_error := None; health_status := 200; health_error := None;
     exists_status := 200; create_status := 200; bulk_error := None;
     add_error := None; close_error := None; queue := []; stored := [] |}.

(** A cluster that cannot be reached. *)
Definition unreachable : world :=
  {| clock := 0; client_error := Some (errorString "cannot create client");
     health_status := 0; health_error := None;
     exists_status := 0; create_status := 0; bulk_error := None;
     add_error := None; close_error := None; queue := []; stored := [] |}.

(** A healthy cluster on which the index is missing and is created. *)
Definition fresh : world :=
  {| clock := 0; client_error := None; health_status := 200; health_error := None;
     exists_status := 404; create_status := 200; bulk_error := None;
     add_error := None; close_error := None; queue := []; stored := [] |}.

(** A healthy cluster whose bulk indexer refuses the second item. *)
Definition flaky : world :=
  {| clock := 0; client_error := None; health_status := 200; health_error := None;
     exists_status := 200; create_status := 200; bulk_error := None;
     add_error := Some (1%nat, errorString "context deadline exceeded");
     close_error := None; queue := []; stored := [] |}.

Definition start (w : world) : @state platform := @State platform w [] [].

Definition config : IndexerConfig :=
  {| Type_ := "elastic"; Servers := ["http://127.0.0.1:9200"];
     Index := "Go-Commons-Test"; InsecureSkipVerify := true |}.

Definition opts : IndexingOpts :=
  {| MetricName := "placeholder"; JobName := "placeholder" |}.

Definition es : Elastic.Elastic := {| Elastic.index := "go-commons-test" |}.
Definition os : OpenSearch.OpenSearch := {| OpenSearch.index := "go-commons-test" |}.

(** Document lists: one body three times; a body twice and then another
    one; a list with one duplicate; a list with a channel in it. *)
Definition thrice : list (@document platform) := [DInt 42; DInt 42; DInt 42].
Definition twice_then_other : list (@document platform) := [DInt 42; DInt 42; DInt 7].
Definition batch : list (@document platform) := [DInt 1; DInt 2; DInt 1].
Definition four_documents : list (@document platform) := [DInt 42; DInt 4; DInt 4; DInt 2].

Definition before_channel : list (@document platform) := [DInt 1].
Definition channel : @document platform := DChan.
Definition after_channel : list (@document platform) := [DInt 2].
Definition channel_error : error := errorString "json: unsupported type: chan string".

(** The outcome of indexing [batch] on the healthy cluster, and of [new]
    on the cluster without the index. *)
Definition batch_indexed : (string * option error) * @state platform :=
  Eval vm_compute in Elastic.Index es batch opts (start healthy).
Definition index_created : (Elastic.Elastic * option error) * @state platform :=
  Eval vm_compute in Elastic.new es config (start fresh).

End Mock.


(** ** Reading a call of [Index] and of [new] further

    What a document would be submitted as on its own: the digest of its
    encoding alone as the id. *)

Module Dedup.

Definition content_id (j : string) : string :=
  hex_EncodeToString (hasher_Sum (hasher_Write sha256_New j)).

Definition item_of (j : string) : BulkIndexerItem :=
  {| Action := "index"; Body := j; DocumentID := content_id j |}.

Section Reading.
Context `{Platform}.

(** The JSON encodings of the documents that have one, in order. *)
Definition encodings (docs : list document) : list string :=
  omap (fun d => match json_Marshal d with inl j => Some j | inr _ => None end) docs.

(** [Close] was called; the bulk indexer was created; an [Add] failed. *)
Definition closed (evs : list event) : Prop :=
  exists biris e, EvClose biris e ∈ evs.
Definition bulk_indexer_created (evs : list event) : Prop :=
  exists cfg, EvNewBulkIndexer cfg None ∈ evs.
Definition add_failed (evs : list event) : Prop :=
  exists item biris e, EvAdd item biris (Some e) ∈ evs.

(** A call to the bulk indexer, as opposed to a call to the client. *)
Definition bulk_call (ev : event) : Prop :=
  match ev with
  | EvNewBulkIndexer _ _ | EvAdd _ _ _ | EvClose _ _ => True
  | _ => False
  end.
End Reading.

(** The characters of the lowercase hexadecimal notation. *)
Definition hex_chars : list ascii := list_ascii_of_string "0123456789abcdef".

(** An id of 64 lowercase hexadecimal digits that is the content id of
    some bytes ending with the body of the item. *)
Definition well_formed_id (item : BulkIndexerItem) : Prop :=
  String.length (DocumentID item) = 64%nat /\
  Forall (fun c => c ∈ hex_chars) (list_ascii_of_string (DocumentID item)) /\
  exists p, DocumentID item = content_id (p +:+ Body item).

End Dedup.

(** Runs on the scripted cluster that the statements below are tried on. *)

Module Demo.
Import Mock.

Definition distinct : list (@document platform) := [DInt 1; DInt 2; DInt 3].
Definition with_copy : list (@document platform) := [DInt 1; DInt 2; DInt 3; DInt 2].
Definition copy : @document platform := DInt 2.

Definition distinct_indexed : (string * option error) * @state platform :=
  Eval vm_compute in Elastic.Index es distinct opts (start healthy).
Definition with_copy_indexed : (string * option error) * @state platform :=
  Eval vm_compute in Elastic.Index es with_copy opts (start healthy).

(** A healthy cluster on which the index is missing and cannot be
    created. *)
Definition read_only : world :=
  {| clock := 0; client_error := None; health_status := 200; health_error := None;
     exists_status := 404; create_status := 403; bulk_error := None;
     add_error := None; close_error := None; queue := []; stored := [] |}.

Definition no_name : IndexerConfig :=
  {| Type_ := "elastic"; Servers := ["http://127.0.0.1:9200"];
     Index := ""; InsecureSkipVerify := true |}.

Definition unset : Elastic.Elastic := {| Elastic.index := "" |}.
Definition os_unset : OpenSearch.OpenSearch := {| OpenSearch.index := "" |}.

End Demo.

(** ** Responses are pointers

    [Cluster.Health], [Indices.Exists] and [Indices.Create] return a
    pointer to a response next to the error, and the pointer is nil when
    the request failed before an answer arrived. [r.StatusCode],
    [r.IsError()] and [r.String()] dereference it, and Go panics on nil.
    [new] reads the response of [Health] after it has checked the error,
    but drops the error of [Exists] and of [Create] ([r, _ = ...]) and
    dereferences [r] at once. The functions [new] above are the code on
    the runs in which every response that is dereferenced is there; here
    they are once more with the dereferences written out. *)

Class Pointers `{Platform} := { is_nil : Response -> bool }.

Inductive outcome := Returns (err : option error) | Panics.

Module Pointer.
Section Methods.
Context `{Pointers}.

(** [func (esIndexer *Elastic) new(indexerConfig IndexerConfig) error] *)
Definition Elastic_new (esIndexer : Elastic.Elastic) (indexerConfig : IndexerConfig)
  : M (Elastic.Elastic * outcome) :=
  if String.eqb (Index indexerConfig) "" then
    ret (esIndexer, Returns (Some (fmt_Errorf "index name not specified")))
  else
    let esIndex := strings_ToLower (Index indexerConfig) in
    let cfg := {| Addresses := Servers indexerConfig;
                  TLS_InsecureSkipVerify := InsecureSkipVerify indexerConfig |} in
    let* (client, err) := do_NewClient cfg in
    let* _ := set_client client in
    match err with
    | Some err =>
        ret (esIndexer,
             Returns (Some (fmt_Errorf ("error creating the ES client: " +:+ Error err))))
    | None =>
        let* ESClient := get_client in
        let* (r, err) := do_Health ESClient in
        match err with
        | Some err =>
            ret (esIndexer,
                 Returns (Some (fmt_Errorf ("ES health check failed: " +:+ Error err))))
        | None =>
            if is_nil r then ret (esIndexer, Panics)
            else if negb (StatusCode r =? 200) then
              ret (esIndexer,
                   Returns (Some (fmt_Errorf ("unexpected ES status code: "
                                              +:+ fmt_int (StatusCode r)))))
            else
              let esIndexer := {| Elastic.index := esIndex |} in
              let* (r, _) := do_Exists ESClient [esIndex] in
              if is_nil r then ret (esIndexer, Panics)
              else if IsError r then
                let* (r, _) := do_Create ESClient esIndex in
                if is_nil r then ret (esIndexer, Panics)
                else if IsError r then
                  ret (esIndexer,
                       Returns (Some (fmt_Errorf ("error creating index " +:+ esIndex
                                                  +:+ " on ES: " +:+ Response_String r))))
                else ret (esIndexer, Returns None)
              else ret (esIndexer, Returns None)
        end
    end.

(** [func (OpenSearchIndexer *OpenSearch) new(indexerConfig IndexerConfig) error] *)
Definition OpenSearch_new (OpenSearchIndexer : OpenSearch.OpenSearch)
    (indexerConfig : IndexerConfig)
  : M (OpenSearch.OpenSearch * outcome) :=
  if String.eqb (Index indexerConfig) "" then
    ret (OpenSearchIndexer, Returns (Some (fmt_Errorf "index name not specified")))
  else
    let OpenSearchIndex := strings_ToLower (Index indexerConfig) in
    let cfg := {| Addresses := Servers indexerConfig;
                  TLS_InsecureSkipVerify := InsecureSkipVerify indexerConfig |} in
    let* (client, err) := do_NewClient cfg in
    let* _ := set_client client in
    match err with
    | Some err =>
        ret (OpenSearchIndexer,
             Returns (Some (fmt_Errorf ("error creating the OpenSearch client: "
                                        +:+ Error err))))
    | None =>
        let* OSClient := get_client in
        let* (r, err) := do_Health OSClient in
        match err with
        | Some err =>
            ret (OpenSearchIndexer,
                 Returns (Some (fmt_Errorf ("OpenSearch health check failed: "
                                            +:+ Error err))))
        | None =>
            if is_nil r then ret (OpenSearchIndexer, Panics)
            else if negb (StatusCode r =? 200) then
              ret (OpenSearchIndexer,
                   Returns (Some (fmt_Errorf ("unexpected OpenSearch status code: "
                                              +:+ fmt_int (StatusCode r)))))
            else
              let OpenSearchIndexer := {| OpenSearch.index := OpenSearchIndex |} in
              let* (r, _) := do_Exists OSClient [OpenSearchIndex] in
              if is_nil r then ret (OpenSearchIndexer, Panics)
              else if IsError r then
                let* (r, _) := do_Create OSClient OpenSearchIndex in
                if is_nil r then ret (OpenSearchIndexer, Panics)
                else if IsError r then
                  ret (OpenSearchIndexer,
                       Returns (Some (fmt_Errorf ("error creating index " +:+ OpenSearchIndex
                                                  +:+ " on OpenSearch: "
                                                  +:+ Response_String r))))
                else ret (OpenSearchIndexer, Returns None)
              else ret (OpenSearchIndexer, Returns None)
        end
    end.
End Methods.
End Pointer.

(** What the cluster answers to the requests of [new], in the order in
    which [new] makes them: each request meets the world the one before
    has left. *)

Module Cluster.
Section Answers.
Context `{Pointers}.
Variables (cfg : IndexerConfig) (s : state).

Definition lower : string := strings_ToLower (Index cfg).
Definition client_config : ClientConfig :=
  {| Addresses := Servers cfg; TLS_InsecureSkipVerify := InsecureSkipVerify cfg |}.

Definition created : (Client * option error) * World :=
  NewClient client_config (world s).
Definition health : (Response * option error) * World :=
  Cluster_Health created.1.1 created.2.
Definition found : (Response * option error) * World :=
  Indices_Exists created.1.1 [lower] health.2.
Definition made : (Response * option error) * World :=
  Indices_Create created.1.1 lower found.2.

(** The client was created and the health check answered 200. *)
Definition healthy : Prop :=
  created.1.2 = None /\ health.1.2 = None /\
  is_nil health.1.1 = false /\ StatusCode health.1.1 = 200.

(** The index is reported missing; its creation is refused. *)
Definition missing : bool := IsError found.1.1.
Definition refused : bool := IsError made.1.1.

(** The requests that [new] makes on a healthy cluster. *)
Definition requests : list event :=
  [EvNewClient client_config None; EvHealth health.1.1 None;
   EvExists [lower] found.1.1 found.1.2]
  ++ (if missing then [EvCreate lower made.1.1 made.1.2] else []).
End Answers.
End Cluster.

(** The scripted cluster with responses as pointers: a status of 0 in
    the world stands for a request that failed before an answer arrived,
    which returns nil and an error. *)

Module Lossy.
Import Mock.

Definition answer (st : Z) (txt : string) : option response * option error :=
  if st =? 0 then (None, Some (errorString "EOF"))
  else (Some {| status := st; text := txt |}, None).

Definition platform : Platform := {|
  document := doc;
  Client := list string;
  BulkIndexer := string;
  Response := option response;
  World := world;
  json_Marshal := marshal;
  fmt_s := verb_s;
  strings_ToLower := to_lower;
  Duration_String := duration_string;
  runtime_NumCPU := 4;
  time_Now := clock;
  map_range := fun _ m => map_to_list m;
  map_range_perm := fun _ m => Permutation_refl (map_to_list m);
  StatusCode := from_option status 0;
  IsError := from_option (fun r => 399 <? status r) false;
  Response_String := from_option text "";
  NewClient := fun cfg w => ((Addresses cfg, client_error w), tick w (queue w) (stored w));
  Cluster_Health := fun _ w =>
    ((Some {| status := health_status w; text := "" |}, health_error w),
     tick w (queue w) (stored w));
  Indices_Exists := fun _ _ w =>
    (answer (exists_status w) "", tick w (queue w) (stored w));
  Indices_Create := fun _ i w =>
    (answer (create_status w) ("[" +:+ fmt_int (create_status w) +:+ "]"),
     tick w (queue w) (stored w));
  NewBulkIndexer := fun _ i _ _ _ w => ((i, bulk_error w), tick w [] (stored w));
  bi_Add := fun _ => add;
  bi_Close := fun _ => close
|}.

Definition pointers : @Pointers platform :=
  {| is_nil := fun r : @Response platform =>
                 match r return bool with None => true | Some _ => false end |}.

(** A healthy cluster that drops the connection at the existence check. *)
Definition dropped : world :=
  {| clock := 0; client_error := None; health_status := 200; health_error := None;
     exists_status := 0; create_status := 200; bulk_error := None;
     add_error := None; close_error := None; queue := []; stored := [] |}.

Definition start (w : world) : @state platform := @State platform w [] [].
End Lossy.

(** * Properties *)

Local Close Scope Z_scope.

(** ** Strings *)

Lemma string_app_cons (c : ascii) (s t : string) :
  String c s +:+ t = String c (s +:+ t).
Proof. reflexivity. Qed.

Lemma string_app_nil_l (t : string) : "" +:+ t = t.
Proof. reflexivity. Qed.

Lemma string_app_nil_r (s : string) : s +:+ "" = s.
Proof.
  induction s as [|c s IH]; [reflexivity|].
  rewrite string_app_cons, IH. reflexivity.
Qed.

Lemma string_app_assoc (a b c : string) : (a +:+ b) +:+ c = a +:+ (b +:+ c).
Proof.
  induction a as [|x a IH]; [reflexivity|].
  rewrite !string_app_cons, IH. reflexivity.
Qed.

Lemma list_of_string_app (a b : string) :
  list_ascii_of_string (a +:+ b) = list_ascii_of_string a ++ list_ascii_of_string b.
Proof.
  induction a as [|x a IH]; [reflexivity|].
  rewrite string_app_cons. cbn [list_ascii_of_string]. rewrite IH. reflexivity.
Qed.

(** ** The two bindings and the shared flow *)

Ltac unfold_monad :=
  unfold bind, ret, do_NewClient, do_Health, do_Exists, do_Create,
    do_NewBulkIndexer, do_Add, do_Close, vendor, get_client, set_client,
    now, range_map in *; cbn [fst snd world calls SDKClient] in *.

(** Case analysis on the next answer of the vendor. *)
Ltac vendor_answer :=
  match goal with
  | |- context [NewClient ?c ?w] => destruct (NewClient c w) as [[? [?|]] ?]
  | |- context [Cluster_Health ?c ?w] => destruct (Cluster_Health c w) as [[? [?|]] ?]
  | |- context [Indices_Exists ?c ?l ?w] => destruct (Indices_Exists c l w) as [[? ?] ?]
  | |- context [Indices_Create ?c ?l ?w] => destruct (Indices_Create c l w) as [[? ?] ?]
  | |- context [NewBulkIndexer ?a ?b ?c ?d ?e ?w] =>
      destruct (NewBulkIndexer a b c d e w) as [[? [?|]] ?]
  | |- context [bi_Add ?b ?i ?w] => destruct (bi_Add b i w) as [[? [?|]] ?]
  | |- context [bi_Close ?b ?w] => destruct (bi_Close b w) as [[? [?|]] ?]
  end; cbn [fst snd world calls SDKClient].

Section Refinement.
Context `{Platform}.

Lemma Elastic_new_core (e : Elastic.Elastic) cfg s :
  Elastic.new e cfg s =
  let '((i, f), s') := Core.new (Elastic.index e) cfg s in
  ((Elastic.Build_Elastic i, Core.es_text <$> f), s').
Proof.
  destruct e as [i0]. unfold Elastic.new, Core.new. cbn [Elastic.index].
  destruct (String.eqb (Index cfg) ""); [reflexivity|].
  unfold_monad. vendor_answer; [reflexivity|].
  vendor_answer; [reflexivity|].
  destruct (negb (StatusCode _ =? 200)%Z); [reflexivity|].
  vendor_answer. destruct (IsError _); [|reflexivity].
  vendor_answer. destruct (IsError _); reflexivity.
Qed.

Lemma OpenSearch_new_core (e : OpenSearch.OpenSearch) cfg s :
  OpenSearch.new e cfg s =
  let '((i, f), s') := Core.new (OpenSearch.index e) cfg s in
  ((OpenSearch.Build_OpenSearch i, Core.os_text <$> f), s').
Proof.
  destruct e as [i0]. unfold OpenSearch.new, Core.new. cbn [OpenSearch.index].
  destruct (String.eqb (Index cfg) ""); [reflexivity|].
  unfold_monad. vendor_answer; [reflexivity|].
  vendor_answer; [reflexivity|].
  destruct (negb (StatusCode _ =? 200)%Z); [reflexivity|].
  vendor_answer. destruct (IsError _); [|reflexivity].
  vendor_answer. destruct (IsError _); reflexivity.
Qed.

Lemma Elastic_range_core bi docs : forall l s,
  Elastic.range_documents bi docs l s =
  let (r, s') := Core.range_documents bi docs l s in
  (match r with inl f => inl (Core.es_text f) | inr l' => inr l' end, s').
Proof.
  induction docs as [|d docs IH]; intros l s; [reflexivity|].
  cbn [Elastic.range_documents Core.range_documents].
  destruct (json_Marshal d) as [j|err]; [|reflexivity].
  destruct (docHash l !! _); [apply IH|].
  unfold_monad. vendor_answer; [reflexivity|]. apply IH.
Qed.

Lemma OpenSearch_range_core bi docs : forall l s,
  OpenSearch.range_documents bi docs l s =
  let (r, s') := Core.range_documents bi docs l s in
  (match r with inl f => inl (Core.os_text f) | inr l' => inr l' end, s').
Proof.
  induction docs as [|d docs IH]; intros l s; [reflexivity|].
  cbn [OpenSearch.range_documents Core.range_documents].
  destruct (json_Marshal d) as [j|err]; [|reflexivity].
  destruct (docHash l !! _); [apply IH|].
  unfold_monad. vendor_answer; [reflexivity|]. apply IH.
Qed.

Lemma Elastic_Index_core (e : Elastic.Elastic) docs opts s :
  Elastic.Index e docs opts s =
  let '((str, f), s') := Core.Index (Elastic.index e) docs opts s in
  ((str, Core.es_text <$> f), s').
Proof.
  unfold Elastic.Index, Core.Index.
  destruct (length docs <=? 0)%nat; [reflexivity|].
  unfold_monad. vendor_answer; [reflexivity|].
  rewrite Elastic_range_core.
  destruct (Core.range_documents _ _ _ _) as [[f|l] s1]; [reflexivity|].
  vendor_answer; [reflexivity|].
  unfold Core.summary, Core.redundant_entry. cbn [indexerStats redundantSkipped run_callbacks].
  destruct (0 <? redundantSkipped l)%nat; [reflexivity|].
  rewrite string_app_nil_r. reflexivity.
Qed.

Lemma OpenSearch_Index_core (e : OpenSearch.OpenSearch) docs opts s :
  OpenSearch.Index e docs opts s =
  let '((str, f), s') := Core.Index (OpenSearch.index e) docs opts s in
  ((str, Core.os_text <$> f), s').
Proof.
  unfold OpenSearch.Index, Core.Index.
  destruct (length docs <=? 0)%nat; [reflexivity|].
  unfold_monad. vendor_answer; [reflexivity|].
  rewrite OpenSearch_range_core.
  destruct (Core.range_documents _ _ _ _) as [[f|l] s1]; [reflexivity|].
  vendor_answer; [reflexivity|].
  unfold Core.summary, Core.redundant_entry. cbn [indexerStats redundantSkipped run_callbacks].
  destruct (0 <? redundantSkipped l)%nat; [reflexivity|].
  rewrite string_app_nil_r. reflexivity.
Qed.
End Refinement.

(** ** The loop over the documents *)

Section Loop.
Context `{Platform}.

Lemma submitted_add item biris err evs :
  Core.submitted (EvAdd item biris err :: evs) = item :: Core.submitted evs.
Proof. reflexivity. Qed.

Lemma submitted_app evs1 evs2 :
  Core.submitted (evs1 ++ evs2) = Core.submitted evs1 ++ Core.submitted evs2.
Proof. unfold Core.submitted. apply omap_app. Qed.

Lemma successes_app evs1 evs2 :
  Core.successes (evs1 ++ evs2) = Core.successes evs1 ++ Core.successes evs2.
Proof. unfold Core.successes. apply flat_map_app. Qed.

(** One turn of the loop, by cases on the document and on the vendor. *)
Ltac turn d l Hrun :=
  cbn [Core.range_documents] in Hrun;
  destruct (json_Marshal d) as [?j|?e] eqn:?Hj;
  [ destruct (docHash l !! _) as [?|] eqn:?Hseen;
    [ | unfold_monad;
        match type of Hrun with
        | context [bi_Add ?bb ?ii ?ww] =>
            destruct (bi_Add bb ii ww) as [[?biris [?e|]] ?w] eqn:?Hadd
        end; cbn [fst snd] in Hrun ]
  | ].

(** The loop only calls [Add], at most once per document, each time
    with the JSON encoding of a document of the list as the body. *)
Lemma range_calls bi docs : forall l s r s',
  Core.range_documents bi docs l s = (r, s') ->
  exists evs,
    calls s' = calls s ++ evs /\ SDKClient s' = SDKClient s /\
    length evs <= length docs /\
    Forall (fun ev => exists item biris err d,
              ev = EvAdd item biris err /\ d ∈ docs /\
              json_Marshal d = inl (Body item) /\ Action item = "index") evs.
Proof.
  induction docs as [|d docs IH]; intros l s r s' Hrun.
  - inversion Hrun; subst. exists []. rewrite app_nil_r. repeat split; auto.
  - turn d l Hrun.
    + apply IH in Hrun as (evs & Hc & Hk & Hlen & Hall).
      exists evs. repeat split; auto. { simpl; lia. }
      eapply Forall_impl; [eassumption|].
      intros ev (item & biris & err & d' & -> & Hin & Hm & Ha).
      exists item, biris, err, d'. repeat split; auto. now right.
    + inversion Hrun; subst. cbn [calls SDKClient].
      eexists [_]. repeat split; auto. { simpl; lia. }
      constructor; [|constructor].
      eexists _, _, _, d. repeat split; eauto. now left.
    + apply IH in Hrun as (evs & Hc & Hk & Hlen & Hall).
      cbn [calls SDKClient] in Hc, Hk. rewrite <- app_assoc in Hc.
      eexists (_ :: evs). repeat split; eauto. { simpl; lia. }
      constructor.
      * eexists _, _, _, d. repeat split; eauto. now left.
      * eapply Forall_impl; [eassumption|].
        intros ev (item & biris' & err & d' & -> & Hin & Hm & Ha).
        exists item, biris', err, d'. repeat split; auto. now right.
    + inversion Hrun; subst. exists []. rewrite app_nil_r.
      repeat split; auto. simpl; lia.
Qed.

(** When the loop runs to its end: no call failed, every document was
    either added or skipped, the callbacks are counted, and every
    document was serializable. *)
Lemma range_finished bi docs : forall l s l' s',
  Core.range_documents bi docs l s = (inr l', s') ->
  exists evs,
    calls s' = calls s ++ evs /\
    Forall (fun ev => Core.upstream_error ev = None) evs /\
    (redundantSkipped l' + length (Core.submitted evs)
     = redundantSkipped l + length docs)%nat /\
    indexerStats l' = fold_left OnSuccess (Core.successes evs) (indexerStats l) /\
    Forall Core.serializable docs.
Proof.
  induction docs as [|d docs IH]; intros l s l' s' Hrun.
  - inversion Hrun; subst. exists []. rewrite app_nil_r.
    repeat split; auto.
  - turn d l Hrun.
    + apply IH in Hrun as (evs & Hc & Hok & Hn & Hst & Hser).
      cbn [redundantSkipped indexerStats] in Hn, Hst.
      exists evs. split; [exact Hc|]. split; [exact Hok|].
      split; [simpl; lia|]. split; [exact Hst|].
      constructor; [eexists; eassumption | assumption].
    + inversion Hrun.
    + apply IH in Hrun as (evs & Hc & Hok & Hn & Hst & Hser).
      cbn [calls redundantSkipped indexerStats run_callbacks] in Hc, Hn, Hst.
      rewrite <- app_assoc in Hc.
      eexists (_ :: evs). split; [exact Hc|].
      split; [constructor; [reflexivity | assumption]|].
      split; [rewrite submitted_add; simpl length; lia|].
      split; [|constructor; [eexists; eassumption | assumption]].
      cbn [Core.successes flat_map Core.succeeded]. rewrite fold_left_app. exact Hst.
    + inversion Hrun.
Qed.

(** When the loop returns early: either the last call made is the [Add]
    that failed, or no call failed and a document could not be
    encoded, the first such document of the list. *)
Lemma range_failed bi docs : forall l s f s',
  Core.range_documents bi docs l s = (inl f, s') ->
  exists evs,
    calls s' = calls s ++ evs /\
    ((exists evs0 item biris e,
        evs = evs0 ++ [EvAdd item biris (Some e)] /\
        Forall (fun ev => Core.upstream_error ev = None) evs0 /\
        f = Core.AddFailed e)
     \/ (Forall (fun ev => Core.upstream_error ev = None) evs /\
         exists pre d post e,
           docs = pre ++ d :: post /\ Forall Core.serializable pre /\
           json_Marshal d = inr e /\ f = Core.EncodeFailed (fmt_s d) e /\
           length (Core.submitted evs) <= length pre)).
Proof.
  induction docs as [|d docs IH]; intros l s f s' Hrun.
  - inversion Hrun.
  - turn d l Hrun.
    + apply IH in Hrun as (evs & Hc & Hcase). exists evs. split; [exact Hc|].
      destruct Hcase as [Hadd | (Hok & pre & d' & post & e & -> & Hser & Hm & -> & Hlen)].
      * left. exact Hadd.
      * right. split; [exact Hok|].
        exists (d :: pre), d', post, e.
        split; [reflexivity|]. split; [|split; [exact Hm|split; [reflexivity|simpl; lia]]].
        constructor; [eexists; eassumption | assumption].
    + inversion Hrun; subst. cbn [calls].
      eexists [_]. split; [reflexivity|]. left.
      eexists [], _, _, _. split; [reflexivity|]. split; [constructor | reflexivity].
    + apply IH in Hrun as (evs & Hc & Hcase).
      cbn [calls] in Hc. rewrite <- app_assoc in Hc.
      eexists (_ :: evs). split; [exact Hc|].
      destruct Hcase as [(evs0 & item & biris' & e & -> & Hok & ->)
                        | (Hok & pre & d' & post & e & -> & Hser & Hm & -> & Hlen)].
      * left. eexists (_ :: evs0), item, biris', e.
        split; [reflexivity|]. split; [|reflexivity].
        constructor; [reflexivity | assumption].
      * right. split; [constructor; [reflexivity | assumption]|].
        exists (d :: pre), d', post, e.
        split; [reflexivity|].
        split; [|split; [exact Hm|split; [reflexivity|]]].
        -- constructor; [eexists; eassumption | assumption].
        -- rewrite submitted_add. simpl length. lia.
    + inversion Hrun; subst. exists []. rewrite app_nil_r. split; [reflexivity|].
      right. split; [constructor|].
      exists [], d, docs, e.
      split; [reflexivity|]. split; [constructor|].
      split; [assumption|]. split; [reflexivity | simpl; lia].
Qed.

(** The loop runs over a list as over its two halves in turn. *)
Lemma range_app bi pre post : forall l s,
  Core.range_documents bi (pre ++ post) l s =
  match Core.range_documents bi pre l s with
  | (inl f, s') => (inl f, s')
  | (inr l', s') => Core.range_documents bi post l' s'
  end.
Proof.
  induction pre as [|d pre IH]; intros l s; [reflexivity|].
  cbn [app Core.range_documents].
  destruct (json_Marshal d); [|reflexivity].
  destruct (docHash l !! _); [apply IH|].
  unfold_monad. vendor_answer; [reflexivity | apply IH].
Qed.
End Loop.

(** ** A call of [Index] *)

Section IndexCall.
Context `{Platform}.

(** The four ways a call on a non-empty list ends: the bulk indexer is
    not created; the loop returns early; [Close] fails; or the call
    succeeds. [adds] are the calls of the loop and [tail] is the call
    of [Close], when it is reached. *)
Lemma Index_run idx docs opts s str f s' :
  docs <> [] ->
  Core.Index idx docs opts s = ((str, f), s') ->
  exists bcfg berr adds tail,
    calls s' = calls s ++ EvNewBulkIndexer bcfg berr :: adds ++ tail /\
    bic_Index bcfg = idx /\ bic_Client bcfg = SDKClient s /\
    Forall (Core.from_documents docs) adds /\
    length adds <= length docs /\
    ((exists e, berr = Some e /\ adds = [] /\ tail = [] /\ str = "" /\
                f = Some (Core.BulkIndexerFailed e))
     \/ (berr = None /\ tail = [] /\ str = "" /\
         exists f', f = Some f' /\
           ((exists adds0 item biris e,
               adds = adds0 ++ [EvAdd item biris (Some e)] /\
               Forall Core.answered_ok adds0 /\ f' = Core.AddFailed e)
            \/ (Forall Core.answered_ok adds /\
                exists pre d post e,
                  docs = pre ++ d :: post /\ Forall Core.serializable pre /\
                  json_Marshal d = inr e /\ f' = Core.EncodeFailed (fmt_s d) e /\
                  length (Core.submitted adds) <= length pre)))
     \/ (berr = None /\ Forall Core.answered_ok adds /\ str = "" /\
         exists biris e, tail = [EvClose biris (Some e)] /\
                         f = Some (Core.CloseFailed e))
     \/ (berr = None /\ Forall Core.answered_ok adds /\ f = None /\
         Forall Core.serializable docs /\
         exists biris dur entries skipped,
           tail = [EvClose biris None] /\
           str = Core.summary dur entries skipped /\
           skipped + length (Core.submitted adds) = length docs /\
           entries ≡ₚ map_to_list
                        (fold_left OnSuccess (Core.successes (adds ++ tail)) ∅))).
Proof.
  intros Hne Hrun. unfold Core.Index in Hrun.
  destruct docs as [|d0 docs0]; [congruence|]. cbn [length Nat.leb] in Hrun.
  set (docs := d0 :: docs0) in *.
  unfold_monad.
  match type of Hrun with
  | context [NewBulkIndexer ?xa ?xb ?xc ?xd ?xe ?xw] =>
      destruct (NewBulkIndexer xa xb xc xd xe xw) as [[bi [e|]] w1] eqn:Hbulk
  end; cbn [fst snd] in Hrun.
  - inversion Hrun; subst. cbn [calls].
    eexists _, (Some e), [], []. split; [reflexivity|].
    split; [reflexivity|]. split; [reflexivity|].
    split; [constructor|]. split; [simpl; lia|].
    left. exists e. auto.
  - destruct (Core.range_documents bi docs _ _) as [[f'|l] s1] eqn:Hloop.
    + inversion Hrun; subst.
      destruct (range_calls _ _ _ _ _ _ Hloop) as (adds & Hc & Hk & Hlen & Hfrom).
      destruct (range_failed _ _ _ _ _ _ Hloop) as (adds' & Hc' & Hcase).
      assert (adds' = adds) by (rewrite Hc in Hc'; eapply app_inv_head; eauto).
      subst adds'. cbn [calls] in Hc. rewrite <- app_assoc in Hc.
      eexists _, None, adds, []. rewrite app_nil_r.
      split; [exact Hc|]. split; [reflexivity|]. split; [reflexivity|].
      split; [exact Hfrom|]. split; [exact Hlen|].
      right; left. split; [reflexivity|]. split; [reflexivity|]. split; [reflexivity|].
      exists f'. split; [reflexivity | exact Hcase].
    + destruct (range_calls _ _ _ _ _ _ Hloop) as (adds & Hc & Hk & Hlen & Hfrom).
      destruct (range_finished _ _ _ _ _ _ Hloop) as (adds' & Hc' & Hok & Hn & Hst & Hser).
      assert (adds' = adds) by (rewrite Hc in Hc'; eapply app_inv_head; eauto).
      subst adds'. cbn [calls redundantSkipped indexerStats] in Hc, Hn, Hst.
      rewrite <- app_assoc in Hc.
      match type of Hrun with
      | context [bi_Close ?xb ?xw] =>
          destruct (bi_Close xb xw) as [[biris [e|]] w2] eqn:Hclose
      end; cbn [fst snd] in Hrun; inversion Hrun; subst; cbn [calls].
      * eexists _, None, adds, [_]. rewrite Hc, <- app_assoc.
        split; [reflexivity|]. split; [reflexivity|]. split; [reflexivity|].
        split; [exact Hfrom|]. split; [exact Hlen|].
        right; right; left. split; [reflexivity|]. split; [exact Hok|].
        split; [reflexivity|]. eauto.
      * eexists _, None, adds, [_]. rewrite Hc, <- app_assoc.
        split; [reflexivity|]. split; [reflexivity|]. split; [reflexivity|].
        split; [exact Hfrom|]. split; [exact Hlen|].
        right; right; right. split; [reflexivity|]. split; [exact Hok|].
        split; [reflexivity|]. split; [exact Hser|].
        eexists biris, _, _, (redundantSkipped l).
        split; [reflexivity|]. split; [reflexivity|]. split; [exact Hn|].
        cbn [run_callbacks indexerStats]. rewrite map_range_perm.
        rewrite successes_app, fold_left_app, <- Hst.
        cbn [Core.successes flat_map Core.succeeded]. rewrite app_nil_r. reflexivity.
Qed.

(** With a document that cannot be encoded in the list, the call
    returns early: nothing is added for that document or a later one. *)
Lemma Index_unserializable idx pre d post e opts s :
  Forall Core.serializable pre -> json_Marshal d = inr e ->
  exists f s' bcfg berr adds,
    Core.Index idx (pre ++ d :: post) opts s = (("", Some f), s') /\
    calls s' = calls s ++ EvNewBulkIndexer bcfg berr :: adds /\
    Forall (Core.from_documents pre) adds /\
    length adds <= length pre /\
    ((berr = None /\ Forall Core.answered_ok adds /\ f = Core.EncodeFailed (fmt_s d) e)
     \/ (exists e', berr = Some e' /\ adds = [] /\ f = Core.BulkIndexerFailed e')
     \/ (berr = None /\ exists adds0 item biris e',
           adds = adds0 ++ [EvAdd item biris (Some e')] /\
           Forall Core.answered_ok adds0 /\ f = Core.AddFailed e')).
Proof.
  intros Hser Hd. unfold Core.Index.
  replace (length (pre ++ d :: post) <=? 0)%nat with false
    by (rewrite length_app; simpl; destruct (length pre); reflexivity).
  unfold_monad.
  match goal with
  | |- context [NewBulkIndexer ?xa ?xb ?xc ?xd ?xe ?xw] =>
      destruct (NewBulkIndexer xa xb xc xd xe xw) as [[bi [e'|]] w1] eqn:Hbulk
  end; cbn [fst snd].
  - eexists _, _, _, (Some e'), []. split; [reflexivity|]. cbn [calls].
    split; [reflexivity|]. split; [constructor|]. split; [simpl; lia|].
    right; left. exists e'. auto.
  - rewrite range_app.
    destruct (Core.range_documents bi pre _ _) as [[f'|l] s1] eqn:Hloop.
    + destruct (range_calls _ _ _ _ _ _ Hloop) as (adds & Hc & Hk & Hlen & Hfrom).
      destruct (range_failed _ _ _ _ _ _ Hloop) as (adds' & Hc' & Hcase).
      assert (adds' = adds) by (rewrite Hc in Hc'; eapply app_inv_head; eauto).
      subst adds'. cbn [calls] in Hc. rewrite <- app_assoc in Hc.
      eexists f', s1, _, None, adds. split; [reflexivity|].
      split; [exact Hc|]. split; [exact Hfrom|]. split; [exact Hlen|].
      destruct Hcase as [(adds0 & item & biris & e' & -> & Hok & ->)
                        | (_ & pre' & d' & post' & e' & -> & _ & Hbad & _)].
      * right; right. split; [reflexivity|]. eauto 10.
      * exfalso. apply Forall_app in Hser as [_ Hser].
        inversion Hser as [|? ? [j Hj] ?]; subst. congruence.
    + destruct (range_calls _ _ _ _ _ _ Hloop) as (adds & Hc & Hk & Hlen & Hfrom).
      destruct (range_finished _ _ _ _ _ _ Hloop) as (adds' & Hc' & Hok & _).
      assert (adds' = adds) by (rewrite Hc in Hc'; eapply app_inv_head; eauto).
      subst adds'. cbn [calls] in Hc. rewrite <- app_assoc in Hc.
      cbn [Core.range_documents]. rewrite Hd. cbn [ret].
      eexists _, s1, _, None, adds. split; [reflexivity|].
      split; [exact Hc|]. split; [exact Hfrom|]. split; [exact Hlen|].
      left. auto.
Qed.
End IndexCall.

(** ** A call of [new] *)

Section NewCall.
Context `{Platform}.

(** The six ways a call of [new] with an index name ends. *)
Lemma new_run idx0 cfg s :
  Index cfg <> "" ->
  let lower := strings_ToLower (Index cfg) in
  let ccfg := {| Addresses := Servers cfg;
                 TLS_InsecureSkipVerify := InsecureSkipVerify cfg |} in
  exists evs idx f s',
    Core.new idx0 cfg s = ((idx, f), s') /\ calls s' = calls s ++ evs /\
    ((exists e, evs = [EvNewClient ccfg (Some e)] /\
                f = Some (Core.ClientFailed e) /\ idx = idx0)
     \/ (exists r e, evs = [EvNewClient ccfg None; EvHealth r (Some e)] /\
                     f = Some (Core.HealthFailed e) /\ idx = idx0)
     \/ (exists r, evs = [EvNewClient ccfg None; EvHealth r None] /\
                   StatusCode r <> 200%Z /\
                   f = Some (Core.BadStatus (StatusCode r)) /\ idx = idx0)
     \/ (exists r rx ex,
           evs = [EvNewClient ccfg None; EvHealth r None; EvExists [lower] rx ex] /\
           StatusCode r = 200%Z /\ IsError rx = false /\ f = None /\ idx = lower)
     \/ (exists r rx ex rc ec,
           evs = [EvNewClient ccfg None; EvHealth r None; EvExists [lower] rx ex;
                  EvCreate lower rc ec] /\
           StatusCode r = 200%Z /\ IsError rx = true /\ IsError rc = false /\
           f = None /\ idx = lower)
     \/ (exists r rx ex rc ec,
           evs = [EvNewClient ccfg None; EvHealth r None; EvExists [lower] rx ex;
                  EvCreate lower rc ec] /\
           StatusCode r = 200%Z /\ IsError rx = true /\ IsError rc = true /\
           f = Some (Core.CreateFailed lower (Response_String rc)) /\ idx = lower)).
Proof.
  intros Hname lower ccfg. subst lower ccfg. unfold Core.new.
  apply String.eqb_neq in Hname. rewrite Hname.
  unfold_monad. vendor_answer.
  { eexists _, _, _, _. split; [reflexivity|]. split; [reflexivity|].
    left. eauto. }
  vendor_answer.
  { eexists _, _, _, _. split; [reflexivity|]. cbn [calls].
    rewrite <- app_assoc. split; [reflexivity|]. right; left. eauto. }
  destruct (StatusCode _ =? 200)%Z eqn:Hcode; cbn [negb].
  2:{ apply Z.eqb_neq in Hcode.
      eexists _, _, _, _. split; [reflexivity|]. cbn [calls].
      rewrite <- app_assoc. split; [reflexivity|]. right; right; left. eauto. }
  apply Z.eqb_eq in Hcode.
  vendor_answer.
  match goal with
  | |- context [IsError ?x] => destruct (IsError x) eqn:Hmissing
  end.
  2:{ eexists _, _, _, _. split; [reflexivity|]. cbn [calls].
      rewrite <- !app_assoc. split; [reflexivity|].
      right; right; right; left. eauto 10. }
  vendor_answer.
  match goal with
  | |- context [IsError ?x] => destruct (IsError x) eqn:Hcreate
  end.
  - eexists _, _, _, _. split; [reflexivity|]. cbn [calls].
    rewrite <- !app_assoc. split; [reflexivity|].
    right; right; right; right; right. eauto 12.
  - eexists _, _, _, _. split; [reflexivity|]. cbn [calls].
    rewrite <- !app_assoc. split; [reflexivity|].
    right; right; right; right; left. eauto 12.
Qed.
End NewCall.

(** An equation between closed terms, checked by evaluation. *)
Ltac evaluated :=
  lazymatch goal with
  | |- _ = ?v => vm_cast_no_check (@eq_refl _ v)
  end.

(** Membership in a log that is written out. *)
Ltac in_log H :=
  repeat (apply elem_of_cons in H as [H|H];
          [try discriminate H; try (inversion H; subst; clear H)|]);
  try (apply elem_of_nil in H; destruct H).

Ltac logged := apply list_elem_of_In; simpl; eauto 10.

Section NewProperties.
Context `{Platform}.

Lemma new_verifies idx0 cfg s :
  Index cfg <> "" ->
  exists evs idx f s',
    Core.new idx0 cfg s = ((idx, f), s') /\ calls s' = calls s ++ evs /\
    (Core.healthy evs ->
     exists missing,
       Core.existence_checked (strings_ToLower (Index cfg)) evs missing /\
       (missing = true <-> Core.creation_attempted (strings_ToLower (Index cfg)) evs)) /\
    (is_Some f <->
     Core.client_creation_failed evs \/ Core.health_check_failed evs \/
     Core.unhealthy evs \/ Core.index_creation_failed evs) /\
    (f = None -> idx = strings_ToLower (Index cfg)).
Proof.
  intros Hname.
  destruct (new_run idx0 cfg s Hname) as (evs & idx & f & s' & Hnew & Hc & Hcase).
  exists evs, idx, f, s'. split; [exact Hnew|]. split; [exact Hc|].
  unfold Core.healthy, Core.unhealthy, Core.health_status, Core.existence_checked,
    Core.creation_attempted, Core.client_creation_failed, Core.health_check_failed,
    Core.index_creation_failed.
  destruct Hcase as [(e & -> & -> & ->) | [(r & e & -> & -> & ->) |
    [(r & -> & Hcode & -> & ->) | [(r & rx & ex & -> & Hcode & Hmiss & -> & ->) |
    [(r & rx & ex & rc & ec & -> & Hcode & Hmiss & Hcreate & -> & ->) |
     (r & rx & ex & rc & ec & -> & Hcode & Hmiss & Hcreate & -> & ->)]]]]].
  - split; [intros (r & Hin & _); in_log Hin|].
    split; [|discriminate].
    split; [intros _; left; eexists _, _; logged | intros _; eexists; reflexivity].
  - split; [intros (r' & Hin & _); in_log Hin|].
    split; [|discriminate].
    split; [intros _; right; left; eexists _, _; logged | intros _; eexists; reflexivity].
  - split; [intros (r' & Hin & Hc'); in_log Hin; congruence|].
    split; [|discriminate].
    split; [|intros _; eexists; reflexivity].
    intros _. right; right; left. exists (StatusCode r).
    split; [exists r; split; [logged | reflexivity] | exact Hcode].
  - split.
    { intros _. exists false. split; [eexists _, _; split; [logged | exact Hmiss]|].
      split; [discriminate|]. intros (r' & e' & Hin). in_log Hin. }
    split; [|reflexivity].
    split; [intros [? Hf]; discriminate Hf|].
    intros [(c & e & Hin) | [(r' & e & Hin) | [(code & (r' & Hin & Hr) & Hne)
                                              | (i & r' & e & Hin & He)]]];
      in_log Hin; congruence.
  - split.
    { intros _. exists true. split; [eexists _, _; split; [logged | exact Hmiss]|].
      split; [intros _; eexists _, _; logged | reflexivity]. }
    split; [|reflexivity].
    split; [intros [? Hf]; discriminate Hf|].
    intros [(c & e & Hin) | [(r' & e & Hin) | [(code & (r' & Hin & Hr) & Hne)
                                              | (i & r' & e & Hin & He)]]];
      in_log Hin; congruence.
  - split.
    { intros _. exists true. split; [eexists _, _; split; [logged | exact Hmiss]|].
      split; [intros _; eexists _, _; logged | reflexivity]. }
    split; [|discriminate].
    split; [|intros _; eexists; reflexivity].
    intros _. right; right; right. eexists _, rc, _. split; [logged | exact Hcreate].
Qed.
End NewProperties.

(** ** Statements about [new] and [Index] *)

(** C8. A call of [Index] with an empty document list returns the string
    "Indexing skipped due to 0 docs" and a nil error, and leaves the
    state as it was: no bulk indexer is created and nothing is
    submitted. This holds for both bindings. *)
Theorem C8_empty_list_is_skipped `{Platform}
    (e : Elastic.Elastic) (o : OpenSearch.OpenSearch) (opts : IndexingOpts) (s : state) :
  Elastic.Index e [] opts s = (("Indexing skipped due to 0 docs", None), s) /\
  OpenSearch.Index o [] opts s = (("Indexing skipped due to 0 docs", None), s).
Proof. split; reflexivity. Qed.

Section Agreement.
Context `{Platform}.

(** A call of [Index] on a non-empty list creates one bulk indexer, on
    the index of the receiver, before anything else. *)
Lemma Index_writes_to idx docs opts s :
  docs <> [] ->
  exists bcfg berr rest,
    calls (Core.Index idx docs opts s).2 = calls s ++ EvNewBulkIndexer bcfg berr :: rest /\
    bic_Index bcfg = idx /\ Core.bulk_indexers rest = [].
Proof.
  intros Hne.
  destruct (Core.Index idx docs opts s) as [[str f] s'] eqn:Hrun.
  destruct (Index_run _ _ _ _ _ _ _ Hne Hrun)
    as (bcfg & berr & adds & tail & Hc & Hidx & _ & Hfrom & _ & Hcase).
  exists bcfg, berr, (adds ++ tail). split; [exact Hc|]. split; [exact Hidx|].
  unfold Core.bulk_indexers. rewrite omap_app.
  assert (Hadds : omap (fun ev => match ev with
                                  | EvNewBulkIndexer c _ => Some c
                                  | _ => None
                                  end) adds = []).
  { clear -Hfrom. induction Hfrom as [|ev adds (item & biris & err & d & -> & _) _ IH];
      [reflexivity | exact IH]. }
  rewrite Hadds.
  destruct Hcase as [(e & _ & _ & -> & _) | [(_ & -> & _) |
    [(_ & _ & _ & biris & e & -> & _) | (_ & _ & _ & _ & biris & ? & ? & ? & -> & _)]]];
    reflexivity.
Qed.
End Agreement.

(** C10. After a successful call of [new], the index name stored in the
    receiver is the lowercased form of the configured [Index] string
    (which is then not empty), and a later call of [Index] on a
    non-empty list creates its one bulk indexer on that index. The two
    bindings succeed together. *)
Theorem C10_index_name_is_lowercased `{Platform}
    (e e' : Elastic.Elastic) (o : OpenSearch.OpenSearch)
    (cfg : IndexerConfig) (s s' : state) :
  Elastic.new e cfg s = ((e', None), s') ->
  Index cfg <> "" /\
  Elastic.index e' = strings_ToLower (Index cfg) /\
  (forall docs opts s2, docs <> [] ->
     exists bcfg berr rest,
       calls (Elastic.Index e' docs opts s2).2
       = calls s2 ++ EvNewBulkIndexer bcfg berr :: rest /\
       bic_Index bcfg = strings_ToLower (Index cfg) /\
       Core.bulk_indexers rest = []) /\
  exists o',
    OpenSearch.new o cfg s = ((o', None), s') /\
    OpenSearch.index o' = strings_ToLower (Index cfg) /\
    (forall docs opts s2, docs <> [] ->
       exists bcfg berr rest,
         calls (OpenSearch.Index o' docs opts s2).2
         = calls s2 ++ EvNewBulkIndexer bcfg berr :: rest /\
         bic_Index bcfg = strings_ToLower (Index cfg) /\
         Core.bulk_indexers rest = []).
Proof.
  intros Hnew.
  assert (Hname : Index cfg <> "").
  { intros Hempty. unfold Elastic.new in Hnew. rewrite Hempty in Hnew.
    cbn in Hnew. discriminate Hnew. }
  split; [exact Hname|].
  rewrite Elastic_new_core in Hnew.
  destruct (new_verifies (Elastic.index e) cfg s Hname)
    as (evs & idx & f & s1 & Hcore & _ & _ & _ & Hidx).
  rewrite Hcore in Hnew. destruct f as [f|]; [discriminate Hnew|].
  injection Hnew as <- <-. specialize (Hidx eq_refl). subst idx.
  assert (Hes : forall docs opts s2, docs <> [] ->
     exists bcfg berr rest,
       calls (Elastic.Index (Elastic.Build_Elastic (strings_ToLower (Index cfg)))
                docs opts s2).2
       = calls s2 ++ EvNewBulkIndexer bcfg berr :: rest /\
       bic_Index bcfg = strings_ToLower (Index cfg) /\
       Core.bulk_indexers rest = []).
  { intros docs opts s2 Hne. rewrite Elastic_Index_core. cbn [Elastic.index].
    destruct (Index_writes_to (strings_ToLower (Index cfg)) docs opts s2 Hne)
      as (bcfg & berr & rest & Hc & Hb & Hr).
    destruct (Core.Index _ docs opts s2) as [[str f] s3].
    exists bcfg, berr, rest. auto. }
  split; [reflexivity|]. split; [exact Hes|].
  exists (OpenSearch.Build_OpenSearch (strings_ToLower (Index cfg))).
  split.
  - rewrite OpenSearch_new_core.
    destruct (new_run (OpenSearch.index o) cfg s Hname)
      as (evs' & idx' & f' & s1' & Hcore' & _).
    destruct (new_run (Elastic.index e) cfg s Hname) as (? & ? & ? & ? & Hcore2 & _).
    rewrite Hcore in Hcore2. injection Hcore2 as <- <- <-.
    revert Hcore Hcore'. unfold Core.new.
    apply String.eqb_neq in Hname. rewrite Hname.
    unfold_monad. vendor_answer; [discriminate|].
    vendor_answer; [discriminate|].
    destruct (negb _); [discriminate|].
    vendor_answer.
    match goal with |- context [IsError ?x] => destruct (IsError x) end.
    + vendor_answer.
      match goal with |- context [IsError ?x] => destruct (IsError x) end;
        [discriminate|].
      intros H1 H2. injection H1 as <-. injection H2 as <- <- <-. reflexivity.
    + intros H1 H2. injection H1 as <-. injection H2 as <- <- <-. reflexivity.
  - split; [reflexivity|].
    intros docs opts s2 Hne. rewrite OpenSearch_Index_core. cbn [OpenSearch.index].
    destruct (Index_writes_to (strings_ToLower (Index cfg)) docs opts s2 Hne)
      as (bcfg & berr & rest & Hc & Hb & Hr).
    destruct (Core.Index _ docs opts s2) as [[str f] s3].
    exists bcfg, berr, rest. auto.
Qed.

(** C2. The two bindings compute the same function. Run from the same
    state (the same world, hence the same answers of the vendor, the
    same clock and the same map order) with the same arguments,
    [Elastic.Index] and [OpenSearch.Index] return the same summary
    string, fail together with the same failure, and leave the same
    state and the same log of vendor calls behind; so do [Elastic.new]
    and [OpenSearch.new], which also store the same index name. The
    errors differ in their text only: [Core.es_text] and [Core.os_text]
    of one failure. *)
Theorem C2_bindings_agree `{Platform}
    (e : Elastic.Elastic) (cfg : IndexerConfig) (docs : list document)
    (opts : IndexingOpts) (s : state) :
  let o := OpenSearch.Build_OpenSearch (Elastic.index e) in
  (exists idx f s',
     Elastic.new e cfg s = ((Elastic.Build_Elastic idx, Core.es_text <$> f), s') /\
     OpenSearch.new o cfg s = ((OpenSearch.Build_OpenSearch idx, Core.os_text <$> f), s'))
  /\
  (exists str f s',
     Elastic.Index e docs opts s = ((str, Core.es_text <$> f), s') /\
     OpenSearch.Index o docs opts s = ((str, Core.os_text <$> f), s'))
  /\
  (is_Some (Elastic.new e cfg s).1.2 <-> is_Some (OpenSearch.new o cfg s).1.2)
  /\
  (is_Some (Elastic.Index e docs opts s).1.2
   <-> is_Some (OpenSearch.Index o docs opts s).1.2).
Proof.
  intros o. subst o.
  rewrite Elastic_new_core, OpenSearch_new_core, Elastic_Index_core,
    OpenSearch_Index_core.
  cbn [OpenSearch.index].
  destruct (Core.new (Elastic.index e) cfg s) as [[idx f] s1].
  destruct (Core.Index (Elastic.index e) docs opts s) as [[str f'] s2].
  cbn [fst snd].
  split; [exists idx, f, s1; split; reflexivity|].
  split; [exists str, f', s2; split; reflexivity|].
  rewrite !fmap_is_Some. split; reflexivity.
Qed.

(** ** Upstream failures *)

Ltac all_ok :=
  repeat first [ apply Forall_nil_2 | apply Forall_cons_2; [reflexivity|] ].

Section Failures.
Context `{Platform}.

Lemma failure_not_ok ev f : Core.failure_of ev = Some f -> ~ Core.answered_ok ev.
Proof.
  unfold Core.answered_ok. destruct ev as [? [?|] | ? [?|] | | | ? [?|] | ? ? [?|] | ? [?|]];
    cbn; congruence.
Qed.

(** In a log whose calls were all answered without an error but the
    last, a call that failed is the last one. *)
Lemma failing_is_last (oks : list event) last : forall pre ev post,
  Forall Core.answered_ok oks ->
  oks ++ [last] = pre ++ ev :: post ->
  ~ Core.answered_ok ev ->
  post = [] /\ ev = last.
Proof.
  induction oks as [|o oks IH]; intros pre ev post Hok Heq Hbad.
  - destruct pre as [|p pre]; cbn in Heq.
    + injection Heq as <- <-. auto.
    + injection Heq as _ Heq. destruct pre; discriminate Heq.
  - inversion Hok as [|? ? Ho Hoks]; subst.
    destruct pre as [|p pre]; cbn in Heq.
    + injection Heq as <- _. contradiction.
    + injection Heq as _ Heq. eapply IH; eauto.
Qed.

Lemma all_ok_no_failure (evs : list event) pre ev post f :
  Forall Core.answered_ok evs -> evs = pre ++ ev :: post ->
  Core.failure_of ev = Some f -> False.
Proof.
  intros Hok -> Hf. apply Forall_app in Hok as [_ Hok].
  inversion Hok; subst. eapply failure_not_ok; eauto.
Qed.

(** The text of an upstream failure: a prefix that names the step,
    then the message of the vendor's error. *)
Lemma failure_text ev f :
  Core.failure_of ev = Some f ->
  exists ue,
    Core.upstream_error ev = Some ue /\
    (exists prefix,
       prefix ∈ ["error creating the ES client: "; "ES health check failed: ";
                 "Error creating the indexer: "; "Unexpected ES indexing error: ";
                 "Unexpected ES error: "] /\
       Core.es_text f = fmt_Errorf (prefix +:+ Error ue)) /\
    (exists prefix,
       prefix ∈ ["error creating the OpenSearch client: ";
                 "OpenSearch health check failed: ";
                 "Error creating the indexer: ";
                 "Unexpected OpenSearch indexing error: ";
                 "Unexpected OpenSearch error: "] /\
       Core.os_text f = fmt_Errorf (prefix +:+ Error ue)).
Proof.
  destruct ev as [? [ue|] | ? [ue|] | | | ? [ue|] | ? ? [ue|] | ? [ue|]];
    cbn; try discriminate; intros [= <-]; exists ue;
    (split; [reflexivity|]); split; eexists; (split; [|reflexivity]); logged.
Qed.

Lemma new_failure_is_final idx0 cfg s :
  exists evs,
    calls (Core.new idx0 cfg s).2 = calls s ++ evs /\
    forall pre ev post f,
      evs = pre ++ ev :: post -> Core.failure_of ev = Some f ->
      post = [] /\ (Core.new idx0 cfg s).1.2 = Some f.
Proof.
  destruct (String.eqb_spec (Index cfg) "") as [Hempty|Hname].
  { unfold Core.new. rewrite Hempty. cbn. exists []. rewrite app_nil_r.
    split; [reflexivity|]. intros [|? ?] ? ? ? Heq; discriminate Heq. }
  destruct (new_run idx0 cfg s Hname) as (evs & idx & f0 & s' & -> & Hc & Hcase).
  exists evs. split; [exact Hc|]. cbn [fst snd].
  intros pre ev post f Heq Hf.
  assert (Hbad := failure_not_ok _ _ Hf).
  destruct Hcase as [(e & -> & -> & ->) | [(r & e & -> & -> & ->) |
    [(r & -> & _ & -> & ->) | [(r & rx & ex & -> & _ & _ & -> & ->) |
    [(r & rx & ex & rc & ec & -> & _ & _ & _ & -> & ->) |
     (r & rx & ex & rc & ec & -> & _ & _ & _ & -> & ->)]]]]].
  - eapply (failing_is_last [] _) in Heq as [-> ->]; [|all_ok|exact Hbad].
    cbn in Hf. injection Hf as <-. auto.
  - eapply (failing_is_last [_] _) in Heq as [-> ->]; [|all_ok|exact Hbad].
    cbn in Hf. injection Hf as <-. auto.
  - exfalso. eapply all_ok_no_failure; [|exact Heq|exact Hf]. all_ok.
  - exfalso. eapply all_ok_no_failure; [|exact Heq|exact Hf]. all_ok.
  - exfalso. destruct pre as [|? [|? [|? [|? [|? ?]]]]]; cbn in Heq;
      try discriminate Heq; injection Heq as; subst; cbn in Hf; discriminate Hf.
  - exfalso. destruct pre as [|? [|? [|? [|? [|? ?]]]]]; cbn in Heq;
      try discriminate Heq; injection Heq as; subst; cbn in Hf; discriminate Hf.
Qed.

Lemma Index_failure_is_final idx docs opts s :
  exists evs,
    calls (Core.Index idx docs opts s).2 = calls s ++ evs /\
    forall pre ev post f,
      evs = pre ++ ev :: post -> Core.failure_of ev = Some f ->
      post = [] /\ (Core.Index idx docs opts s).1 = ("", Some f).
Proof.
  destruct docs as [|d0 docs0].
  { exists []. cbn. rewrite app_nil_r. split; [reflexivity|].
    intros [|? ?] ? ? ? Heq; discriminate Heq. }
  destruct (Core.Index idx (d0 :: docs0) opts s) as [[str f0] s'] eqn:Hrun.
  assert (Hne : d0 :: docs0 <> []) by discriminate.
  destruct (Index_run _ _ _ _ _ _ _ Hne Hrun)
    as (bcfg & berr & adds & tail & Hc & _ & _ & _ & _ & Hcase).
  eexists. split; [exact Hc|]. cbn [fst snd].
  intros pre ev post f Heq Hf.
  assert (Hbad := failure_not_ok _ _ Hf).
  destruct Hcase as [(e & -> & -> & -> & -> & ->) | [(-> & -> & -> & f' & -> & Hloop) |
    [(-> & Hok & -> & biris & e & -> & ->) |
     (-> & Hok & -> & _ & biris & ? & ? & ? & -> & _)]]].
  - eapply (failing_is_last [] _) in Heq as [-> ->]; [|all_ok|exact Hbad].
    cbn in Hf. injection Hf as <-. auto.
  - rewrite app_nil_r in Heq.
    destruct Hloop as [(adds0 & item & biris & e & -> & Hok & ->) | (Hok & _)].
    + rewrite app_comm_cons in Heq.
      eapply failing_is_last in Heq as [-> ->];
        [|apply Forall_cons_2; [reflexivity | exact Hok]|exact Hbad].
      cbn in Hf. injection Hf as <-. auto.
    + exfalso. eapply all_ok_no_failure; [|exact Heq|exact Hf].
      constructor; [reflexivity | exact Hok].
  - rewrite app_comm_cons in Heq.
    eapply failing_is_last in Heq as [-> ->];
      [|apply Forall_cons_2; [reflexivity | exact Hok]|exact Hbad].
    cbn in Hf. injection Hf as <-. auto.
  - exfalso. eapply all_ok_no_failure; [|exact Heq|exact Hf].
    constructor; [reflexivity|]. apply Forall_app. split; [exact Hok|]. all_ok.
Qed.
End Failures.

(** C7, as the code has it. Neither [new] nor [Index] retries or falls
    back: a vendor call that returns an error (client creation, health
    check, bulk-indexer creation, item add, close) is the last vendor
    call of the invocation. The error returned is a new error, whose
    text is a prefix naming the step followed by the message of the
    vendor's error; [Index] returns it with an empty summary. *)
Theorem C7_upstream_errors_are_wrapped `{Platform}
    (e : Elastic.Elastic) (o : OpenSearch.OpenSearch) (cfg : IndexerConfig)
    (docs : list document) (opts : IndexingOpts) (s : state) :
  (exists evs,
     calls (Elastic.new e cfg s).2 = calls s ++ evs /\
     forall pre ev post f,
       evs = pre ++ ev :: post -> Core.failure_of ev = Some f ->
       post = [] /\ (Elastic.new e cfg s).1.2 = Some (Core.es_text f))
  /\
  (exists evs,
     calls (Elastic.Index e docs opts s).2 = calls s ++ evs /\
     forall pre ev post f,
       evs = pre ++ ev :: post -> Core.failure_of ev = Some f ->
       post = [] /\ (Elastic.Index e docs opts s).1 = ("", Some (Core.es_text f)))
  /\
  (exists evs,
     calls (OpenSearch.new o cfg s).2 = calls s ++ evs /\
     forall pre ev post f,
       evs = pre ++ ev :: post -> Core.failure_of ev = Some f ->
       post = [] /\ (OpenSearch.new o cfg s).1.2 = Some (Core.os_text f))
  /\
  (exists evs,
     calls (OpenSearch.Index o docs opts s).2 = calls s ++ evs /\
     forall pre ev post f,
       evs = pre ++ ev :: post -> Core.failure_of ev = Some f ->
       post = [] /\ (OpenSearch.Index o docs opts s).1 = ("", Some (Core.os_text f)))
  /\
  (forall ev f,
     Core.failure_of ev = Some f ->
     exists ue,
       Core.upstream_error ev = Some ue /\
       (exists prefix,
          prefix ∈ ["error creating the ES client: "; "ES health check failed: ";
                    "Error creating the indexer: "; "Unexpected ES indexing error: ";
                    "Unexpected ES error: "] /\
          Core.es_text f = fmt_Errorf (prefix +:+ Error ue)) /\
       (exists prefix,
          prefix ∈ ["error creating the OpenSearch client: ";
                    "OpenSearch health check failed: ";
                    "Error creating the indexer: ";
                    "Unexpected OpenSearch indexing error: ";
                    "Unexpected OpenSearch error: "] /\
          Core.os_text f = fmt_Errorf (prefix +:+ Error ue))).
Proof.
  split; [|split; [|split; [|split]]].
  - destruct (new_failure_is_final (Elastic.index e) cfg s) as (evs & Hc & Hlast).
    rewrite Elastic_new_core.
    destruct (Core.new (Elastic.index e) cfg s) as [[idx f0] s'].
    exists evs. split; [exact Hc|]. intros pre ev post f Heq Hf.
    destruct (Hlast pre ev post f Heq Hf) as [-> Hres]. cbn in Hres. subst f0. auto.
  - destruct (Index_failure_is_final (Elastic.index e) docs opts s) as (evs & Hc & Hlast).
    rewrite Elastic_Index_core.
    destruct (Core.Index (Elastic.index e) docs opts s) as [[str f0] s'].
    exists evs. split; [exact Hc|]. intros pre ev post f Heq Hf.
    destruct (Hlast pre ev post f Heq Hf) as [-> Hres]. cbn in Hres.
    injection Hres as -> ->. auto.
  - destruct (new_failure_is_final (OpenSearch.index o) cfg s) as (evs & Hc & Hlast).
    rewrite OpenSearch_new_core.
    destruct (Core.new (OpenSearch.index o) cfg s) as [[idx f0] s'].
    exists evs. split; [exact Hc|]. intros pre ev post f Heq Hf.
    destruct (Hlast pre ev post f Heq Hf) as [-> Hres]. cbn in Hres. subst f0. auto.
  - destruct (Index_failure_is_final (OpenSearch.index o) docs opts s)
      as (evs & Hc & Hlast).
    rewrite OpenSearch_Index_core.
    destruct (Core.Index (OpenSearch.index o) docs opts s) as [[str f0] s'].
    exists evs. split; [exact Hc|]. intros pre ev post f Heq Hf.
    destruct (Hlast pre ev post f Heq Hf) as [-> Hres]. cbn in Hres.
    injection Hres as -> ->. auto.
  - apply failure_text.
Qed.

(** C7 as stated fails: on a cluster that cannot be reached the vendor's
    error says "cannot create client", and the error of [new] is another
    one. *)
Lemma C7_error_is_not_verbatim :
  calls (Elastic.new Mock.es Mock.config (Mock.start Mock.unreachable)).2
  = [EvNewClient {| Addresses := ["http://127.0.0.1:9200"];
                    TLS_InsecureSkipVerify := true |}
                 (Some (errorString "cannot create client"))] /\
  (Elastic.new Mock.es Mock.config (Mock.start Mock.unreachable)).1.2
  = Some (errorString "error creating the ES client: cannot create client") /\
  (Elastic.new Mock.es Mock.config (Mock.start Mock.unreachable)).1.2
  <> Some (errorString "cannot create client").
Proof.
  assert (Herr : (Elastic.new Mock.es Mock.config (Mock.start Mock.unreachable)).1.2
                 = Some (errorString "error creating the ES client: cannot create client"))
    by evaluated.
  split; [evaluated|]. split; [exact Herr|].
  rewrite Herr. discriminate.
Qed.

(** ** Documents that cannot be encoded *)

Section Unserializable.
Context `{Platform}.

Lemma submitted_from_documents docs (adds : list event) :
  Forall (Core.from_documents docs) adds ->
  Forall (fun item => exists d, d ∈ docs /\ json_Marshal d = inl (Body item))
         (Core.submitted adds) /\
  length (Core.submitted adds) = length adds.
Proof.
  induction 1 as [|ev adds (item & biris & err & d & -> & Hin & Hj & _) _ [IH1 IH2]].
  - split; [constructor | reflexivity].
  - rewrite submitted_add. split; [constructor; eauto | simpl; congruence].
Qed.

Lemma Index_stops_at idx pre d post e opts s :
  Forall Core.serializable pre -> json_Marshal d = inr e ->
  exists f s' evs,
    Core.Index idx (pre ++ d :: post) opts s = (("", Some f), s') /\
    calls s' = calls s ++ evs /\
    Forall (fun item => exists d', d' ∈ pre /\ json_Marshal d' = inl (Body item))
           (Core.submitted evs) /\
    length (Core.submitted evs) <= length pre /\
    (Forall Core.answered_ok evs -> f = Core.EncodeFailed (fmt_s d) e) /\
    (~ Forall Core.answered_ok evs ->
     exists ev, last evs = Some ev /\ Core.failure_of ev = Some f).
Proof.
  intros Hser Hd.
  destruct (Index_unserializable idx pre d post e opts s Hser Hd)
    as (f & s' & bcfg & berr & adds & Hrun & Hc & Hfrom & Hlen & Hcase).
  destruct (submitted_from_documents _ _ Hfrom) as [Hitems Hsub].
  exists f, s', (EvNewBulkIndexer bcfg berr :: adds).
  split; [exact Hrun|]. split; [exact Hc|].
  split; [exact Hitems|].
  split; [change (length (Core.submitted adds) <= length pre); lia|].
  destruct Hcase as [(-> & Hok & ->) | [(e' & -> & -> & ->) |
                     (-> & adds0 & item & biris & e' & -> & Hok & ->)]].
  - split; [reflexivity|]. intros Hbad. exfalso. apply Hbad.
    apply Forall_cons_2; [reflexivity | exact Hok].
  - split.
    + intros Hall. inversion Hall as [|? ? Hhd _]; subst. discriminate Hhd.
    + intros _. eexists. split; reflexivity.
  - split.
    + intros Hall. inversion Hall as [|? ? _ Htl]; subst.
      apply Forall_app in Htl as [_ Htl].
      inversion Htl as [|? ? Hhd _]; subst. discriminate Hhd.
    + intros _. eexists. rewrite app_comm_cons, last_snoc. split; reflexivity.
Qed.
End Unserializable.

(** C6. When some document of the list cannot be encoded as JSON, [Index]
    returns an error and an empty summary. Nothing is submitted for the
    first such document or for a later one: every submitted item is the
    encoding of a document before it. When no vendor call failed on the
    way, the error is the one of that first document; otherwise the last
    vendor call failed (creating the bulk indexer, or adding an earlier
    document) and the error is the one of that step. This holds for
    both bindings. *)
Theorem C6_unserializable_document `{Platform}
    (e : Elastic.Elastic) (o : OpenSearch.OpenSearch)
    (pre post : list document) (d : document) (err : error)
    (opts : IndexingOpts) (s : state) :
  Forall Core.serializable pre -> json_Marshal d = inr err ->
  (exists result s' evs,
     Elastic.Index e (pre ++ d :: post) opts s = (("", Some result), s') /\
     calls s' = calls s ++ evs /\
     Forall (fun item => exists d', d' ∈ pre /\ json_Marshal d' = inl (Body item))
            (Core.submitted evs) /\
     length (Core.submitted evs) <= length pre /\
     (Forall Core.answered_ok evs ->
      result = fmt_Errorf ("Cannot encode document " +:+ fmt_s d +:+ ": " +:+ Error err)) /\
     (~ Forall Core.answered_ok evs ->
      exists ev f, last evs = Some ev /\ Core.failure_of ev = Some f /\
                   result = Core.es_text f))
  /\
  (exists result s' evs,
     OpenSearch.Index o (pre ++ d :: post) opts s = (("", Some result), s') /\
     calls s' = calls s ++ evs /\
     Forall (fun item => exists d', d' ∈ pre /\ json_Marshal d' = inl (Body item))
            (Core.submitted evs) /\
     length (Core.submitted evs) <= length pre /\
     (Forall Core.answered_ok evs ->
      result = fmt_Errorf ("Cannot encode document " +:+ fmt_s d +:+ ": " +:+ Error err)) /\
     (~ Forall Core.answered_ok evs ->
      exists ev f, last evs = Some ev /\ Core.failure_of ev = Some f /\
                   result = Core.os_text f)).
Proof.
  intros Hser Hd. split.
  - destruct (Index_stops_at (Elastic.index e) pre d post err opts s Hser Hd)
      as (f & s' & evs & Hrun & Hc & Hitems & Hlen & Hok & Hbad).
    exists (Core.es_text f), s', evs. rewrite Elastic_Index_core, Hrun.
    split; [reflexivity|]. split; [exact Hc|]. split; [exact Hitems|].
    split; [exact Hlen|]. split.
    + intros Hall. rewrite (Hok Hall). reflexivity.
    + intros Hnot. destruct (Hbad Hnot) as (ev & Hlast & Hf). eauto.
  - destruct (Index_stops_at (OpenSearch.index o) pre d post err opts s Hser Hd)
      as (f & s' & evs & Hrun & Hc & Hitems & Hlen & Hok & Hbad).
    exists (Core.os_text f), s', evs. rewrite OpenSearch_Index_core, Hrun.
    split; [reflexivity|]. split; [exact Hc|]. split; [exact Hitems|].
    split; [exact Hlen|]. split.
    + intros Hall. rewrite (Hok Hall). reflexivity.
    + intros Hnot. destruct (Hbad Hnot) as (ev & Hlast & Hf). eauto.
Qed.

(** ** The counters of the success callbacks *)

Lemma count_result_cons r b biris :
  Core.count_result r (b :: biris)
  = ((if decide (Result b = r) then 1 else 0) + Core.count_result r biris)%nat.
Proof.
  unfold Core.count_result. rewrite filter_cons.
  destruct (decide (Result b = r)); reflexivity.
Qed.

Lemma count_result_app r l1 l2 :
  Core.count_result r (l1 ++ l2)
  = (Core.count_result r l1 + Core.count_result r l2)%nat.
Proof. unfold Core.count_result. rewrite filter_app, length_app. reflexivity. Qed.

Lemma count_result_pos r biris :
  0 < Core.count_result r biris <-> r ∈ Result <$> biris.
Proof.
  induction biris as [|b biris IH].
  - cbn. split; [lia | intros Hin; inversion Hin].
  - rewrite count_result_cons, fmap_cons, elem_of_cons.
    destruct (decide (Result b = r)) as [->|Hne].
    + split; [auto | lia].
    + rewrite <- IH. split; [intros; right; lia | intros [Heq|Hpos]; [congruence | lia]].
  Qed.

(** The callbacks take a lock and add one to a counter, so the order in
    which they run does not show in the counters. *)
Lemma OnSuccess_lookup biris : forall (m : gmap string nat) r,
  fold_left OnSuccess biris m !! r =
  match Core.count_result r biris with
  | O => m !! r
  | S n => Some (S n + default 0 (m !! r))%nat
  end.
Proof.
  induction biris as [|b biris IH]; intros m r; [reflexivity|].
  cbn [fold_left]. rewrite IH, count_result_cons. unfold OnSuccess.
  destruct (decide (Result b = r)) as [->|Hne].
  - rewrite lookup_insert_eq. cbn [default].
    destruct (Core.count_result r biris); cbn; f_equal; lia.
  - rewrite lookup_insert_ne by exact Hne. reflexivity.
Qed.

Lemma OnSuccess_counts biris r n :
  fold_left OnSuccess biris (∅ : gmap string nat) !! r = Some n
  <-> 0 < n /\ n = Core.count_result r biris.
Proof.
  rewrite OnSuccess_lookup, lookup_empty. cbn [default].
  destruct (Core.count_result r biris) as [|c].
  - split; [discriminate | lia].
  - split; [intros [= <-]; lia | intros [_ ->]; f_equal; lia].
Qed.

(** X10. The counters after the success callbacks depend on how many
    callbacks reported each result, not on the order in which the
    workers ran them. *)
Lemma OnSuccess_permutation biris1 biris2 :
  biris1 ≡ₚ biris2 ->
  fold_left OnSuccess biris1 (∅ : gmap string nat) = fold_left OnSuccess biris2 ∅.
Proof.
  intros Hperm. apply map_eq. intros r. rewrite !OnSuccess_lookup.
  unfold Core.count_result. rewrite Hperm. reflexivity.
Qed.

(** ** The summary string *)

Lemma add_stats_acc entries : forall acc,
  add_stats acc entries = acc +:+ add_stats "" entries.
Proof.
  induction entries as [|x entries IH]; intros acc.
  - cbn. rewrite string_app_nil_r. reflexivity.
  - cbn [add_stats fold_left]. fold (add_stats (acc +:+ stat_entry x) entries).
    fold (add_stats ("" +:+ stat_entry x) entries).
    rewrite IH, (IH ("" +:+ stat_entry x)), string_app_nil_l, string_app_assoc.
    reflexivity.
Qed.

Lemma add_stats_cons x entries :
  add_stats "" (x :: entries) = stat_entry x +:+ add_stats "" entries.
Proof.
  cbn [add_stats fold_left]. fold (add_stats ("" +:+ stat_entry x) entries).
  rewrite add_stats_acc, string_app_nil_l. reflexivity.
Qed.

Lemma add_stats_app es1 es2 :
  add_stats "" (es1 ++ es2) = add_stats "" es1 +:+ add_stats "" es2.
Proof.
  induction es1 as [|x es1 IH]; [reflexivity|].
  cbn [app]. rewrite !add_stats_cons, IH, string_app_assoc. reflexivity.
Qed.

Section Summary.
Context `{Platform}.

(** A successful call on a non-empty list, read off the log. *)
Lemma Index_succeeded idx docs opts s str s' :
  docs <> [] ->
  Core.Index idx docs opts s = ((str, None), s') ->
  exists evs entries dur,
    calls s' = calls s ++ evs /\
    str = Core.summary dur entries (length docs - length (Core.submitted evs)) /\
    length (Core.submitted evs) <= length docs /\
    NoDup entries.*1 /\
    (forall r n, (r, n) ∈ entries <->
                 0 < n /\ n = Core.count_result r (Core.successes evs)).
Proof.
  intros Hne Hrun.
  destruct (Index_run _ _ _ _ _ _ _ Hne Hrun)
    as (bcfg & berr & adds & tail & Hc & _ & _ & Hfrom & Hlen & Hcase).
  destruct Hcase as [(e & _ & _ & _ & _ & Hf) | [(_ & _ & _ & f' & Hf & _) |
    [(_ & _ & _ & biris & e & _ & Hf) |
     (-> & Hok & _ & Hser & biris & dur & entries & skipped & -> & -> & Hn & Hperm)]]];
    try discriminate Hf.
  exists (EvNewBulkIndexer bcfg None :: adds ++ [EvClose biris None]), entries, dur.
  split; [exact Hc|].
  assert (Hsub : Core.submitted (EvNewBulkIndexer bcfg None :: adds ++ [EvClose biris None])
                 = Core.submitted adds).
  { change (Core.submitted (adds ++ [EvClose biris None]) = Core.submitted adds).
    rewrite submitted_app. cbn. apply app_nil_r. }
  rewrite Hsub.
  split; [f_equal; lia|]. split; [lia|].
  split.
  - rewrite Hperm. apply NoDup_fst_map_to_list.
  - intros r n. rewrite Hperm, elem_of_map_to_list.
    change (Core.successes (EvNewBulkIndexer bcfg None :: adds ++ [EvClose biris None]))
      with (Core.successes (adds ++ [EvClose biris None])).
    apply OnSuccess_counts.
Qed.
End Summary.


(** ** Decimal numerals and the end of the summary *)

Lemma string_of_chars_inj (s t : string) :
  list_ascii_of_string s = list_ascii_of_string t -> s = t.
Proof.
  intros Heq. rewrite <- (string_of_list_ascii_of_string s),
    <- (string_of_list_ascii_of_string t), Heq. reflexivity.
Qed.

Lemma ends_with_chars (s t : string) :
  Core.ends_with s t <->
  exists q, list_ascii_of_string s = q ++ list_ascii_of_string t.
Proof.
  split.
  - intros [p ->]. exists (list_ascii_of_string p). apply list_of_string_app.
  - intros [q Hq]. exists (string_of_list_ascii q). apply string_of_chars_inj.
    rewrite list_of_string_app, list_ascii_of_string_of_list_ascii. exact Hq.
Qed.

Lemma uint_chars (d : Decimal.uint) :
  Forall (fun c => c ∈ list_ascii_of_string "0123456789")
         (list_ascii_of_string (NilEmpty.string_of_uint d)).
Proof.
  induction d; cbn [NilEmpty.string_of_uint list_ascii_of_string];
    constructor; try assumption; apply list_elem_of_In; cbn; tauto.
Qed.

Lemma to_uint_not_nil (n : nat) : Nat.to_uint n <> Decimal.Nil.
Proof.
  rewrite <- (DecimalNat.Unsigned.of_to n) at 1. rewrite DecimalNat.Unsigned.to_of.
  apply DecimalFacts.unorm_nonnil.
Qed.

Lemma fmt_nat_unfold (n : nat) :
  fmt_nat n = NilEmpty.string_of_uint (Nat.to_uint n).
Proof.
  unfold fmt_nat, NilZero.string_of_uint.
  destruct (Nat.to_uint n) eqn:Hd; try reflexivity.
  exfalso. exact (to_uint_not_nil n Hd).
Qed.

Lemma fmt_nat_chars (n : nat) :
  Forall (fun c => c ∈ list_ascii_of_string "0123456789")
         (list_ascii_of_string (fmt_nat n)).
Proof. rewrite fmt_nat_unfold. apply uint_chars. Qed.

Lemma fmt_nat_not_empty (n : nat) : list_ascii_of_string (fmt_nat n) <> [].
Proof.
  rewrite fmt_nat_unfold. pose proof (to_uint_not_nil n) as Hd.
  destruct (Nat.to_uint n); [contradiction | ..]; discriminate.
Qed.

Lemma fmt_nat_inj (n m : nat) : fmt_nat n = fmt_nat m -> n = m.
Proof.
  unfold fmt_nat. intros Heq. apply (f_equal NilZero.uint_of_string) in Heq.
  rewrite !NilZero.usu in Heq by apply to_uint_not_nil.
  injection Heq as Heq. apply DecimalNat.Unsigned.to_uint_inj. exact Heq.
Qed.

Lemma not_a_digit (c : ascii) (n : nat) :
  c ∉ list_ascii_of_string "0123456789" -> c ∉ list_ascii_of_string (fmt_nat n).
Proof.
  intros Hc Hin. pose proof (fmt_nat_chars n) as Hall.
  rewrite Forall_forall in Hall. exact (Hc (Hall c Hin)).
Qed.

(** Two readings of one list around a separator that occurs in neither
    tail are the same reading. *)
Lemma split_at_last {A} (x : A) (a : list A) : forall b d1 d2,
  x ∉ d1 -> x ∉ d2 -> a ++ x :: d1 = b ++ x :: d2 -> a = b /\ d1 = d2.
Proof.
  induction a as [|y a IH]; intros b d1 d2 H1 H2 Heq.
  - destruct b as [|z b]; cbn in Heq.
    + injection Heq as ->. auto.
    + injection Heq as _ ->. exfalso. apply H1. apply elem_of_app. right. left.
  - destruct b as [|z b]; cbn in Heq.
    + injection Heq as _ <-. exfalso. apply H2. apply elem_of_app. right. left.
    + injection Heq as -> Heq. destruct (IH b d1 d2 H1 H2 Heq) as [-> ->]. auto.
Qed.

Lemma suffix_after {A} (sp : A) (Y p c RS : list A) :
  sp ∉ RS -> Y ++ sp :: c = p ++ sp :: RS -> exists q, c = q ++ RS.
Proof.
  intros Hsp Heq. rewrite (cons_middle sp Y), (cons_middle sp p), !app_assoc in Heq.
  apply app_eq_app in Heq as [l [[Hl ->] | [_ ->]]]; [|eauto].
  destruct l as [|z l _] using rev_ind; [exists []; reflexivity|].
  rewrite app_assoc in Hl. apply app_inj_tail in Hl as [_ <-].
  exfalso. apply Hsp. rewrite <- app_assoc. apply elem_of_app. right. left.
Qed.

Lemma equals_not_digit : "="%char ∉ list_ascii_of_string "0123456789".
Proof. intros Hin. apply list_elem_of_In in Hin. cbn in Hin. intuition discriminate. Qed.

Lemma colon_not_digit : ":"%char ∉ list_ascii_of_string "0123456789".
Proof. intros Hin. apply list_elem_of_In in Hin. cbn in Hin. intuition discriminate. Qed.

Lemma space_not_in_name : " "%char ∉ list_ascii_of_string "redundantskipped".
Proof. intros Hin. apply list_elem_of_In in Hin. cbn in Hin. intuition discriminate. Qed.

(** A summary that ends with the entry of the skipped duplicates shows
    their number. *)
Lemma redundant_entry_value (pre : string) (k n : nat) :
  Core.ends_with (pre +:+ " redundantskipped=" +:+ fmt_nat k)
                 (" redundantskipped=" +:+ fmt_nat n) ->
  n = k.
Proof.
  intros [p Heq]. apply (f_equal list_ascii_of_string) in Heq.
  rewrite !list_of_string_app in Heq.
  change (list_ascii_of_string " redundantskipped=")
    with (list_ascii_of_string " redundantskipped" ++ ["="%char]) in Heq.
  assert (Heq' :
    (list_ascii_of_string pre ++ list_ascii_of_string " redundantskipped")
      ++ "="%char :: list_ascii_of_string (fmt_nat k)
    = (list_ascii_of_string p ++ list_ascii_of_string " redundantskipped")
      ++ "="%char :: list_ascii_of_string (fmt_nat n)).
  { rewrite <- !app_assoc. rewrite <- !app_assoc in Heq. exact Heq. }
  apply split_at_last in Heq' as [_ Heq'];
    [| apply not_a_digit, equals_not_digit | apply not_a_digit, equals_not_digit].
  symmetry. apply fmt_nat_inj, string_of_chars_inj. exact Heq'.
Qed.

(** Without skipped duplicates the summary ends with the header or with
    the entry of a result, which is not the entry of the skipped
    duplicates unless the vendor names a result that way. *)
Lemma no_redundant_entry (head : string) (entries : list (string * nat)) (n : nat) :
  (forall r v, (r, v) ∈ entries -> ~ Core.ends_with r "redundantskipped") ->
  ~ Core.ends_with (head +:+ ":" +:+ add_stats "" entries)
                   (" redundantskipped=" +:+ fmt_nat n).
Proof.
  intros Hnames [p Heq]. apply (f_equal list_ascii_of_string) in Heq.
  rewrite !list_of_string_app in Heq.
  change (list_ascii_of_string " redundantskipped=")
    with (" "%char :: list_ascii_of_string "redundantskipped" ++ ["="%char]) in Heq.
  change (list_ascii_of_string ":") with [":"%char] in Heq.
  destruct entries as [|[c v] es _] using rev_ind.
  - cbn [add_stats fold_left list_ascii_of_string] in Heq. rewrite app_nil_r in Heq.
    destruct (list_ascii_of_string (fmt_nat n)) as [|y ds _] eqn:Hds using rev_ind.
    { exact (fmt_nat_not_empty n Hds). }
    rewrite !app_comm_cons, !app_assoc in Heq.
    apply app_inj_tail in Heq as [_ <-].
    apply colon_not_digit. pose proof (fmt_nat_chars n) as Hall.
    rewrite Hds, Forall_app, Forall_singleton in Hall. apply Hall.
  - rewrite add_stats_app, add_stats_cons in Heq.
    cbn [add_stats fold_left] in Heq. rewrite string_app_nil_r in Heq.
    unfold stat_entry in Heq. cbn [fst snd] in Heq.
    rewrite !list_of_string_app in Heq.
    change (list_ascii_of_string " ") with [" "%char] in Heq.
    change (list_ascii_of_string "=") with ["="%char] in Heq.
    assert (Heq' :
      (list_ascii_of_string head ++ [":"%char] ++ list_ascii_of_string (add_stats "" es)
       ++ " "%char :: list_ascii_of_string c) ++ "="%char :: list_ascii_of_string (fmt_nat v)
      = (list_ascii_of_string p ++ " "%char :: list_ascii_of_string "redundantskipped")
        ++ "="%char :: list_ascii_of_string (fmt_nat n)).
    { repeat first [rewrite <- app_assoc | progress cbn [app]].
      repeat first [rewrite <- app_assoc in Heq | progress cbn [app] in Heq].
      exact Heq. }
    apply split_at_last in Heq' as [Heq' _];
      [| apply not_a_digit, equals_not_digit | apply not_a_digit, equals_not_digit].
    rewrite !app_assoc in Heq'.
    apply suffix_after in Heq' as [q Hq]; [|exact space_not_in_name].
    apply (Hnames c v); [apply elem_of_app; right; left|].
    apply ends_with_chars. exists q. exact Hq.
Qed.

(** X11. On a successful call of [Index] with a non-empty list, let
    [skipped] be the number of documents of the list that were not
    handed to [Add] (on success every document is submitted or skipped
    by the check on [docHash]). The summary is the header and the
    entries of the results, followed by [" redundantskipped=<skipped>"]
    when [skipped > 0] and by nothing when [skipped = 0]. So the summary
    ends with that entry when a document was skipped; and, as long as
    the vendor reports no result whose name ends in "redundantskipped",
    a summary that ends with [" redundantskipped=<n>"] means that
    [n = skipped > 0]. The OpenSearch binding returns the same summary. *)
Theorem redundantskipped_entry_counts_unsubmitted `{Platform}
    (e : Elastic.Elastic) (docs : list document) (opts : IndexingOpts)
    (s s' : state) (str : string) :
  docs <> [] ->
  Elastic.Index e docs opts s = ((str, None), s') ->
  exists evs entries dur,
    calls s' = calls s ++ evs /\
    length (Core.submitted evs) <= length docs /\
    let skipped := length docs - length (Core.submitted evs) in
    str = "Indexing finished in " +:+ Duration_String (Duration_Truncate dur Millisecond)
          +:+ ":" +:+ (add_stats "" entries
                       +:+ (if (0 <? skipped)%nat
                            then " redundantskipped=" +:+ fmt_nat skipped else "")) /\
    (forall r n, (r, n) ∈ entries -> r ∈ Result <$> Core.successes evs) /\
    (0 < skipped -> Core.ends_with str (" redundantskipped=" +:+ fmt_nat skipped)) /\
    ((forall r, r ∈ Result <$> Core.successes evs ->
                ~ Core.ends_with r "redundantskipped") ->
     forall n, Core.ends_with str (" redundantskipped=" +:+ fmt_nat n) ->
               0 < skipped /\ n = skipped) /\
    OpenSearch.Index (OpenSearch.Build_OpenSearch (Elastic.index e)) docs opts s
    = ((str, None), s').
Proof.
  intros Hne Hrun.
  assert (Hos := OpenSearch_Index_core
                   (OpenSearch.Build_OpenSearch (Elastic.index e)) docs opts s).
  rewrite Elastic_Index_core in Hrun. cbn [OpenSearch.index] in Hos.
  destruct (Core.Index (Elastic.index e) docs opts s) as [[str0 f] s0] eqn:Hcore.
  destruct f as [f|]; [discriminate Hrun|]. injection Hrun as -> ->.
  destruct (Index_succeeded _ _ _ _ _ _ Hne Hcore)
    as (evs & entries & dur & Hc & -> & Hlen & _ & Hentries).
  exists evs, entries, dur.
  split; [exact Hc|]. split; [exact Hlen|].
  set (skipped := length docs - length (Core.submitted evs)). cbv zeta.
  assert (Hcat : forall r n, (r, n) ∈ entries -> r ∈ Result <$> Core.successes evs).
  { intros r n Hin. apply count_result_pos. apply Hentries in Hin as [Hpos ->]. exact Hpos. }
  split; [reflexivity|]. split; [exact Hcat|].
  unfold Core.summary, Core.redundant_entry.
  split; [|split; [|exact Hos]].
  - intros Hpos. apply Nat.ltb_lt in Hpos. rewrite Hpos.
    exists ("Indexing finished in " +:+ Duration_String (Duration_Truncate dur Millisecond)
            +:+ ":" +:+ add_stats "" entries).
    rewrite ?string_app_assoc. reflexivity.
  - intros Hnames n Hend.
    destruct (0 <? skipped)%nat eqn:Hpos.
    + apply Nat.ltb_lt in Hpos. split; [exact Hpos|].
      apply (redundant_entry_value
               ("Indexing finished in "
                +:+ Duration_String (Duration_Truncate dur Millisecond)
                +:+ ":" +:+ add_stats "" entries)).
      rewrite ?string_app_assoc. rewrite ?string_app_assoc in Hend. exact Hend.
    + exfalso. rewrite string_app_nil_r in Hend.
      apply (no_redundant_entry
               ("Indexing finished in "
                +:+ Duration_String (Duration_Truncate dur Millisecond)) entries n).
      * intros r v Hin. apply Hnames. exact (Hcat r v Hin).
      * rewrite ?string_app_assoc. exact Hend.
Qed.

(** ** The hasher across a skipped duplicate *)

Example sha256_constants :
  nth 0 SHA256.K 0%Z = 0x428a2f98%Z /\ nth 63 SHA256.K 0%Z = 0xc67178f2%Z /\
  nth 0 SHA256.H0 0%Z = 0x6a09e667%Z /\ nth 7 SHA256.H0 0%Z = 0x5be0cd19%Z.
Proof. repeat split; reflexivity. Qed.

Example sha256_empty :
  hex_EncodeToString (hasher_Sum sha256_New)
  = "e3b0c44298fc1c149afbf4c8996fb92427ae41e4649b934ca495991b7852b855".
Proof. vm_compute. reflexivity. Qed.

Example sha256_abc :
  hex_EncodeToString (hasher_Sum (hasher_Write sha256_New "abc"))
  = "ba7816bf8f01cfea414140de5dae2223b00361a396177a9cb410ff61f20015ad".
Proof. vm_compute. reflexivity. Qed.

Example sha256_two_blocks :
  hex_EncodeToString
    (hasher_Sum (hasher_Write sha256_New
       "abcdbcdecdefdefgefghfghighijhijkijkljklmklmnlmnomnopnopq"))
  = "248d6a61d20638b8e5c026930c3e6039a33ce45964ff2167f6ecedd419db06c1".
Proof. vm_compute. reflexivity. Qed.

(** The [continue] of a duplicate comes before [hasher.Reset()]: the
    loop goes on with the bytes of the skipped document still in the
    hasher, so the next id digests both encodings. *)
Lemma duplicate_leaves_hasher `{Platform} bi d rest l s j b :
  json_Marshal d = inl j ->
  docHash l !! hex_EncodeToString (hasher_Sum (hasher_Write (hasher l) j)) = Some b ->
  Core.range_documents bi (d :: rest) l s =
  Core.range_documents bi rest
    (Locals (hasher l +:+ j) (docHash l) (redundantSkipped l + 1) (indexerStats l)) s.
Proof.
  intros Hj Hseen. cbn [Core.range_documents]. rewrite Hj, Hseen. reflexivity.
Qed.

(** The same defect drops a document that is no duplicate: after the
    skipped second [4], the document [2] is hashed as [42], which is the
    id of the first document, and is skipped too. *)
Example distinct_document_is_dropped :
  Body <$> Core.submitted
             (calls (Elastic.Index Mock.es Mock.four_documents Mock.opts
                       (Mock.start Mock.healthy)).2)
  = ["42"; "4"] /\
  (Elastic.Index Mock.es Mock.four_documents Mock.opts (Mock.start Mock.healthy)).1
  = ("Indexing finished in 3ms: created=2 redundantskipped=2", None).
Proof. split; evaluated. Qed.

(** C1, on the code: of three documents with the body [42], the first is
    submitted, the second is skipped and counted, and the third is
    submitted again, under another id; one duplicate is counted, not
    two. Both bindings do so. *)
Theorem C1_third_copy_is_submitted :
  Body <$> Core.submitted
             (calls (Elastic.Index Mock.es Mock.thrice Mock.opts
                       (Mock.start Mock.healthy)).2)
  = ["42"; "42"] /\
  (Elastic.Index Mock.es Mock.thrice Mock.opts (Mock.start Mock.healthy)).1
  = ("Indexing finished in 3ms: created=2 redundantskipped=1", None) /\
  Body <$> Core.submitted
             (calls (OpenSearch.Index Mock.os Mock.thrice Mock.opts
                       (Mock.start Mock.healthy)).2)
  = ["42"; "42"] /\
  (OpenSearch.Index Mock.os Mock.thrice Mock.opts (Mock.start Mock.healthy)).1
  = ("Indexing finished in 3ms: created=2 redundantskipped=1", None).
Proof. repeat split; evaluated. Qed.

(** C3, on the code: after the skipped second document, the document [7]
    is submitted with the digest of the bytes [427] as its id, not with
    the digest of its own encoding [7]. Both bindings do so. *)
Theorem C3_id_digests_skipped_document_too :
  Core.submitted
    (calls (Elastic.Index Mock.es Mock.twice_then_other Mock.opts
              (Mock.start Mock.healthy)).2)
  = [ {| Action := "index"; Body := "42";
         DocumentID := "73475cb40a568e8da8a045ced110137e159f890ac4da883b6b17dc651b3a8049" |};
      {| Action := "index"; Body := "7";
         DocumentID := "42f25adecf47629878e89e31b2073d1af009c9c76f4140a06313af5e5950eabc" |} ]
  /\
  Core.submitted
    (calls (OpenSearch.Index Mock.os Mock.twice_then_other Mock.opts
              (Mock.start Mock.healthy)).2)
  = [ {| Action := "index"; Body := "42";
         DocumentID := "73475cb40a568e8da8a045ced110137e159f890ac4da883b6b17dc651b3a8049" |};
      {| Action := "index"; Body := "7";
         DocumentID := "42f25adecf47629878e89e31b2073d1af009c9c76f4140a06313af5e5950eabc" |} ]
  /\
  hex_EncodeToString (SHA256.digest (bytes_of_string "7"))
  = "7902699be42c8a8e46fbbb4501726517e86b22c56a189f7625a6da49081b2451" /\
  hex_EncodeToString (SHA256.digest (bytes_of_string "427"))
  = "42f25adecf47629878e89e31b2073d1af009c9c76f4140a06313af5e5950eabc".
Proof. repeat split; evaluated. Qed.

(** C9, on the code: of the documents 42, 4, 4, 2 one is a duplicate
    (the second 4), but the summary ends with [redundantskipped=2]: the
    document 2 is hashed together with the skipped 4, as [42], which is
    the id of the first document, and is skipped and counted as well.
    Both bindings do so. *)
Theorem C9_counts_a_document_that_is_no_duplicate :
  Dedup.encodings Mock.four_documents = ["42"; "4"; "4"; "2"] /\
  (Elastic.Index Mock.es Mock.four_documents Mock.opts (Mock.start Mock.healthy)).1
  = ("Indexing finished in 3ms: created=2 redundantskipped=2", None) /\
  Body <$> Core.submitted
             (calls (Elastic.Index Mock.es Mock.four_documents Mock.opts
                       (Mock.start Mock.healthy)).2)
  = ["42"; "4"] /\
  (OpenSearch.Index Mock.os Mock.four_documents Mock.opts (Mock.start Mock.healthy)).1
  = ("Indexing finished in 3ms: created=2 redundantskipped=2", None) /\
  Body <$> Core.submitted
             (calls (OpenSearch.Index Mock.os Mock.four_documents Mock.opts
                       (Mock.start Mock.healthy)).2)
  = ["42"; "4"].
Proof. repeat split; evaluated. Qed.

(** ** The statements on the scripted cluster *)

Import (hints) Mock.

(** C10 on the cluster without the index: the name [Go-Commons-Test] is stored in lower case. *)
Lemma C10_index_name_is_lowercased_witness :
  (Elastic.new Mock.es Mock.config (Mock.start Mock.fresh) = ((Mock.index_created.1.1, None), Mock.index_created.2)) /\
  (Index Mock.config <> "" /\
  Elastic.index Mock.index_created.1.1 = strings_ToLower (Index Mock.config) /\
  (forall docs opts s2, docs <> [] ->
     exists bcfg berr rest,
       calls (Elastic.Index Mock.index_created.1.1 docs opts s2).2
       = calls s2 ++ EvNewBulkIndexer bcfg berr :: rest /\
       bic_Index bcfg = strings_ToLower (Index Mock.config) /\
       Core.bulk_indexers rest = []) /\
  exists o',
    OpenSearch.new Mock.os Mock.config (Mock.start Mock.fresh) = ((o', None), Mock.index_created.2) /\
    OpenSearch.index o' = strings_ToLower (Index Mock.config) /\
    (forall docs opts s2, docs <> [] ->
       exists bcfg berr rest,
         calls (OpenSearch.Index o' docs opts s2).2
         = calls s2 ++ EvNewBulkIndexer bcfg berr :: rest /\
         bic_Index bcfg = strings_ToLower (Index Mock.config) /\
         Core.bulk_indexers rest = [])).
Proof.
  split; [evaluated|]. 
  apply (C10_index_name_is_lowercased Mock.es Mock.index_created.1.1 Mock.os Mock.config (Mock.start Mock.fresh) Mock.index_created.2).
  - evaluated.
Defined.

(** C6 on a list with a channel between two integers. *)
Lemma C6_unserializable_document_witness :
  (Forall Core.serializable Mock.before_channel) /\
  (json_Marshal Mock.channel = inr Mock.channel_error) /\
  ((exists result s' evs,
     Elastic.Index Mock.es (Mock.before_channel ++ Mock.channel :: Mock.after_channel) Mock.opts (Mock.start Mock.healthy) = (("", Some result), s') /\
     calls s' = calls (Mock.start Mock.healthy) ++ evs /\
     Forall (fun item => exists d', d' ∈ Mock.before_channel /\ json_Marshal d' = inl (Body item))
            (Core.submitted evs) /\
     length (Core.submitted evs) <= length Mock.before_channel /\
     (Forall Core.answered_ok evs ->
      result = fmt_Errorf ("Cannot encode document " +:+ fmt_s Mock.channel +:+ ": " +:+ Error Mock.channel_error)) /\
     (~ Forall Core.answered_ok evs ->
      exists ev f, last evs = Some ev /\ Core.failure_of ev = Some f /\
                   result = Core.es_text f))
  /\
  (exists result s' evs,
     OpenSearch.Index Mock.os (Mock.before_channel ++ Mock.channel :: Mock.after_channel) Mock.opts (Mock.start Mock.healthy) = (("", Some result), s') /\
     calls s' = calls (Mock.start Mock.healthy) ++ evs /\
     Forall (fun item => exists d', d' ∈ Mock.before_channel /\ json_Marshal d' = inl (Body item))
            (Core.submitted evs) /\
     length (Core.submitted evs) <= length Mock.before_channel /\
     (Forall Core.answered_ok evs ->
      result = fmt_Errorf ("Cannot encode document " +:+ fmt_s Mock.channel +:+ ": " +:+ Error Mock.channel_error)) /\
     (~ Forall Core.answered_ok evs ->
      exists ev f, last evs = Some ev /\ Core.failure_of ev = Some f /\
                   result = Core.os_text f))).
Proof.
  split; [repeat constructor; eexists; reflexivity|]. split; [reflexivity|]. 
  apply (C6_unserializable_document Mock.es Mock.os Mock.before_channel Mock.after_channel Mock.channel Mock.channel_error Mock.opts (Mock.start Mock.healthy)).
  - repeat constructor; eexists; reflexivity.
  - reflexivity.
Defined.


(** X11 on a list of three documents, one of them a duplicate. *)
Lemma redundantskipped_entry_counts_unsubmitted_witness :
  (Mock.batch <> []) /\
  (Elastic.Index Mock.es Mock.batch Mock.opts (Mock.start Mock.healthy) = ((Mock.batch_indexed.1.1, None), Mock.batch_indexed.2)) /\
  (exists evs entries dur,
    calls Mock.batch_indexed.2 = calls (Mock.start Mock.healthy) ++ evs /\
    length (Core.submitted evs) <= length Mock.batch /\
    let skipped := length Mock.batch - length (Core.submitted evs) in
    Mock.batch_indexed.1.1 = "Indexing finished in " +:+ Duration_String (Duration_Truncate dur Millisecond)
          +:+ ":" +:+ (add_stats "" entries
                       +:+ (if (0 <? skipped)%nat
                            then " redundantskipped=" +:+ fmt_nat skipped else "")) /\
    (forall r n, (r, n) ∈ entries -> r ∈ Result <$> Core.successes evs) /\
    (0 < skipped -> Core.ends_with Mock.batch_indexed.1.1 (" redundantskipped=" +:+ fmt_nat skipped)) /\
    ((forall r, r ∈ Result <$> Core.successes evs ->
                ~ Core.ends_with r "redundantskipped") ->
     forall n, Core.ends_with Mock.batch_indexed.1.1 (" redundantskipped=" +:+ fmt_nat n) ->
               0 < skipped /\ n = skipped) /\
    OpenSearch.Index (OpenSearch.Build_OpenSearch (Elastic.index Mock.es)) Mock.batch Mock.opts (Mock.start Mock.healthy)
    = ((Mock.batch_indexed.1.1, None), Mock.batch_indexed.2)).
Proof.
  split; [discriminate|]. split; [evaluated|]. 
  apply (redundantskipped_entry_counts_unsubmitted Mock.es Mock.batch Mock.opts (Mock.start Mock.healthy) Mock.batch_indexed.2 Mock.batch_indexed.1.1).
  - discriminate.
  - evaluated.
Defined.

(** C7 on the cluster that cannot be reached: the failed client creation
    is the only vendor call, and the error of [new] is its text behind
    the prefix of the step. *)
Lemma C7_upstream_errors_are_wrapped_witness :
  (Elastic.new Mock.es Mock.config (Mock.start Mock.unreachable)).1.2
  = Some (Core.es_text (Core.ClientFailed (errorString "cannot create client"))).
Proof.
  destruct (C7_upstream_errors_are_wrapped Mock.es Mock.os Mock.config []
              Mock.opts (Mock.start Mock.unreachable)) as [(evs & Hc & Hlast) _].
  assert (Hcalls :
    calls (Elastic.new Mock.es Mock.config (Mock.start Mock.unreachable)).2
    = [EvNewClient {| Addresses := ["http://127.0.0.1:9200"];
                      TLS_InsecureSkipVerify := true |}
                   (Some (errorString "cannot create client"))]) by evaluated.
  rewrite Hcalls in Hc.
  change (calls (Mock.start Mock.unreachable)) with (@nil (@event Mock.platform)) in Hc.
  rewrite app_nil_l in Hc.
  subst evs.
  exact (proj2 (Hlast [] _ [] (Core.ClientFailed (errorString "cannot create client"))
                      eq_refl eq_refl)).
Defined.

(** * Further properties of [new] and [Index] *)

(** ** What [new] leaves behind *)

Section NewEffects.
Context `{Platform}.

(** The receiver does not influence what [new] asks of the vendor nor
    whether it fails. *)
Lemma new_receiver_irrelevant i1 i2 cfg s :
  (Core.new i1 cfg s).2 = (Core.new i2 cfg s).2 /\
  (Core.new i1 cfg s).1.2 = (Core.new i2 cfg s).1.2.
Proof.
  unfold Core.new. destruct (String.eqb (Index cfg) ""); [split; reflexivity|].
  unfold_monad. vendor_answer; [split; reflexivity|].
  vendor_answer; [split; reflexivity|].
  destruct (negb _); [split; reflexivity|].
  vendor_answer.
  match goal with |- context [IsError ?x] => destruct (IsError x) end;
    [|split; reflexivity].
  vendor_answer.
  match goal with |- context [IsError ?x] => destruct (IsError x) end;
    split; reflexivity.
Qed.

(** With an index name, the package-level client is what [NewClient]
    returned, error or not. *)
Lemma new_client_var idx0 cfg s :
  Index cfg <> "" ->
  SDKClient (Core.new idx0 cfg s).2
  = (NewClient {| Addresses := Servers cfg;
                  TLS_InsecureSkipVerify := InsecureSkipVerify cfg |} (world s)).1.1.
Proof.
  intros Hname. unfold Core.new.
  apply String.eqb_neq in Hname. rewrite Hname.
  unfold_monad. vendor_answer; [reflexivity|].
  vendor_answer; [reflexivity|].
  destruct (negb _); [reflexivity|].
  vendor_answer.
  match goal with |- context [IsError ?x] => destruct (IsError x) end; [|reflexivity].
  vendor_answer.
  match goal with |- context [IsError ?x] => destruct (IsError x) end; reflexivity.
Qed.

Lemma new_receiver idx0 cfg s :
  Index cfg <> "" ->
  exists evs,
    calls (Core.new idx0 cfg s).2 = calls s ++ evs /\
    (Core.healthy evs -> (Core.new idx0 cfg s).1.1 = strings_ToLower (Index cfg)) /\
    (~ Core.healthy evs ->
     (Core.new idx0 cfg s).1.1 = idx0 /\ is_Some (Core.new idx0 cfg s).1.2) /\
    (Core.index_creation_failed evs ->
     (Core.new idx0 cfg s).1.1 = strings_ToLower (Index cfg) /\
     is_Some (Core.new idx0 cfg s).1.2).
Proof.
  intros Hname.
  destruct (new_run idx0 cfg s Hname) as (evs & idx & f & s' & -> & Hc & Hcase).
  exists evs. split; [exact Hc|]. cbn [fst snd].
  unfold Core.healthy, Core.health_status, Core.index_creation_failed.
  destruct Hcase as [(e & -> & -> & ->) | [(r & e & -> & -> & ->) |
    [(r & -> & Hcode & -> & ->) | [(r & rx & ex & -> & Hcode & Hmiss & -> & ->) |
    [(r & rx & ex & rc & ec & -> & Hcode & Hmiss & Hcreate & -> & ->) |
     (r & rx & ex & rc & ec & -> & Hcode & Hmiss & Hcreate & -> & ->)]]]]].
  - split; [intros (r & Hin & _); in_log Hin|].
    split; [intros _; split; [reflexivity | eexists; reflexivity]|].
    intros (i & r & e' & Hin & _). in_log Hin.
  - split; [intros (r' & Hin & _); in_log Hin|].
    split; [intros _; split; [reflexivity | eexists; reflexivity]|].
    intros (i & r' & e' & Hin & _). in_log Hin.
  - split; [intros (r' & Hin & Hr); in_log Hin; congruence|].
    split; [intros _; split; [reflexivity | eexists; reflexivity]|].
    intros (i & r' & e' & Hin & _). in_log Hin.
  - split; [reflexivity|].
    split; [intros Hno; exfalso; apply Hno; exists r; split; [logged | exact Hcode]|].
    intros (i & r' & e' & Hin & _). in_log Hin.
  - split; [reflexivity|].
    split; [intros Hno; exfalso; apply Hno; exists r; split; [logged | exact Hcode]|].
    intros (i & r' & e' & Hin & He). in_log Hin. congruence.
  - split; [reflexivity|].
    split; [intros Hno; exfalso; apply Hno; exists r; split; [logged | exact Hcode]|].
    intros _. split; [reflexivity | eexists; reflexivity].
Qed.
End NewEffects.

(** X1. What a call of [new] leaves behind. Without an index name it
    returns "index name not specified" and changes nothing: no vendor
    call, the receiver and the package-level client as before. With an
    index name the package-level client is replaced by what [NewClient]
    returned, also when [NewClient] failed. The receiver's index is set
    to the lowercased name exactly when the health check answered 200: a
    call that fails before that leaves the receiver as it was, and a call
    that fails creating the index has already set it. The OpenSearch
    binding leaves the same state. *)
Theorem new_effects `{Platform}
    (e : Elastic.Elastic) (o : OpenSearch.OpenSearch) (cfg : IndexerConfig) (s : state) :
  (Index cfg = "" ->
   Elastic.new e cfg s = ((e, Some (errorString "index name not specified")), s) /\
   OpenSearch.new o cfg s = ((o, Some (errorString "index name not specified")), s))
  /\
  (Index cfg <> "" ->
   exists evs,
     calls (Elastic.new e cfg s).2 = calls s ++ evs /\
     (OpenSearch.new o cfg s).2 = (Elastic.new e cfg s).2 /\
     SDKClient (Elastic.new e cfg s).2
     = (NewClient {| Addresses := Servers cfg;
                     TLS_InsecureSkipVerify := InsecureSkipVerify cfg |} (world s)).1.1 /\
     (Core.healthy evs ->
      Elastic.index (Elastic.new e cfg s).1.1 = strings_ToLower (Index cfg) /\
      OpenSearch.index (OpenSearch.new o cfg s).1.1 = strings_ToLower (Index cfg)) /\
     (~ Core.healthy evs ->
      (Elastic.new e cfg s).1.1 = e /\ (OpenSearch.new o cfg s).1.1 = o /\
      is_Some (Elastic.new e cfg s).1.2 /\ is_Some (OpenSearch.new o cfg s).1.2) /\
     (Core.index_creation_failed evs ->
      Elastic.index (Elastic.new e cfg s).1.1 = strings_ToLower (Index cfg) /\
      is_Some (Elastic.new e cfg s).1.2 /\
      OpenSearch.index (OpenSearch.new o cfg s).1.1 = strings_ToLower (Index cfg) /\
      is_Some (OpenSearch.new o cfg s).1.2)).
Proof.
  split.
  - intros Hempty. unfold Elastic.new, OpenSearch.new. rewrite Hempty. split; reflexivity.
  - intros Hname.
    destruct (new_receiver (Elastic.index e) cfg s Hname) as (evs & Hc & Hok & Hbad & Hfail).
    destruct (new_receiver (OpenSearch.index o) cfg s Hname)
      as (evs' & Hc' & Hok' & Hbad' & Hfail').
    destruct (new_receiver_irrelevant (OpenSearch.index o) (Elastic.index e) cfg s)
      as [Hst Hf].
    assert (evs' = evs) by (rewrite Hst, Hc in Hc'; eapply app_inv_head; eauto).
    subst evs'.
    pose proof (new_client_var (Elastic.index e) cfg s Hname) as Hclient.
    rewrite Elastic_new_core, OpenSearch_new_core.
    destruct (Core.new (Elastic.index e) cfg s) as [[i1 f1] s1].
    destruct (Core.new (OpenSearch.index o) cfg s) as [[i2 f2] s2].
    cbn [fst snd] in *. subst s2 f2.
    exists evs. split; [exact Hc|]. split; [reflexivity|]. split; [exact Hclient|].
    split; [intros Hh; split; [apply Hok | apply Hok']; exact Hh|].
    split.
    + intros Hno. destruct (Hbad Hno) as [-> Hs1]. destruct (Hbad' Hno) as [-> _].
      destruct e, o. cbn. rewrite !fmap_is_Some. auto.
    + intros Hcf. destruct (Hfail Hcf) as [-> Hs1]. destruct (Hfail' Hcf) as [-> _].
      cbn. rewrite !fmap_is_Some. auto.
Qed.

(** ** The calls of [Index] *)

(** One turn of the loop, by cases on the document and on the vendor. *)
Ltac loop_turn d l Hrun :=
  cbn [Core.range_documents] in Hrun;
  destruct (json_Marshal d) as [?j|?e] eqn:?Hj;
  [ destruct (docHash l !! _) as [?|] eqn:?Hseen;
    [ | unfold_monad;
        match type of Hrun with
        | context [bi_Add ?bb ?ii ?ww] =>
            destruct (bi_Add bb ii ww) as [[?biris [?e|]] ?w] eqn:?Hadd
        end; cbn [fst snd] in Hrun ]
  | ].

Section IndexCalls.
Context `{Platform}.

Lemma adds_are_bulk_calls docs (adds : list event) :
  Forall (Core.from_documents docs) adds -> Forall Dedup.bulk_call adds.
Proof.
  intros Hfrom. eapply Forall_impl; [exact Hfrom|].
  intros ev (item & biris & err & d & -> & _). exact I.
Qed.

Lemma no_close_among_adds docs (adds : list event) biris e :
  Forall (Core.from_documents docs) adds -> EvClose biris e ∉ adds.
Proof.
  intros Hfrom Hin. rewrite Forall_forall in Hfrom.
  destruct (Hfrom _ Hin) as (item & b & err & d & Heq & _). discriminate Heq.
Qed.

Lemma no_bulk_indexer_among_adds docs (adds : list event) :
  Forall (Core.from_documents docs) adds -> Core.bulk_indexers adds = [].
Proof.
  induction 1 as [|ev adds (item & biris & err & d & -> & _) _ IH];
    [reflexivity | exact IH].
Qed.

Lemma no_failed_add_among_ok (adds : list event) item biris e :
  Forall Core.answered_ok adds -> EvAdd item biris (Some e) ∉ adds.
Proof.
  intros Hok Hin. rewrite Forall_forall in Hok. specialize (Hok _ Hin). discriminate Hok.
Qed.

(** [Index] leaves the package-level client alone. *)
Lemma Index_keeps_client idx docs opts s :
  SDKClient (Core.Index idx docs opts s).2 = SDKClient s.
Proof.
  unfold Core.Index. destruct (length docs <=? 0)%nat; [reflexivity|].
  unfold_monad. vendor_answer; [reflexivity|].
  destruct (Core.range_documents _ docs _ _) as [[f|l] s1] eqn:Hloop;
    destruct (range_calls _ _ _ _ _ _ Hloop) as (adds & _ & Hk & _);
    cbn [SDKClient] in Hk; [exact Hk|].
  vendor_answer; exact Hk.
Qed.

Lemma Index_bulk_calls idx docs opts s :
  exists evs,
    calls (Core.Index idx docs opts s).2 = calls s ++ evs /\
    Forall Dedup.bulk_call evs /\
    length (Core.bulk_indexers evs) <= 1 /\
    length (Core.submitted evs) <= length docs /\
    Forall (fun item => Action item = "index" /\
                        exists d, d ∈ docs /\ json_Marshal d = inl (Body item))
           (Core.submitted evs).
Proof.
  destruct docs as [|d0 docs0].
  { exists []. cbn. rewrite app_nil_r. repeat split; auto. }
  assert (Hne : d0 :: docs0 <> []) by discriminate.
  destruct (Core.Index idx (d0 :: docs0) opts s) as [[str f] s'] eqn:Hrun.
  destruct (Index_run _ _ _ _ _ _ _ Hne Hrun)
    as (bcfg & berr & adds & tail & Hc & _ & _ & Hfrom & Hlen & Hcase).
  assert (Htail : tail = [] \/ exists biris e, tail = [EvClose biris e]).
  { destruct Hcase as [(e & _ & _ & -> & _) | [(_ & -> & _) |
      [(_ & _ & _ & biris & e & -> & _) | (_ & _ & _ & _ & biris & ? & ? & ? & -> & _)]]];
      eauto. }
  exists (EvNewBulkIndexer bcfg berr :: adds ++ tail). split; [exact Hc|].
  assert (Hsub : Core.submitted (EvNewBulkIndexer bcfg berr :: adds ++ tail)
                 = Core.submitted adds).
  { change (Core.submitted (adds ++ tail) = Core.submitted adds).
    rewrite submitted_app.
    destruct Htail as [-> | (biris & e & ->)]; cbn; apply app_nil_r. }
  destruct (submitted_from_documents _ _ Hfrom) as [_ Hlen'].
  split; [|split; [|split]].
  - constructor; [exact I|]. apply Forall_app. split; [eapply adds_are_bulk_calls; eauto|].
    destruct Htail as [-> | (biris & e & ->)]; repeat constructor.
  - change (length (bcfg :: Core.bulk_indexers (adds ++ tail)) <= 1).
    unfold Core.bulk_indexers. rewrite omap_app.
    fold (Core.bulk_indexers adds). rewrite (no_bulk_indexer_among_adds _ _ Hfrom).
    destruct Htail as [-> | (biris & e & ->)]; cbn; lia.
  - rewrite Hsub. lia.
  - rewrite Hsub. clear -Hfrom.
    induction Hfrom as [|ev adds (item & biris & err & d & -> & Hin & Hj & Ha) _ IH].
    + constructor.
    + rewrite submitted_add. constructor; [eauto | exact IH].
Qed.

(** [Close] is called exactly when the loop ran to its end. *)
Lemma Index_closes idx docs opts s :
  exists evs,
    calls (Core.Index idx docs opts s).2 = calls s ++ evs /\
    (Dedup.closed evs <->
     Dedup.bulk_indexer_created evs /\ Forall Core.serializable docs /\
     ~ Dedup.add_failed evs).
Proof.
  unfold Dedup.closed, Dedup.bulk_indexer_created, Dedup.add_failed.
  destruct docs as [|d0 docs0].
  { exists []. cbn. rewrite app_nil_r. split; [reflexivity|].
    split; [intros (b & e & Hin) | intros [(c & Hin) _]]; inversion Hin. }
  unfold Core.Index. cbn [length Nat.leb]. set (docs := d0 :: docs0).
  unfold_monad.
  match goal with
  | |- context [NewBulkIndexer ?xa ?xb ?xc ?xd ?xe ?xw] =>
      destruct (NewBulkIndexer xa xb xc xd xe xw) as [[bi [e|]] w1]
  end; cbn [fst snd].
  - eexists [_]. split; [reflexivity|].
    split; [intros (b & e' & Hin); in_log Hin | intros [(c & Hin) _]; in_log Hin].
  - destruct (Core.range_documents bi docs _ _) as [[f|l] s1] eqn:Hloop.
    + destruct (range_calls _ _ _ _ _ _ Hloop) as (adds & Hc & _ & _ & Hfrom).
      destruct (range_failed _ _ _ _ _ _ Hloop) as (adds' & Hc' & Hcase).
      assert (adds' = adds) by (rewrite Hc in Hc'; eapply app_inv_head; eauto).
      subst adds'. cbn [calls] in Hc. rewrite <- app_assoc in Hc.
      eexists. split; [exact Hc|]. split.
      * intros (b & e' & Hin). apply elem_of_cons in Hin as [Hin|Hin];
          [discriminate Hin|]. exfalso. eapply no_close_among_adds; eauto.
      * intros (_ & Hser & Hnofail). exfalso.
        destruct Hcase as [(adds0 & item & biris & e' & -> & _ & _)
                          | (_ & pre & d & post & e' & Hdocs & _ & Hbad & _)].
        -- apply Hnofail. exists item, biris, e'.
           apply elem_of_cons. right. apply elem_of_app. right. left.
        -- rewrite Hdocs in Hser. apply Forall_app in Hser as [_ Hser].
           inversion Hser as [|? ? [j Hj] ?]; subst. congruence.
    + destruct (range_calls _ _ _ _ _ _ Hloop) as (adds & Hc & _ & _ & Hfrom).
      destruct (range_finished _ _ _ _ _ _ Hloop) as (adds' & Hc' & Hok & _ & _ & Hser).
      assert (adds' = adds) by (rewrite Hc in Hc'; eapply app_inv_head; eauto).
      subst adds'. cbn [calls] in Hc. rewrite <- app_assoc in Hc.
      assert (Hright : forall tail : list event,
                (forall item biris e', EvAdd item biris (Some e') ∉ tail) ->
                (exists cfg, EvNewBulkIndexer cfg None
                               ∈ EvNewBulkIndexer
                                   {| bic_Client := SDKClient s; bic_Index := idx;
                                      FlushBytes := 5000000;
                                      NumWorkers := runtime_NumCPU;
                                      Timeout := (10 * Minute)%Z |} None
                                 :: adds ++ tail) /\
                Forall Core.serializable docs /\
                ~ (exists item biris e',
                     EvAdd item biris (Some e')
                       ∈ EvNewBulkIndexer
                           {| bic_Client := SDKClient s; bic_Index := idx;
                              FlushBytes := 5000000; NumWorkers := runtime_NumCPU;
                              Timeout := (10 * Minute)%Z |} None
                         :: adds ++ tail)).
      { intros tail Htail. split; [eexists; left|]. split; [exact Hser|].
        intros (item & biris & e' & Hin).
        apply elem_of_cons in Hin as [Hin|Hin]; [discriminate Hin|].
        apply elem_of_app in Hin as [Hin|Hin].
        - eapply no_failed_add_among_ok; eauto.
        - eapply Htail; eauto. }
      match goal with
      | |- context [bi_Close ?xb ?xw] =>
          destruct (bi_Close xb xw) as [[biris [e|]] w2]
      end; cbn [fst snd calls]; rewrite Hc, <- app_assoc; cbn [app].
      * eexists. split; [reflexivity|]. split.
        -- intros _. apply Hright. intros item b e' Hin. in_log Hin.
        -- intros _. exists biris, (Some e). apply elem_of_cons. right.
           apply elem_of_app. right. left.
      * eexists. split; [reflexivity|]. split.
        -- intros _. apply Hright. intros item b e' Hin. in_log Hin.
        -- intros _. exists biris, None. apply elem_of_cons. right.
           apply elem_of_app. right. left.
Qed.

(** The ids of the items handed to [Add] are new to [docHash] and
    pairwise distinct. *)
Lemma range_ids bi docs : forall l s r s',
  Core.range_documents bi docs l s = (r, s') ->
  exists evs,
    calls s' = calls s ++ evs /\
    NoDup (DocumentID <$> Core.submitted evs) /\
    Forall (fun id => docHash l !! id = None) (DocumentID <$> Core.submitted evs).
Proof.
  induction docs as [|d docs IH]; intros l s r s' Hrun.
  - inversion Hrun; subst. exists []. rewrite app_nil_r.
    split; [reflexivity|]. split; constructor.
  - loop_turn d l Hrun.
    + apply IH in Hrun as (evs & Hc & Hnd & Hnew). exists evs. auto.
    + inversion Hrun; subst. cbn [calls]. eexists [_]. split; [reflexivity|].
      rewrite submitted_add. cbn.
      split; [apply NoDup_singleton | constructor; [exact Hseen | constructor]].
    + apply IH in Hrun as (evs & Hc & Hnd & Hnew).
      cbn [calls docHash run_callbacks] in Hc, Hnew. rewrite <- app_assoc in Hc.
      eexists (_ :: evs). split; [exact Hc|]. rewrite submitted_add, fmap_cons.
      cbn [DocumentID]. rewrite Forall_forall in Hnew.
      split.
      * constructor; [|exact Hnd]. intros Hin. specialize (Hnew _ Hin).
        rewrite lookup_insert_eq in Hnew. discriminate Hnew.
      * constructor; [exact Hseen|]. apply Forall_forall. intros id Hin.
        specialize (Hnew _ Hin).
        destruct (decide (hex_EncodeToString (hasher_Sum (hasher_Write (hasher l) j)) = id))
          as [<-|Hne].
        -- rewrite lookup_insert_eq in Hnew. discriminate Hnew.
        -- rewrite lookup_insert_ne in Hnew by exact Hne. exact Hnew.
    + inversion Hrun; subst. exists []. rewrite app_nil_r.
      split; [reflexivity|]. split; constructor.
Qed.

Lemma Index_ids_distinct idx docs opts s :
  exists evs,
    calls (Core.Index idx docs opts s).2 = calls s ++ evs /\
    NoDup (DocumentID <$> Core.submitted evs).
Proof.
  unfold Core.Index. destruct (length docs <=? 0)%nat.
  { exists []. cbn. rewrite app_nil_r. split; [reflexivity | constructor]. }
  unfold_monad. vendor_answer.
  { eexists [_]. split; [reflexivity | constructor]. }
  destruct (Core.range_documents _ docs _ _) as [[f|l] s1] eqn:Hloop;
    destruct (range_ids _ _ _ _ _ _ Hloop) as (adds & Hc & Hnd & _);
    cbn [calls] in Hc; rewrite <- app_assoc in Hc.
  - eexists. split; [exact Hc | exact Hnd].
  - vendor_answer; rewrite Hc, <- app_assoc; cbn [app];
      (eexists; split; [reflexivity|]);
      change (NoDup (DocumentID <$> Core.submitted (adds ++ [EvClose l0 (Some e)])))
        || change (NoDup (DocumentID <$> Core.submitted (adds ++ [EvClose l0 None])));
      rewrite submitted_app; cbn; rewrite app_nil_r; exact Hnd.
Qed.
End IndexCalls.

Section BindingState.
Context `{Platform}.

Lemma Elastic_Index_state (e : Elastic.Elastic) docs opts s :
  (Elastic.Index e docs opts s).2 = (Core.Index (Elastic.index e) docs opts s).2 /\
  (Elastic.Index e docs opts s).1.1 = (Core.Index (Elastic.index e) docs opts s).1.1 /\
  ((Elastic.Index e docs opts s).1.2 = None
   <-> (Core.Index (Elastic.index e) docs opts s).1.2 = None).
Proof.
  rewrite Elastic_Index_core.
  destruct (Core.Index (Elastic.index e) docs opts s) as [[str [f|]] s']; cbn;
    repeat split; auto; discriminate.
Qed.

Lemma OpenSearch_Index_state (o : OpenSearch.OpenSearch) docs opts s :
  (OpenSearch.Index o docs opts s).2 = (Core.Index (OpenSearch.index o) docs opts s).2 /\
  (OpenSearch.Index o docs opts s).1.1
  = (Core.Index (OpenSearch.index o) docs opts s).1.1 /\
  ((OpenSearch.Index o docs opts s).1.2 = None
   <-> (Core.Index (OpenSearch.index o) docs opts s).1.2 = None).
Proof.
  rewrite OpenSearch_Index_core.
  destruct (Core.Index (OpenSearch.index o) docs opts s) as [[str [f|]] s']; cbn;
    repeat split; auto; discriminate.
Qed.
End BindingState.

(** X2. A call of [Index] talks to the bulk indexer only: its vendor
    calls are [NewBulkIndexer] (at most one), [Add] and [Close], and it
    leaves the package-level client as it was. It calls [Add] at most
    once per document, always with the action "index" and with the JSON
    encoding of a document of the list as the body. *)
Theorem Index_calls_only_the_bulk_indexer `{Platform}
    (e : Elastic.Elastic) (o : OpenSearch.OpenSearch) (docs : list document)
    (opts : IndexingOpts) (s : state) :
  (exists evs,
     calls (Elastic.Index e docs opts s).2 = calls s ++ evs /\
     SDKClient (Elastic.Index e docs opts s).2 = SDKClient s /\
     Forall Dedup.bulk_call evs /\
     length (Core.bulk_indexers evs) <= 1 /\
     length (Core.submitted evs) <= length docs /\
     Forall (fun item => Action item = "index" /\
                         exists d, d ∈ docs /\ json_Marshal d = inl (Body item))
            (Core.submitted evs))
  /\
  (exists evs,
     calls (OpenSearch.Index o docs opts s).2 = calls s ++ evs /\
     SDKClient (OpenSearch.Index o docs opts s).2 = SDKClient s /\
     Forall Dedup.bulk_call evs /\
     length (Core.bulk_indexers evs) <= 1 /\
     length (Core.submitted evs) <= length docs /\
     Forall (fun item => Action item = "index" /\
                         exists d, d ∈ docs /\ json_Marshal d = inl (Body item))
            (Core.submitted evs)).
Proof.
  split.
  - destruct (Elastic_Index_state e docs opts s) as [-> _].
    destruct (Index_bulk_calls (Elastic.index e) docs opts s) as (evs & Hc & Hrest).
    exists evs. split; [exact Hc|]. split; [apply Index_keeps_client | exact Hrest].
  - destruct (OpenSearch_Index_state o docs opts s) as [-> _].
    destruct (Index_bulk_calls (OpenSearch.index o) docs opts s) as (evs & Hc & Hrest).
    exists evs. split; [exact Hc|]. split; [apply Index_keeps_client | exact Hrest].
Qed.

(** X3. [Index] calls [Close] on the bulk indexer exactly when the bulk
    indexer was created, every document of the list could be encoded and
    no [Add] failed. On the early returns of the loop (a document that
    cannot be encoded, a failed [Add]) the bulk indexer it created is
    left unclosed. *)
Theorem Index_closes_iff `{Platform}
    (e : Elastic.Elastic) (o : OpenSearch.OpenSearch) (docs : list document)
    (opts : IndexingOpts) (s : state) :
  (exists evs,
     calls (Elastic.Index e docs opts s).2 = calls s ++ evs /\
     (Dedup.closed evs <->
      Dedup.bulk_indexer_created evs /\ Forall Core.serializable docs /\
      ~ Dedup.add_failed evs))
  /\
  (exists evs,
     calls (OpenSearch.Index o docs opts s).2 = calls s ++ evs /\
     (Dedup.closed evs <->
      Dedup.bulk_indexer_created evs /\ Forall Core.serializable docs /\
      ~ Dedup.add_failed evs)).
Proof.
  split.
  - destruct (Elastic_Index_state e docs opts s) as [-> _]. apply Index_closes.
  - destruct (OpenSearch_Index_state o docs opts s) as [-> _]. apply Index_closes.
Qed.

(** X4. Within one call of [Index] no two items handed to [Add] carry
    the same [DocumentID]. *)
Theorem document_ids_are_distinct `{Platform}
    (e : Elastic.Elastic) (o : OpenSearch.OpenSearch) (docs : list document)
    (opts : IndexingOpts) (s : state) :
  (exists evs,
     calls (Elastic.Index e docs opts s).2 = calls s ++ evs /\
     NoDup (DocumentID <$> Core.submitted evs))
  /\
  (exists evs,
     calls (OpenSearch.Index o docs opts s).2 = calls s ++ evs /\
     NoDup (DocumentID <$> Core.submitted evs)).
Proof.
  split.
  - destruct (Elastic_Index_state e docs opts s) as [-> _]. apply Index_ids_distinct.
  - destruct (OpenSearch_Index_state o docs opts s) as [-> _]. apply Index_ids_distinct.
Qed.

(** ** Deduplication on lists without a skipped document *)

Section DuplicateFree.
Context `{Platform}.

Lemma encodings_cons_ok d docs j :
  json_Marshal d = inl j -> Dedup.encodings (d :: docs) = j :: Dedup.encodings docs.
Proof. intros Hj. unfold Dedup.encodings. cbn. rewrite Hj. reflexivity. Qed.

Lemma encodings_app docs1 docs2 :
  Dedup.encodings (docs1 ++ docs2) = Dedup.encodings docs1 ++ Dedup.encodings docs2.
Proof. unfold Dedup.encodings. apply omap_app. Qed.

Lemma encodings_length docs :
  Forall Core.serializable docs -> length (Dedup.encodings docs) = length docs.
Proof.
  induction 1 as [|d docs [j Hj] _ IH]; [reflexivity|].
  rewrite (encodings_cons_ok _ _ _ Hj). simpl. congruence.
Qed.

Lemma encodings_elem docs j :
  j ∈ Dedup.encodings docs <-> exists d, d ∈ docs /\ json_Marshal d = inl j.
Proof.
  unfold Dedup.encodings. rewrite list_elem_of_omap. split.
  - intros (d & Hin & Hd). exists d. split; [exact Hin|].
    destruct (json_Marshal d); congruence.
  - intros (d & Hin & Hd). exists d. split; [exact Hin|]. rewrite Hd. reflexivity.
Qed.

(** From a clean hasher, on documents whose content ids are pairwise
    distinct and new to [docHash], the loop skips nothing: what it hands
    to [Add] is the documents in order, each under its own content id. *)
Lemma range_duplicate_free bi docs : forall dh rs st s r s',
  NoDup (Dedup.content_id <$> Dedup.encodings docs) ->
  Forall (fun id => dh !! id = None) (Dedup.content_id <$> Dedup.encodings docs) ->
  Core.range_documents bi docs (Locals "" dh rs st) s = (r, s') ->
  exists evs,
    calls s' = calls s ++ evs /\
    Core.submitted evs `prefix_of` (Dedup.item_of <$> Dedup.encodings docs) /\
    match r with
    | inl _ => True
    | inr l' =>
        Core.submitted evs = Dedup.item_of <$> Dedup.encodings docs /\
        hasher l' = "" /\ redundantSkipped l' = rs /\
        Forall (fun id => is_Some (docHash l' !! id))
               (Dedup.content_id <$> Dedup.encodings docs) /\
        (forall id, is_Some (dh !! id) -> is_Some (docHash l' !! id))
    end.
Proof.
  induction docs as [|d docs IH]; intros dh rs st s r s' Hnd Hnew Hrun.
  - inversion Hrun; subst. exists []. rewrite app_nil_r.
    split; [reflexivity|]. split; [reflexivity|]. cbn.
    split; [reflexivity|]. split; [reflexivity|]. split; [reflexivity|].
    split; [constructor | auto].
  - cbn [Core.range_documents] in Hrun.
    destruct (json_Marshal d) as [j|e] eqn:Hj.
    2:{ inversion Hrun; subst. exists []. rewrite app_nil_r.
        split; [reflexivity|]. split; [apply prefix_nil | exact I]. }
    rewrite (encodings_cons_ok _ _ _ Hj), fmap_cons in Hnd, Hnew.
    rewrite (encodings_cons_ok _ _ _ Hj), !fmap_cons.
    apply NoDup_cons in Hnd as [Hfresh Hnd].
    inversion Hnew as [|? ? Hhead Htail]; subst.
    cbn [hasher docHash redundantSkipped indexerStats] in Hrun.
    change (hex_EncodeToString (hasher_Sum (hasher_Write "" j)))
      with (Dedup.content_id j) in Hrun.
    rewrite Hhead in Hrun. unfold_monad.
    match type of Hrun with
    | context [bi_Add ?bb ?ii ?ww] =>
        destruct (bi_Add bb ii ww) as [[biris [e|]] w] eqn:Hadd
    end; cbn [fst snd] in Hrun.
    + inversion Hrun; subst. cbn [calls]. eexists [_]. split; [reflexivity|].
      split; [|exact I]. rewrite submitted_add. apply prefix_cons, prefix_nil.
    + cbn [run_callbacks hasher docHash redundantSkipped indexerStats] in Hrun.
      change (hasher_Reset (hasher_Write "" j)) with "" in Hrun.
      apply IH in Hrun as (evs & Hc & Hpre & Hres); [|exact Hnd|].
      2:{ apply Forall_forall. intros id Hin. rewrite Forall_forall in Htail.
          rewrite lookup_insert_ne; [apply Htail; exact Hin|].
          intros <-. exact (Hfresh Hin). }
      cbn [calls] in Hc. rewrite <- app_assoc in Hc.
      eexists (_ :: evs). split; [exact Hc|]. rewrite submitted_add.
      split; [apply prefix_cons; exact Hpre|].
      destruct r as [f|l']; [exact I|].
      destruct Hres as (Hsub & Hh & Hrs & Hids & Hold).
      split; [rewrite Hsub; reflexivity|]. split; [exact Hh|]. split; [exact Hrs|].
      split.
      * constructor; [|exact Hids]. apply Hold. rewrite lookup_insert_eq. eauto.
      * intros id Hid. apply Hold.
        destruct (decide (Dedup.content_id j = id)) as [<-|Hne];
          [rewrite lookup_insert_eq; eauto | rewrite lookup_insert_ne by exact Hne; exact Hid].
Qed.

Lemma Index_duplicate_free idx docs opts s :
  NoDup (Dedup.content_id <$> Dedup.encodings docs) ->
  exists evs,
    calls (Core.Index idx docs opts s).2 = calls s ++ evs /\
    Core.submitted evs `prefix_of` (Dedup.item_of <$> Dedup.encodings docs) /\
    ((Core.Index idx docs opts s).1.2 = None ->
     Core.submitted evs = Dedup.item_of <$> Dedup.encodings docs /\
     length (Core.submitted evs) = length docs).
Proof.
  intros Hnd. unfold Core.Index. destruct docs as [|d0 docs0].
  { exists []. cbn. rewrite app_nil_r. auto. }
  cbn [length Nat.leb]. set (docs := d0 :: docs0) in *.
  unfold_monad. vendor_answer.
  { eexists [_]. split; [reflexivity|]. split; [apply prefix_nil | discriminate]. }
  destruct (Core.range_documents _ docs _ _) as [[f|l] s1] eqn:Hloop.
  - apply range_duplicate_free in Hloop as (adds & Hc & Hpre & _); [|exact Hnd|].
    2:{ apply Forall_forall. intros id _. apply lookup_empty. }
    cbn [calls] in Hc. rewrite <- app_assoc in Hc.
    eexists. split; [exact Hc|]. split; [exact Hpre | discriminate].
  - pose proof (range_finished _ _ _ _ _ _ Hloop) as (adds' & Hc' & _ & _ & _ & Hser).
    apply range_duplicate_free in Hloop as (adds & Hc & Hpre & Hsub & _); [|exact Hnd|].
    2:{ apply Forall_forall. intros id _. apply lookup_empty. }
    cbn [calls] in Hc. rewrite <- app_assoc in Hc.
    assert (Htail : forall tail : list event,
              Core.submitted tail = [] ->
              Core.submitted
                (EvNewBulkIndexer
                   {| bic_Client := SDKClient s; bic_Index := idx; FlushBytes := 5000000;
                      NumWorkers := runtime_NumCPU; Timeout := (10 * Minute)%Z |} None
                 :: adds ++ tail)
              = Dedup.item_of <$> Dedup.encodings docs).
    { intros tail Ht.
      change (Core.submitted (adds ++ tail) = Dedup.item_of <$> Dedup.encodings docs).
      rewrite submitted_app, Ht, app_nil_r. exact Hsub. }
    vendor_answer; rewrite Hc, <- app_assoc; cbn [app];
      (eexists; split; [reflexivity|]); rewrite Htail by reflexivity;
      (split; [reflexivity|]); [discriminate|].
    intros _. split; [reflexivity|].
    rewrite length_fmap. apply encodings_length. exact Hser.
Qed.

(** A copy of an earlier document, right after documents that were all
    submitted, is skipped. *)
Lemma Index_trailing_copy idx pre d j opts s :
  Forall Core.serializable pre ->
  NoDup (Dedup.content_id <$> Dedup.encodings pre) ->
  json_Marshal d = inl j -> j ∈ Dedup.encodings pre ->
  exists evs,
    calls (Core.Index idx (pre ++ [d]) opts s).2 = calls s ++ evs /\
    Core.submitted evs `prefix_of` (Dedup.item_of <$> Dedup.encodings pre) /\
    ((Core.Index idx (pre ++ [d]) opts s).1.2 = None ->
     Core.submitted evs = Dedup.item_of <$> Dedup.encodings pre /\
     exists dur entries,
       (Core.Index idx (pre ++ [d]) opts s).1.1 = Core.summary dur entries 1).
Proof.
  intros Hser Hnd Hj Hin. unfold Core.Index.
  replace (length (pre ++ [d]) <=? 0)%nat with false
    by (rewrite length_app; simpl; destruct (length pre); reflexivity).
  unfold_monad. vendor_answer.
  { eexists [_]. split; [reflexivity|]. split; [apply prefix_nil | discriminate]. }
  rewrite range_app.
  destruct (Core.range_documents _ pre _ _) as [[f|l] s1] eqn:Hloop.
  - apply range_duplicate_free in Hloop as (adds & Hc & Hpre & _); [|exact Hnd|].
    2:{ apply Forall_forall. intros id _. apply lookup_empty. }
    cbn [calls] in Hc. rewrite <- app_assoc in Hc.
    eexists. split; [exact Hc|]. split; [exact Hpre | discriminate].
  - apply range_duplicate_free in Hloop
      as (adds & Hc & Hpre & Hsub & Hh & Hrs & Hids & _); [|exact Hnd|].
    2:{ apply Forall_forall. intros id _. apply lookup_empty. }
    cbn [calls] in Hc. rewrite <- app_assoc in Hc.
    assert (Hseen : is_Some (docHash l !! Dedup.content_id j)).
    { rewrite Forall_forall in Hids. apply Hids. apply list_elem_of_fmap. eauto. }
    destruct Hseen as [seen Hseen].
    cbn [Core.range_documents]. rewrite Hj, Hh.
    change (hex_EncodeToString (hasher_Sum (hasher_Write "" j)))
      with (Dedup.content_id j).
    rewrite Hseen. cbn [ret].
    assert (Htail : forall tail : list event,
              Core.submitted tail = [] ->
              Core.submitted
                (EvNewBulkIndexer
                   {| bic_Client := SDKClient s; bic_Index := idx; FlushBytes := 5000000;
                      NumWorkers := runtime_NumCPU; Timeout := (10 * Minute)%Z |} None
                 :: adds ++ tail)
              = Dedup.item_of <$> Dedup.encodings pre).
    { intros tail Ht.
      change (Core.submitted (adds ++ tail) = Dedup.item_of <$> Dedup.encodings pre).
      rewrite submitted_app, Ht, app_nil_r. exact Hsub. }
    vendor_answer; rewrite Hc, <- app_assoc; cbn [app];
      (eexists; split; [reflexivity|]); rewrite Htail by reflexivity;
      (split; [reflexivity|]); [discriminate|].
    intros _. split; [reflexivity|].
    cbn [run_callbacks redundantSkipped indexerStats]. rewrite Hrs.
    eexists _, _. reflexivity.
Qed.
End DuplicateFree.

(** X5. When the documents that can be encoded have pairwise distinct
    content ids (the SHA-256 of their own encoding), deduplication is
    transparent: the items handed to [Add] are the documents in order,
    each under its own content id, up to the point where the call stops;
    and a call that succeeds has submitted every document and skipped
    none. *)
Theorem duplicate_free_list_is_submitted_whole `{Platform}
    (e : Elastic.Elastic) (o : OpenSearch.OpenSearch) (docs : list document)
    (opts : IndexingOpts) (s : state) :
  NoDup (Dedup.content_id <$> Dedup.encodings docs) ->
  (exists evs,
     calls (Elastic.Index e docs opts s).2 = calls s ++ evs /\
     Core.submitted evs `prefix_of` (Dedup.item_of <$> Dedup.encodings docs) /\
     ((Elastic.Index e docs opts s).1.2 = None ->
      Core.submitted evs = Dedup.item_of <$> Dedup.encodings docs /\
      length (Core.submitted evs) = length docs))
  /\
  (exists evs,
     calls (OpenSearch.Index o docs opts s).2 = calls s ++ evs /\
     Core.submitted evs `prefix_of` (Dedup.item_of <$> Dedup.encodings docs) /\
     ((OpenSearch.Index o docs opts s).1.2 = None ->
      Core.submitted evs = Dedup.item_of <$> Dedup.encodings docs /\
      length (Core.submitted evs) = length docs)).
Proof.
  intros Hnd. split.
  - destruct (Elastic_Index_state e docs opts s) as (-> & _ & Hok).
    destruct (Index_duplicate_free (Elastic.index e) docs opts s Hnd)
      as (evs & Hc & Hpre & Hall).
    exists evs. split; [exact Hc|]. split; [exact Hpre|].
    intros Hnone. apply Hall, Hok, Hnone.
  - destruct (OpenSearch_Index_state o docs opts s) as (-> & _ & Hok).
    destruct (Index_duplicate_free (OpenSearch.index o) docs opts s Hnd)
      as (evs & Hc & Hpre & Hall).
    exists evs. split; [exact Hc|]. split; [exact Hpre|].
    intros Hnone. apply Hall, Hok, Hnone.
Qed.

(** X6. A copy of an earlier document at the end of a list whose other
    documents have pairwise distinct content ids is never handed to
    [Add]; when the call succeeds, exactly the other documents were
    submitted and the summary ends with [" redundantskipped=1"]. *)
Theorem trailing_copy_is_skipped `{Platform}
    (e : Elastic.Elastic) (o : OpenSearch.OpenSearch) (pre : list document)
    (d : document) (j : string) (opts : IndexingOpts) (s : state) :
  Forall Core.serializable pre ->
  NoDup (Dedup.content_id <$> Dedup.encodings pre) ->
  json_Marshal d = inl j -> j ∈ Dedup.encodings pre ->
  (exists evs,
     calls (Elastic.Index e (pre ++ [d]) opts s).2 = calls s ++ evs /\
     Core.submitted evs `prefix_of` (Dedup.item_of <$> Dedup.encodings pre) /\
     ((Elastic.Index e (pre ++ [d]) opts s).1.2 = None ->
      Core.submitted evs = Dedup.item_of <$> Dedup.encodings pre /\
      exists dur entries,
        (Elastic.Index e (pre ++ [d]) opts s).1.1
        = "Indexing finished in " +:+ Duration_String (Duration_Truncate dur Millisecond)
          +:+ ":" +:+ (add_stats "" entries +:+ " redundantskipped=1")))
  /\
  (exists evs,
     calls (OpenSearch.Index o (pre ++ [d]) opts s).2 = calls s ++ evs /\
     Core.submitted evs `prefix_of` (Dedup.item_of <$> Dedup.encodings pre) /\
     ((OpenSearch.Index o (pre ++ [d]) opts s).1.2 = None ->
      Core.submitted evs = Dedup.item_of <$> Dedup.encodings pre /\
      exists dur entries,
        (OpenSearch.Index o (pre ++ [d]) opts s).1.1
        = "Indexing finished in " +:+ Duration_String (Duration_Truncate dur Millisecond)
          +:+ ":" +:+ (add_stats "" entries +:+ " redundantskipped=1"))).
Proof.
  intros Hser Hnd Hj Hin. split.
  - destruct (Elastic_Index_state e (pre ++ [d]) opts s) as (-> & -> & Hok).
    destruct (Index_trailing_copy (Elastic.index e) pre d j opts s Hser Hnd Hj Hin)
      as (evs & Hc & Hpre & Hall).
    exists evs. split; [exact Hc|]. split; [exact Hpre|].
    intros Hnone. apply Hok in Hnone.
    destruct (Hall Hnone) as (Hsub & dur & entries & Hstr).
    split; [exact Hsub|]. exists dur, entries. exact Hstr.
  - destruct (OpenSearch_Index_state o (pre ++ [d]) opts s) as (-> & -> & Hok).
    destruct (Index_trailing_copy (OpenSearch.index o) pre d j opts s Hser Hnd Hj Hin)
      as (evs & Hc & Hpre & Hall).
    exists evs. split; [exact Hc|]. split; [exact Hpre|].
    intros Hnone. apply Hok in Hnone.
    destruct (Hall Hnone) as (Hsub & dur & entries & Hstr).
    split; [exact Hsub|]. exists dur, entries. exact Hstr.
Qed.

(** ** The shape of a document id *)

Lemma be_bytes_length n : forall x, length (SHA256.be_bytes n x) = n.
Proof.
  induction n as [|n IH]; intros x; [reflexivity|].
  cbn [SHA256.be_bytes]. rewrite length_app, IH. simpl. lia.
Qed.

Lemma be_bytes_range n : forall x,
  Forall (fun b => (0 <= b < 256)%Z) (SHA256.be_bytes n x).
Proof.
  induction n as [|n IH]; intros x; [constructor|].
  cbn [SHA256.be_bytes]. apply Forall_app. split; [apply IH|].
  constructor; [|constructor]. apply Z.mod_pos_bound. lia.
Qed.

Lemma blocks_length fuel : forall h ws,
  length h = 8 -> length (SHA256.blocks fuel h ws) = 8.
Proof.
  induction fuel as [|fuel IH]; intros h ws Hh; [exact Hh|].
  cbn [SHA256.blocks]. destruct ws; [exact Hh|]. apply IH. reflexivity.
Qed.

Lemma digest_length msg : length (SHA256.digest msg) = 32.
Proof.
  unfold SHA256.digest.
  rewrite (@flat_map_constant_length _ _ 4) by (intros; apply be_bytes_length).
  rewrite blocks_length by reflexivity. reflexivity.
Qed.

Lemma digest_range msg : Forall (fun b => (0 <= b < 256)%Z) (SHA256.digest msg).
Proof.
  unfold SHA256.digest. generalize (SHA256.blocks (S (length (SHA256.words (SHA256.pad msg))))
                                      SHA256.H0 (SHA256.words (SHA256.pad msg))).
  intros ws. induction ws as [|w ws IH]; [constructor|].
  cbn [flat_map]. apply Forall_app. split; [apply be_bytes_range | exact IH].
Qed.

Lemma hex_length bs : String.length (hex_EncodeToString bs) = 2 * length bs.
Proof. induction bs as [|b bs IH]; [reflexivity|]. cbn. rewrite IH. lia. Qed.

Lemma hex_digit_char n : (0 <= n < 16)%Z -> hex_digit n ∈ Dedup.hex_chars.
Proof.
  intros Hn.
  assert (Hall : Forall (fun k => hex_digit (Z.of_nat k) ∈ Dedup.hex_chars) (seq 0 16)).
  { lazymatch goal with |- ?P => apply (bool_decide_eq_true_1 P) end.
    vm_compute. reflexivity. }
  rewrite Forall_forall in Hall. specialize (Hall (Z.to_nat n)).
  rewrite Z2Nat.id in Hall by lia. apply Hall. apply elem_of_seq. lia.
Qed.

Lemma hex_lowercase bs :
  Forall (fun b => (0 <= b < 256)%Z) bs ->
  Forall (fun c => c ∈ Dedup.hex_chars) (list_ascii_of_string (hex_EncodeToString bs)).
Proof.
  induction 1 as [|b bs Hb _ IH]; [constructor|].
  cbn [hex_EncodeToString list_ascii_of_string].
  constructor; [apply hex_digit_char; split;
                  [apply Z.div_pos; lia | apply Z.div_lt_upper_bound; lia]|].
  constructor; [apply hex_digit_char, Z.mod_pos_bound; lia | exact IH].
Qed.

Lemma content_id_format h :
  String.length (hex_EncodeToString (hasher_Sum h)) = 64 /\
  Forall (fun c => c ∈ Dedup.hex_chars)
         (list_ascii_of_string (hex_EncodeToString (hasher_Sum h))).
Proof.
  unfold hasher_Sum. split.
  - rewrite hex_length, digest_length. reflexivity.
  - apply hex_lowercase, digest_range.
Qed.

Section IdShape.
Context `{Platform}.

Lemma range_id_shape bi docs : forall l s r s',
  Core.range_documents bi docs l s = (r, s') ->
  exists evs, calls s' = calls s ++ evs /\ Forall Dedup.well_formed_id (Core.submitted evs).
Proof.
  assert (Hshape : forall h j,
            Dedup.well_formed_id {| Action := "index"; Body := j;
                              DocumentID := hex_EncodeToString
                                              (hasher_Sum (hasher_Write h j)) |}).
  { intros h j. destruct (content_id_format (hasher_Write h j)) as [Hlen Hchars].
    split; [exact Hlen|]. split; [exact Hchars|]. exists h. reflexivity. }
  induction docs as [|d docs IH]; intros l s r s' Hrun.
  - inversion Hrun; subst. exists []. rewrite app_nil_r. split; [reflexivity | constructor].
  - loop_turn d l Hrun.
    + apply IH in Hrun as (evs & Hc & Hall). exists evs. auto.
    + inversion Hrun; subst. cbn [calls]. eexists [_]. split; [reflexivity|].
      rewrite submitted_add. constructor; [apply Hshape | constructor].
    + apply IH in Hrun as (evs & Hc & Hall).
      cbn [calls] in Hc. rewrite <- app_assoc in Hc.
      eexists (_ :: evs). split; [exact Hc|]. rewrite submitted_add.
      constructor; [apply Hshape | exact Hall].
    + inversion Hrun; subst. exists []. rewrite app_nil_r. split; [reflexivity | constructor].
Qed.

Lemma Index_id_shape idx docs opts s :
  exists evs,
    calls (Core.Index idx docs opts s).2 = calls s ++ evs /\
    Forall Dedup.well_formed_id (Core.submitted evs).
Proof.
  unfold Core.Index. destruct (length docs <=? 0)%nat.
  { exists []. cbn. rewrite app_nil_r. split; [reflexivity | constructor]. }
  unfold_monad. vendor_answer.
  { eexists [_]. split; [reflexivity | constructor]. }
  destruct (Core.range_documents _ docs _ _) as [[f|l] s1] eqn:Hloop;
    destruct (range_id_shape _ _ _ _ _ _ Hloop) as (adds & Hc & Hall);
    cbn [calls] in Hc; rewrite <- app_assoc in Hc.
  - eexists. split; [exact Hc | exact Hall].
  - assert (Htail : forall tail : list event,
              Core.submitted tail = [] ->
              Forall Dedup.well_formed_id
                (Core.submitted
                   (EvNewBulkIndexer
                      {| bic_Client := SDKClient s; bic_Index := idx; FlushBytes := 5000000;
                         NumWorkers := runtime_NumCPU; Timeout := (10 * Minute)%Z |} None
                    :: adds ++ tail))).
    { intros tail Ht.
      change (Forall Dedup.well_formed_id (Core.submitted (adds ++ tail))).
      rewrite submitted_app, Ht, app_nil_r. exact Hall. }
    vendor_answer; rewrite Hc, <- app_assoc; cbn [app];
      (eexists; split; [reflexivity|]); apply Htail; reflexivity.
Qed.
End IdShape.

(** X7. Every [DocumentID] handed to [Add] is 64 lowercase hexadecimal
    digits: the SHA-256 of some bytes that end with the body of the
    item. *)
Theorem document_ids_are_sha256_hex `{Platform}
    (e : Elastic.Elastic) (o : OpenSearch.OpenSearch) (docs : list document)
    (opts : IndexingOpts) (s : state) :
  (exists evs,
     calls (Elastic.Index e docs opts s).2 = calls s ++ evs /\
     Forall Dedup.well_formed_id (Core.submitted evs))
  /\
  (exists evs,
     calls (OpenSearch.Index o docs opts s).2 = calls s ++ evs /\
     Forall Dedup.well_formed_id (Core.submitted evs)).
Proof.
  split.
  - destruct (Elastic_Index_state e docs opts s) as [-> _]. apply Index_id_shape.
  - destruct (OpenSearch_Index_state o docs opts s) as [-> _]. apply Index_id_shape.
Qed.

(** ** The first document of a call *)

Section FirstDocument.
Context `{Platform}.

Lemma Index_first_document idx d rest j opts s :
  json_Marshal d = inl j ->
  exists evs,
    calls (Core.Index idx (d :: rest) opts s).2 = calls s ++ evs /\
    forall cfg evs',
      evs = EvNewBulkIndexer cfg None :: evs' ->
      exists biris err evs'', evs' = EvAdd (Dedup.item_of j) biris err :: evs''.
Proof.
  intros Hj. unfold Core.Index. cbn [length Nat.leb].
  unfold_monad. vendor_answer.
  { eexists [_]. split; [reflexivity|]. intros cfg evs' Heq. discriminate Heq. }
  cbn [Core.range_documents]. rewrite Hj. cbn [hasher docHash].
  rewrite lookup_empty. unfold_monad. vendor_answer.
  { eexists [_; _]. split; [rewrite <- app_assoc; reflexivity|].
    intros cfg evs' [= _ <-]. eauto. }
  cbn [run_callbacks hasher docHash redundantSkipped indexerStats].
  destruct (Core.range_documents _ rest _ _) as [[f|lend] s1] eqn:Hloop;
    destruct (range_calls _ _ _ _ _ _ Hloop) as (adds & Hc & _);
    cbn [calls] in Hc; rewrite <- !app_assoc in Hc; cbn [app] in Hc.
  - eexists. split; [exact Hc|]. intros cfg evs' [= _ <-]. eauto.
  - vendor_answer; rewrite Hc, <- app_assoc; cbn [app];
      (eexists; split; [reflexivity|]); intros cfg evs' [= _ <-]; eauto.
Qed.
End FirstDocument.

(** X8. Deduplication does not reach across calls: whatever was indexed
    before, once the bulk indexer is created the first thing a call does
    is to hand its first document to [Add] (when it can be encoded),
    under the SHA-256 of its own encoding. *)
Theorem first_document_is_always_submitted `{Platform}
    (e : Elastic.Elastic) (o : OpenSearch.OpenSearch) (d : document)
    (rest : list document) (j : string) (opts : IndexingOpts) (s : state) :
  json_Marshal d = inl j ->
  (exists evs,
     calls (Elastic.Index e (d :: rest) opts s).2 = calls s ++ evs /\
     forall cfg evs',
       evs = EvNewBulkIndexer cfg None :: evs' ->
       exists biris err evs'', evs' = EvAdd (Dedup.item_of j) biris err :: evs'')
  /\
  (exists evs,
     calls (OpenSearch.Index o (d :: rest) opts s).2 = calls s ++ evs /\
     forall cfg evs',
       evs = EvNewBulkIndexer cfg None :: evs' ->
       exists biris err evs'', evs' = EvAdd (Dedup.item_of j) biris err :: evs'').
Proof.
  intros Hj. split.
  - destruct (Elastic_Index_state e (d :: rest) opts s) as [-> _].
    apply Index_first_document. exact Hj.
  - destruct (OpenSearch_Index_state o (d :: rest) opts s) as [-> _].
    apply Index_first_document. exact Hj.
Qed.

(** ** The counts of the summary add up *)





(** ** The further properties on the scripted cluster *)

(** A decidable proposition about closed terms, checked by evaluation. *)
Ltac decided :=
  lazymatch goal with
  | |- ?P => apply (bool_decide_eq_true_1 P); evaluated
  end.

(** X5 on three different integers. *)
Lemma duplicate_free_list_is_submitted_whole_witness :
  (NoDup (Dedup.content_id <$> Dedup.encodings Demo.distinct)) /\
  ((exists evs,
     calls (Elastic.Index Mock.es Demo.distinct Mock.opts (Mock.start Mock.healthy)).2 = calls (Mock.start Mock.healthy) ++ evs /\
     Core.submitted evs `prefix_of` (Dedup.item_of <$> Dedup.encodings Demo.distinct) /\
     ((Elastic.Index Mock.es Demo.distinct Mock.opts (Mock.start Mock.healthy)).1.2 = None ->
      Core.submitted evs = Dedup.item_of <$> Dedup.encodings Demo.distinct /\
      length (Core.submitted evs) = length Demo.distinct))
  /\
  (exists evs,
     calls (OpenSearch.Index Mock.os Demo.distinct Mock.opts (Mock.start Mock.healthy)).2 = calls (Mock.start Mock.healthy) ++ evs /\
     Core.submitted evs `prefix_of` (Dedup.item_of <$> Dedup.encodings Demo.distinct) /\
     ((OpenSearch.Index Mock.os Demo.distinct Mock.opts (Mock.start Mock.healthy)).1.2 = None ->
      Core.submitted evs = Dedup.item_of <$> Dedup.encodings Demo.distinct /\
      length (Core.submitted evs) = length Demo.distinct))).
Proof.
  split; [decided|]. 
  apply (duplicate_free_list_is_submitted_whole Mock.es Mock.os Demo.distinct Mock.opts (Mock.start Mock.healthy)).
  - decided.
Defined.

(** X6 on three different integers followed by a copy of the second. *)
Lemma trailing_copy_is_skipped_witness :
  (Forall Core.serializable Demo.distinct) /\
  (NoDup (Dedup.content_id <$> Dedup.encodings Demo.distinct)) /\
  (json_Marshal Demo.copy = inl "2") /\
  ("2" ∈ Dedup.encodings Demo.distinct) /\
  ((exists evs,
     calls (Elastic.Index Mock.es (Demo.distinct ++ [Demo.copy]) Mock.opts (Mock.start Mock.healthy)).2 = calls (Mock.start Mock.healthy) ++ evs /\
     Core.submitted evs `prefix_of` (Dedup.item_of <$> Dedup.encodings Demo.distinct) /\
     ((Elastic.Index Mock.es (Demo.distinct ++ [Demo.copy]) Mock.opts (Mock.start Mock.healthy)).1.2 = None ->
      Core.submitted evs = Dedup.item_of <$> Dedup.encodings Demo.distinct /\
      exists dur entries,
        (Elastic.Index Mock.es (Demo.distinct ++ [Demo.copy]) Mock.opts (Mock.start Mock.healthy)).1.1
        = "Indexing finished in " +:+ Duration_String (Duration_Truncate dur Millisecond)
          +:+ ":" +:+ (add_stats "" entries +:+ " redundantskipped=1")))
  /\
  (exists evs,
     calls (OpenSearch.Index Mock.os (Demo.distinct ++ [Demo.copy]) Mock.opts (Mock.start Mock.healthy)).2 = calls (Mock.start Mock.healthy) ++ evs /\
     Core.submitted evs `prefix_of` (Dedup.item_of <$> Dedup.encodings Demo.distinct) /\
     ((OpenSearch.Index Mock.os (Demo.distinct ++ [Demo.copy]) Mock.opts (Mock.start Mock.healthy)).1.2 = None ->
      Core.submitted evs = Dedup.item_of <$> Dedup.encodings Demo.distinct /\
      exists dur entries,
        (OpenSearch.Index Mock.os (Demo.distinct ++ [Demo.copy]) Mock.opts (Mock.start Mock.healthy)).1.1
        = "Indexing finished in " +:+ Duration_String (Duration_Truncate dur Millisecond)
          +:+ ":" +:+ (add_stats "" entries +:+ " redundantskipped=1")))).
Proof.
  split; [repeat constructor; eexists; reflexivity|]. split; [decided|]. split; [reflexivity|]. split; [decided|]. 
  apply (trailing_copy_is_skipped Mock.es Mock.os Demo.distinct Demo.copy "2" Mock.opts (Mock.start Mock.healthy)).
  - repeat constructor; eexists; reflexivity.
  - decided.
  - reflexivity.
  - decided.
Defined.

(** X8 on a list that starts with the integer 2. *)
Lemma first_document_is_always_submitted_witness :
  (json_Marshal Demo.copy = inl "2") /\
  ((exists evs,
     calls (Elastic.Index Mock.es (Demo.copy :: Demo.distinct) Mock.opts (Mock.start Mock.healthy)).2 = calls (Mock.start Mock.healthy) ++ evs /\
     forall cfg evs',
       evs = EvNewBulkIndexer cfg None :: evs' ->
       exists biris err evs'', evs' = EvAdd (Dedup.item_of "2") biris err :: evs'')
  /\
  (exists evs,
     calls (OpenSearch.Index Mock.os (Demo.copy :: Demo.distinct) Mock.opts (Mock.start Mock.healthy)).2 = calls (Mock.start Mock.healthy) ++ evs /\
     forall cfg evs',
       evs = EvNewBulkIndexer cfg None :: evs' ->
       exists biris err evs'', evs' = EvAdd (Dedup.item_of "2") biris err :: evs'')).
Proof.
  split; [reflexivity|]. 
  apply (first_document_is_always_submitted Mock.es Mock.os Demo.copy Demo.distinct "2" Mock.opts (Mock.start Mock.healthy)).
  - reflexivity.
Defined.


(** X1 on the scripted cluster: without a name nothing happens; on the
    cluster that refuses to create the index, [new] fails and has set
    the receiver's index all the same. *)
Lemma new_effects_witness :
  Elastic.new Demo.unset Demo.no_name (Mock.start Mock.healthy)
  = ((Demo.unset, Some (errorString "index name not specified")), Mock.start Mock.healthy)
  /\
  Elastic.index (Elastic.new Demo.unset Mock.config (Mock.start Demo.read_only)).1.1
  = strings_ToLower (Index Mock.config) /\
  is_Some (Elastic.new Demo.unset Mock.config (Mock.start Demo.read_only)).1.2.
Proof.
  destruct (new_effects Demo.unset Demo.os_unset Demo.no_name (Mock.start Mock.healthy))
    as [Hempty _].
  destruct (new_effects Demo.unset Demo.os_unset Mock.config (Mock.start Demo.read_only))
    as [_ Hname].
  split; [exact (proj1 (Hempty eq_refl))|].
  assert (Hne : Index Mock.config <> "") by discriminate.
  destruct (Hname Hne) as (evs & Hc & _ & _ & _ & _ & Hfail).
  assert (Hcalls :
    calls (Elastic.new Demo.unset Mock.config (Mock.start Demo.read_only)).2
    = [EvNewClient {| Addresses := ["http://127.0.0.1:9200"];
                      TLS_InsecureSkipVerify := true |} None;
       EvHealth {| Mock.status := 200; Mock.text := "" |} None;
       EvExists ["go-commons-test"] {| Mock.status := 404; Mock.text := "" |} None;
       EvCreate "go-commons-test" {| Mock.status := 403; Mock.text := "[403]" |} None])
    by evaluated.
  rewrite Hcalls in Hc.
  change (calls (Mock.start Demo.read_only)) with (@nil (@event Mock.platform)) in Hc.
  rewrite app_nil_l in Hc. subst evs.
  assert (Hfailed : Core.index_creation_failed
            [EvNewClient {| Addresses := ["http://127.0.0.1:9200"];
                            TLS_InsecureSkipVerify := true |} None;
             EvHealth {| Mock.status := 200; Mock.text := "" |} None;
             EvExists ["go-commons-test"] {| Mock.status := 404; Mock.text := "" |} None;
             EvCreate "go-commons-test" {| Mock.status := 403; Mock.text := "[403]" |} None]).
  { eexists _, _, _.
    split; [do 3 (apply elem_of_cons; right); apply elem_of_cons; left; reflexivity
           | reflexivity]. }
  destruct (Hfail Hfailed) as (Hidx & Hsome & _). split; [exact Hidx | exact Hsome].
Defined.

(** X10 on two callbacks that run in either order. *)
Lemma OnSuccess_permutation_witness :
  [ {| Result := "created" |}; {| Result := "updated" |} ]
  ≡ₚ [ {| Result := "updated" |}; {| Result := "created" |} ] /\
  fold_left OnSuccess [ {| Result := "created" |}; {| Result := "updated" |} ]
            (∅ : gmap string nat)
  = fold_left OnSuccess [ {| Result := "updated" |}; {| Result := "created" |} ] ∅.
Proof.
  split; [apply perm_swap|].
  apply (OnSuccess_permutation [ {| Result := "created" |}; {| Result := "updated" |} ]
                               [ {| Result := "updated" |}; {| Result := "created" |} ]).
  apply perm_swap.
Defined.

(** ** [new] with the responses as pointers *)

(** The runs of [new] with an index name, by the answers of the cluster. *)
Ltac new_by_answers Hname :=
  unfold Pointer.Elastic_new, Pointer.OpenSearch_new, Elastic.new, OpenSearch.new,
    Cluster.requests, Cluster.healthy, Cluster.missing, Cluster.refused,
    Cluster.made, Cluster.found, Cluster.health, Cluster.created,
    Cluster.client_config, Cluster.lower in *;
  try (apply String.eqb_neq in Hname; rewrite !Hname);
  unfold_monad.

(** X12. On a healthy cluster (the client is created and the health check
    answers 200) that answers the existence check, and the creation when
    it comes to it, with a response, [new] with an index name makes these
    requests and no other: [NewClient] with the servers of the
    configuration, [Health], [Exists] for the lowercased name and, exactly
    when the response of [Exists] is an error response, [Create] for the
    lowercased name, each on the world the request before has left. It
    leaves the world of its last request, has set the receiver's index to
    the lowercased name, and returns an error exactly when the index was
    reported missing and its creation was refused. The OpenSearch binding
    leaves the same state. *)
Theorem new_asks_the_cluster `{Pointers}
    (e : Elastic.Elastic) (o : OpenSearch.OpenSearch) (cfg : IndexerConfig) (s : state) :
  Index cfg <> "" -> Cluster.healthy cfg s ->
  is_nil (Cluster.found cfg s).1.1 = false ->
  (Cluster.missing cfg s = true -> is_nil (Cluster.made cfg s).1.1 = false) ->
  (Pointer.Elastic_new e cfg s).2
  = State (if Cluster.missing cfg s then (Cluster.made cfg s).2 else (Cluster.found cfg s).2)
          (calls s ++ Cluster.requests cfg s) (Cluster.created cfg s).1.1 /\
  (Pointer.OpenSearch_new o cfg s).2 = (Pointer.Elastic_new e cfg s).2 /\
  Elastic.index (Pointer.Elastic_new e cfg s).1.1 = Cluster.lower cfg /\
  OpenSearch.index (Pointer.OpenSearch_new o cfg s).1.1 = Cluster.lower cfg /\
  (exists err, (Pointer.Elastic_new e cfg s).1.2 = Returns err /\
     (is_Some err <-> Cluster.missing cfg s = true /\ Cluster.refused cfg s = true)) /\
  (exists err, (Pointer.OpenSearch_new o cfg s).1.2 = Returns err /\
     (is_Some err <-> Cluster.missing cfg s = true /\ Cluster.refused cfg s = true)).
Proof.
  intros Hname (Hclient & Hhealth & Hthere & Hcode) Hfound Hmade.
  new_by_answers Hname.
  destruct (NewClient _ (world s)) as [[c ce] w1]. cbn [fst snd] in *. subst ce.
  unfold_monad.
  destruct (Cluster_Health c w1) as [[r he] w2]. cbn [fst snd] in *. subst he.
  rewrite Hthere, Hcode. cbn [Z.eqb Pos.eqb negb].
  unfold_monad.
  destruct (Indices_Exists c _ w2) as [[rx ex] w3]. cbn [fst snd] in *.
  rewrite Hfound.
  destruct (IsError rx) eqn:Hmiss.
  - unfold_monad.
    destruct (Indices_Create c _ w3) as [[rc ec] w4]. cbn [fst snd] in *.
    rewrite (Hmade eq_refl).
    destruct (IsError rc) eqn:Hrefused; cbn [fst snd Elastic.index OpenSearch.index];
      rewrite <- !app_assoc; cbn [app];
      (split; [reflexivity|]); (split; [reflexivity|]);
      (split; [reflexivity|]); (split; [reflexivity|]);
      split; eexists; (split; [reflexivity|]);
      (split; [intros Hs | intros [_ Hr]]);
      try (split; reflexivity); try (eexists; reflexivity);
      try discriminate; try (destruct Hs; discriminate).
  - cbn [fst snd Elastic.index OpenSearch.index].
    rewrite <- !app_assoc; cbn [app].
    (split; [reflexivity|]); (split; [reflexivity|]);
    (split; [reflexivity|]); (split; [reflexivity|]).
    split; eexists; (split; [reflexivity|]);
      (split; [intros Hs; destruct Hs; discriminate | intros [Hm _]; discriminate]).
Qed.

(** X15. A call of [new] that does not panic is the call of [new] of the
    bindings above: same receiver, same error, same state. *)
Theorem new_without_panic `{Pointers}
    (e : Elastic.Elastic) (o : OpenSearch.OpenSearch) (cfg : IndexerConfig) (s : state) :
  (forall err, (Pointer.Elastic_new e cfg s).1.2 = Returns err ->
     Elastic.new e cfg s
     = (((Pointer.Elastic_new e cfg s).1.1, err), (Pointer.Elastic_new e cfg s).2)) /\
  (forall err, (Pointer.OpenSearch_new o cfg s).1.2 = Returns err ->
     OpenSearch.new o cfg s
     = (((Pointer.OpenSearch_new o cfg s).1.1, err), (Pointer.OpenSearch_new o cfg s).2)).
Proof.
  unfold Pointer.Elastic_new, Pointer.OpenSearch_new, Elastic.new, OpenSearch.new.
  unfold_monad.
  destruct (String.eqb (Index cfg) ""); cbn [fst snd world calls SDKClient].
  { split; intros err [= <-]; reflexivity. }
  destruct (NewClient _ (world s)) as [[c [ce|]] w1]; cbn [fst snd world calls SDKClient].
  { split; intros err [= <-]; reflexivity. }
  destruct (Cluster_Health c w1) as [[r [he|]] w2]; cbn [fst snd world calls SDKClient].
  { split; intros err [= <-]; reflexivity. }
  destruct (is_nil r); [split; intros err; discriminate|].
  destruct (negb (StatusCode r =? 200)%Z); cbn [fst snd world calls SDKClient].
  { split; intros err [= <-]; reflexivity. }
  destruct (Indices_Exists c _ w2) as [[rx ex] w3]; cbn [fst snd world calls SDKClient].
  destruct (is_nil rx); [split; intros err; discriminate|].
  destruct (IsError rx); cbn [fst snd world calls SDKClient].
  2: { split; intros err [= <-]; reflexivity. }
  destruct (Indices_Create c _ w3) as [[rc ec] w4]; cbn [fst snd world calls SDKClient].
  destruct (is_nil rc); [split; intros err; discriminate|].
  destruct (IsError rc); split; intros err [= <-]; reflexivity.
Qed.

(** X14. [new] panics exactly when an index name is given, the client is
    created, the health check returns no error and a response that [new]
    dereferences is nil: that of [Health]; or, after a status of 200,
    that of [Exists]; or, after an error response of [Exists], that of
    [Create]. Both bindings. *)
Theorem new_panics_iff `{Pointers}
    (e : Elastic.Elastic) (o : OpenSearch.OpenSearch) (cfg : IndexerConfig) (s : state) :
  let panics :=
    Index cfg <> "" /\
    (Cluster.created cfg s).1.2 = None /\ (Cluster.health cfg s).1.2 = None /\
    (is_nil (Cluster.health cfg s).1.1 = true \/
     StatusCode (Cluster.health cfg s).1.1 = 200%Z /\
     (is_nil (Cluster.found cfg s).1.1 = true \/
      Cluster.missing cfg s = true /\ is_nil (Cluster.made cfg s).1.1 = true)) in
  ((Pointer.Elastic_new e cfg s).1.2 = Panics <-> panics) /\
  ((Pointer.OpenSearch_new o cfg s).1.2 = Panics <-> panics).
Proof.
  cbv zeta.
  unfold Pointer.Elastic_new, Pointer.OpenSearch_new,
    Cluster.missing, Cluster.made, Cluster.found, Cluster.health, Cluster.created,
    Cluster.client_config, Cluster.lower.
  unfold_monad.
  destruct (String.eqb (Index cfg) "") eqn:Hname; cbn [fst snd world calls SDKClient].
  { apply String.eqb_eq in Hname.
    split; (split; [discriminate | intros [Hne _]; contradiction]). }
  apply String.eqb_neq in Hname.
  destruct (NewClient _ (world s)) as [[c [ce|]] w1]; cbn [fst snd world calls SDKClient].
  { split; (split; [discriminate | intros (_ & Hce & _); discriminate]). }
  destruct (Cluster_Health c w1) as [[r [he|]] w2]; cbn [fst snd world calls SDKClient].
  { split; (split; [discriminate | intros (_ & _ & Hhe & _); discriminate]). }
  destruct (is_nil r) eqn:Hr; cbn [fst snd world calls SDKClient].
  { split; (split; [intros _; auto | reflexivity]). }
  destruct (StatusCode r =? 200)%Z eqn:Hcode; cbn [negb fst snd world calls SDKClient].
  2: { apply Z.eqb_neq in Hcode.
       split; (split; [discriminate
                      | intros (_ & _ & _ & [Hn | [Hc _]]); [discriminate | contradiction]]). }
  apply Z.eqb_eq in Hcode.
  destruct (Indices_Exists c _ w2) as [[rx ex] w3]; cbn [fst snd world calls SDKClient].
  destruct (is_nil rx) eqn:Hrx; cbn [fst snd world calls SDKClient].
  { split; (split; [intros _; auto 7 | reflexivity]). }
  destruct (IsError rx) eqn:Hmiss; cbn [fst snd world calls SDKClient].
  2: { split; (split; [discriminate
                      | intros (_ & _ & _ & [Hn | (_ & [Hn | [Hm _]])]); discriminate]). }
  destruct (Indices_Create c _ w3) as [[rc ec] w4]; cbn [fst snd world calls SDKClient].
  destruct (is_nil rc) eqn:Hrc; cbn [fst snd world calls SDKClient].
  { split; (split; [intros _; auto 9 | reflexivity]). }
  destruct (IsError rc);
    split; (split; [discriminate
                   | intros (_ & _ & _ & [Hn | (_ & [Hn | [_ Hn]])]); discriminate]).
Qed.

(** X13. A call of [new] with an index name that returns, returns an
    error exactly when [NewClient] returned one, or [Health] returned one,
    or the status of the health response is not 200, or the response of
    [Exists] and the response of [Create] are both error responses; when
    it returns nil, the receiver's index is the lowercased name. Both
    bindings. *)
Theorem new_fails_iff `{Pointers}
    (e : Elastic.Elastic) (o : OpenSearch.OpenSearch) (cfg : IndexerConfig) (s : state) :
  Index cfg <> "" ->
  let failed :=
    (Cluster.created cfg s).1.2 <> None \/ (Cluster.health cfg s).1.2 <> None \/
    StatusCode (Cluster.health cfg s).1.1 <> 200%Z \/
    Cluster.missing cfg s = true /\ Cluster.refused cfg s = true in
  (forall err, (Pointer.Elastic_new e cfg s).1.2 = Returns err ->
     (is_Some err <-> failed) /\
     (err = None -> Elastic.index (Pointer.Elastic_new e cfg s).1.1 = Cluster.lower cfg)) /\
  (forall err, (Pointer.OpenSearch_new o cfg s).1.2 = Returns err ->
     (is_Some err <-> failed) /\
     (err = None ->
      OpenSearch.index (Pointer.OpenSearch_new o cfg s).1.1 = Cluster.lower cfg)).
Proof.
  intros Hname. cbv zeta.
  unfold Pointer.Elastic_new, Pointer.OpenSearch_new,
    Cluster.missing, Cluster.refused, Cluster.made, Cluster.found, Cluster.health,
    Cluster.created, Cluster.client_config, Cluster.lower.
  apply String.eqb_neq in Hname. rewrite Hname.
  unfold_monad.
  destruct (NewClient _ (world s)) as [[c [ce|]] w1]; cbn [fst snd world calls SDKClient].
  { split; intros err [= <-];
      (split; [split; [intros _; left; discriminate | intros _; eexists; reflexivity]
              | discriminate]). }
  destruct (Cluster_Health c w1) as [[r [he|]] w2]; cbn [fst snd world calls SDKClient].
  { split; intros err [= <-];
      (split; [split; [intros _; right; left; discriminate | intros _; eexists; reflexivity]
              | discriminate]). }
  destruct (is_nil r) eqn:Hr; cbn [fst snd world calls SDKClient]; [split; intros err; discriminate|].
  destruct (StatusCode r =? 200)%Z eqn:Hcode; cbn [negb fst snd world calls SDKClient].
  2: { apply Z.eqb_neq in Hcode.
       split; intros err [= <-];
         (split; [split; [intros _; right; right; left; exact Hcode
                         | intros _; eexists; reflexivity]
                 | discriminate]). }
  apply Z.eqb_eq in Hcode.
  destruct (Indices_Exists c _ w2) as [[rx ex] w3]; cbn [fst snd world calls SDKClient].
  destruct (is_nil rx) eqn:Hrx; cbn [fst snd world calls SDKClient]; [split; intros err; discriminate|].
  destruct (IsError rx) eqn:Hmiss; cbn [fst snd world calls SDKClient].
  2: { split; intros err [= <-];
         (split; [split; [intros Hs; destruct Hs; discriminate
                         | intros [Hf | [Hf | [Hf | [Hf _]]]];
                           [contradiction | contradiction | contradiction | discriminate]]
                 | reflexivity]). }
  destruct (Indices_Create c _ w3) as [[rc ec] w4]; cbn [fst snd world calls SDKClient].
  destruct (is_nil rc) eqn:Hrc; cbn [fst snd world calls SDKClient]; [split; intros err; discriminate|].
  destruct (IsError rc) eqn:Hrefused; cbn [fst snd];
    split; intros err [= <-];
    (split; [split; [intros Hs | intros Hf] | try discriminate; try reflexivity]);
    try (eexists; reflexivity); try (destruct Hs; discriminate); auto 6;
    destruct Hf as [Hf | [Hf | [Hf | [_ Hf]]]];
    try contradiction; try discriminate.
Qed.

(** ** [new] on the scripted cluster with pointers *)

(** C4, on the code: the cluster is healthy and drops the connection at
    the existence check, so [Exists] returns nil and an error. [new]
    drops the error and dereferences the response: it panics, after three
    requests, and returns neither nil nor an error. Both bindings. *)
Theorem C4_new_panics_on_a_nil_response :
  (@Pointer.Elastic_new Lossy.platform Lossy.pointers
     Demo.unset Mock.config (Lossy.start Lossy.dropped)).1.2 = Panics /\
  calls (@Pointer.Elastic_new Lossy.platform Lossy.pointers
           Demo.unset Mock.config (Lossy.start Lossy.dropped)).2
  = [@EvNewClient Lossy.platform {| Addresses := ["http://127.0.0.1:9200"];
                    TLS_InsecureSkipVerify := true |} None;
     @EvHealth Lossy.platform (Some {| Mock.status := 200; Mock.text := "" |}) None;
     @EvExists Lossy.platform ["go-commons-test"] None (Some (errorString "EOF"))] /\
  (@Pointer.OpenSearch_new Lossy.platform Lossy.pointers
     Demo.os_unset Mock.config (Lossy.start Lossy.dropped)).1.2 = Panics /\
  calls (@Pointer.OpenSearch_new Lossy.platform Lossy.pointers
           Demo.os_unset Mock.config (Lossy.start Lossy.dropped)).2
  = [@EvNewClient Lossy.platform {| Addresses := ["http://127.0.0.1:9200"];
                    TLS_InsecureSkipVerify := true |} None;
     @EvHealth Lossy.platform (Some {| Mock.status := 200; Mock.text := "" |}) None;
     @EvExists Lossy.platform ["go-commons-test"] None (Some (errorString "EOF"))].
Proof. repeat split; evaluated. Qed.

(** X12 on the cluster without the index: four requests, the last one
    creates the index. *)
Lemma new_asks_the_cluster_witness :
  (Index Mock.config <> "") /\
  (@Cluster.healthy Lossy.platform Lossy.pointers Mock.config (Lossy.start Mock.fresh)) /\
  ((@Pointer.Elastic_new Lossy.platform Lossy.pointers
      Demo.unset Mock.config (Lossy.start Mock.fresh)).2
   = @State Lossy.platform
       (if @Cluster.missing Lossy.platform Mock.config (Lossy.start Mock.fresh)
        then (@Cluster.made Lossy.platform Mock.config (Lossy.start Mock.fresh)).2
        else (@Cluster.found Lossy.platform Mock.config (Lossy.start Mock.fresh)).2)
       (calls (Lossy.start Mock.fresh)
        ++ @Cluster.requests Lossy.platform Mock.config (Lossy.start Mock.fresh))
       (@Cluster.created Lossy.platform Mock.config (Lossy.start Mock.fresh)).1.1) /\
  (@Cluster.requests Lossy.platform Mock.config (Lossy.start Mock.fresh)
   = [@EvNewClient Lossy.platform {| Addresses := ["http://127.0.0.1:9200"];
                     TLS_InsecureSkipVerify := true |} None;
      @EvHealth Lossy.platform (Some {| Mock.status := 200; Mock.text := "" |}) None;
      @EvExists Lossy.platform ["go-commons-test"] (Some {| Mock.status := 404; Mock.text := "" |}) None;
      @EvCreate Lossy.platform "go-commons-test" (Some {| Mock.status := 200; Mock.text := "[200]" |}) None]).
Proof.
  split; [discriminate|].
  assert (Hh : @Cluster.healthy Lossy.platform Lossy.pointers
                 Mock.config (Lossy.start Mock.fresh))
    by (repeat split; evaluated).
  split; [exact Hh|].
  split; [|evaluated].
  apply (@new_asks_the_cluster Lossy.platform Lossy.pointers
           Demo.unset Demo.os_unset Mock.config (Lossy.start Mock.fresh)).
  - discriminate.
  - exact Hh.
  - evaluated.
  - intros _. evaluated.
Defined.

(** X13 on the cluster that refuses to create the index. *)
Lemma new_fails_iff_witness :
  (Index Mock.config <> "") /\
  is_Some (Some (errorString "error creating index go-commons-test on ES: [403]")) /\
  @Cluster.missing Lossy.platform Mock.config (Lossy.start Demo.read_only) = true /\
  @Cluster.refused Lossy.platform Mock.config (Lossy.start Demo.read_only) = true.
Proof.
  split; [discriminate|].
  split; [eexists; reflexivity|].
  destruct (@new_fails_iff Lossy.platform Lossy.pointers
              Demo.unset Demo.os_unset Mock.config (Lossy.start Demo.read_only))
    as [Hes _]; [discriminate|].
  destruct (Hes (Some (errorString "error creating index go-commons-test on ES: [403]")))
    as [[Hfailed _] _]; [evaluated|].
  destruct Hfailed as [Hf | [Hf | [Hf | Hf]]]; [eexists; reflexivity | | | | exact Hf].
  - exfalso. apply Hf. evaluated.
  - exfalso. apply Hf. evaluated.
  - exfalso. apply Hf. evaluated.
Defined.

(** X15 on the cluster without the index. *)
Lemma new_without_panic_witness :
  (@Pointer.Elastic_new Lossy.platform Lossy.pointers
     Demo.unset Mock.config (Lossy.start Mock.fresh)).1.2 = Returns None /\
  @Elastic.new Lossy.platform Demo.unset Mock.config (Lossy.start Mock.fresh)
  = (((@Pointer.Elastic_new Lossy.platform Lossy.pointers
         Demo.unset Mock.config (Lossy.start Mock.fresh)).1.1, None),
     (@Pointer.Elastic_new Lossy.platform Lossy.pointers
        Demo.unset Mock.config (Lossy.start Mock.fresh)).2).
Proof.
  split; [evaluated|].
  apply (@new_without_panic Lossy.platform Lossy.pointers
           Demo.unset Demo.os_unset Mock.config (Lossy.start Mock.fresh)).
  evaluated.
Defined.

(** X14 on the cluster that drops the connection at the existence check. *)
Lemma new_panics_iff_witness :
  (@Pointer.Elastic_new Lossy.platform Lossy.pointers
     Demo.unset Mock.config (Lossy.start Lossy.dropped)).1.2 = Panics /\
  @is_nil Lossy.platform Lossy.pointers (@Cluster.found Lossy.platform Mock.config (Lossy.start Lossy.dropped)).1.1 = true.
Proof.
  split; [|evaluated].
  apply (@new_panics_iff Lossy.platform Lossy.pointers
           Demo.unset Demo.os_unset Mock.config (Lossy.start Lossy.dropped)).
  split; [discriminate|].
  split; [evaluated|]. split; [evaluated|].
  right. split; [evaluated|]. left. evaluated.
Defined.
